(** * jupyter_pytorch_dev: the notebooks' glue code over a model of the
    PyTorch calls they make.

    The repository holds two notebooks (demo04_NeuralNetwork, demo08_profiler,
    the latter followed by the quickstart notebook) and two Dockerfiles.  The
    code of the notebooks is embedded below function by function; the calls
    into torch (tensors, nn.Flatten, nn.Linear, nn.ReLU, nn.Sequential,
    state_dict, load_state_dict, DataLoader) are modelled after the framework's
    documented behaviour.  The elements of tensors are taken from an abstract
    [Scalar] structure (instantiated with [Z] to compute): a [Tensor F] is a
    tensor of the dtype of the model's parameters.  The Python floats of the
    loops ([loss.item()], [test_loss], [correct]) are IEEE 754 binary64
    numbers. *)

From Stdlib Require Import String Ascii DecimalString ZArith QArith Lia Bool Arith.
From Stdlib Require Import SpecFloat Sorted List.
Import ListNotations.
Set Implicit Arguments.
Set Warnings "-register-all".
Set Default Proof Using "Type".
Local Open Scope nat_scope.

(** ** Python exceptions and the error monad *)

Inductive Exception : Type :=
| IndexError
| RuntimeError
| ZeroDivisionError
| ValueError
| TypeError
| FileNotFoundError.

Inductive result (A : Type) : Type :=
| Ok (a : A)
| Raise (e : Exception).
Arguments Ok {A} a.
Arguments Raise {A} e.

Definition rbind {A B : Type} (r : result A) (k : A -> result B) : result B :=
  match r with
  | Ok a => k a
  | Raise e => Raise e
  end.

Declare Scope result_scope.
Delimit Scope result_scope with result.
Notation "x <- e ;; k" := (rbind e (fun x => k))
  (at level 100, e at next level, right associativity) : result_scope.

(** ** Python floats *)

(** A Python float is a binary64 number; [+], [*] and [/] round to nearest,
    ties to even. *)
Definition PyFloat : Type := spec_float.

Definition float_add : PyFloat -> PyFloat -> PyFloat := SFadd 53 1024.
Definition float_mul : PyFloat -> PyFloat -> PyFloat := SFmul 53 1024.
Definition float_div : PyFloat -> PyFloat -> PyFloat := SFdiv 53 1024.

(** [float(n)] for an int: the nearest binary64 number. *)
Definition float_of_nat (n : nat) : PyFloat := binary_normalize 53 1024 (Z.of_nat n) 0 false.


(** ** Scalars and tensors *)

Class Scalar (F : Type) : Type := {
  zero : F;
  add : F -> F -> F;
  mul : F -> F -> F;
  ltb : F -> F -> bool
}.

#[export] Instance Scalar_Z : Scalar Z :=
  {| zero := 0%Z; add := Z.add; mul := Z.mul; ltb := Z.ltb |}.

Inductive Device : Type := cpu | cuda.

Definition Device_eqb (a b : Device) : bool :=
  match a, b with
  | cpu, cpu | cuda, cuda => true
  | _, _ => false
  end.

(** A tensor: its size, its elements in row-major order, and where it lives. *)
Record Tensor (F : Type) : Type := mkTensor {
  shape : list nat;
  data : list F;
  dev : Device
}.
Arguments mkTensor {F} shape data dev.

Definition numel (s : list nat) : nat := fold_right Nat.mul 1 s.

(** [t.to(d)] *)
Definition Tensor_to {F} (d : Device) (t : Tensor F) : Tensor F :=
  mkTensor (shape t) (data t) d.

(** [k] consecutive rows of [n] elements each. *)
Fixpoint rows {F} (k n : nat) (l : list F) : list (list F) :=
  match k with
  | O => []
  | S k' => firstn n l :: rows k' n (skipn n l)
  end.

(** ** torch.nn layers *)

Section Layers.
Context {F : Type} `{Scalar F}.
Local Open Scope result_scope.

(** Negative dimensions count from the end; a 0-dim tensor is indexed as if it
    had one dimension. *)
Definition wrap_dim (rank : nat) (d : Z) : result nat :=
  let r := Z.of_nat (Nat.max rank 1) in
  if ((- r <=? d) && (d <? r))%Z
  then Ok (Z.to_nat (if (d <? 0)%Z then (d + r)%Z else d))
  else Raise IndexError.

(** torch.flatten(input, start_dim, end_dim) on sizes. *)
Definition flatten_shape (start_dim end_dim : Z) (s : list nat) : result (list nat) :=
  s' <- wrap_dim (length s) start_dim ;;
  e' <- wrap_dim (length s) end_dim ;;
  if e' <? s' then Raise RuntimeError
  else match s with
       | [] => Ok [1]
       | _ => Ok (firstn s' s ++ [numel (firstn (e' - s' + 1) (skipn s' s))] ++ skipn (e' + 1) s)
       end.

Definition flatten_fn (start_dim end_dim : Z) (x : Tensor F) : result (Tensor F) :=
  s <- flatten_shape start_dim end_dim (shape x) ;;
  Ok (mkTensor s (data x) (dev x)).

Definition dot (x w : list F) : F :=
  fold_left add (map (fun p => mul (fst p) (snd p)) (combine x w)) zero.

(** One row of [x A^T + b]. *)
Definition linear_row (in_features out_features : nat) (W : list (list F)) (b : list F)
    (x : list F) : list F :=
  map (fun j => add (dot x (nth j W [])) (nth j b zero)) (seq 0 out_features).

(** torch.nn.functional.linear: the last dimension must be [in_features], and
    input, weight and bias must live on one device. *)
Definition linear (in_features out_features : nat) (weight bias : Tensor F)
    (x : Tensor F) : result (Tensor F) :=
  match rev (shape x) with
  | [] => Raise RuntimeError
  | last_dim :: batch_rev =>
      if negb (last_dim =? in_features) then Raise RuntimeError
      else if negb (Device_eqb (dev x) (dev weight) && Device_eqb (dev x) (dev bias))
      then Raise RuntimeError
      else
        let W := rows out_features in_features (data weight) in
        let xs := rows (numel (rev batch_rev)) in_features (data x) in
        Ok (mkTensor (rev batch_rev ++ [out_features])
                     (concat (map (linear_row in_features out_features W (data bias)) xs))
                     (dev x))
  end.

Definition relu_scalar (v : F) : F := if ltb zero v then v else zero.

Definition relu (x : Tensor F) : Tensor F :=
  mkTensor (shape x) (map relu_scalar (data x)) (dev x).

(** The modules the notebooks build. *)
Inductive Module : Type :=
| Flatten (start_dim end_dim : Z)
| Linear (in_features out_features : nat) (weight bias : Tensor F)
| ReLU
| Sequential (modules : list Module).

(** nn.Flatten(): start_dim=1, end_dim=-1. *)
Definition nn_Flatten : Module := Flatten 1 (-1).

(** nn.Linear(in_features, out_features): [w] and [b] stand for the values the
    framework's random initialisation draws; parameters are created on the CPU. *)
Definition nn_Linear (in_features out_features : nat) (w b : list F) : Module :=
  Linear in_features out_features
         (mkTensor [out_features; in_features] w cpu)
         (mkTensor [out_features] b cpu).

(** [module(x)]: nn.Sequential feeds each module's output to the next. *)
Fixpoint call (m : Module) (x : Tensor F) : result (Tensor F) :=
  match m with
  | Flatten s e => flatten_fn s e x
  | Linear i o w b => linear i o w b x
  | ReLU => Ok (relu x)
  | Sequential ms =>
      (fix go (ms : list Module) (x : Tensor F) : result (Tensor F) :=
         match ms with
         | [] => Ok x
         | m' :: ms' => y <- call m' x ;; go ms' y
         end) ms x
  end.

(** [module.to(d)] moves every parameter. *)
Fixpoint Module_to (d : Device) (m : Module) : Module :=
  match m with
  | Linear i o w b => Linear i o (Tensor_to d w) (Tensor_to d b)
  | Sequential ms => Sequential (map (Module_to d) ms)
  | other => other
  end.

(** ** class NeuralNetwork(nn.Module)
    demo04_NeuralNetwork.ipynb l.85-100 and demo08_profiler.ipynb l.384-399
    (the two definitions agree). *)

Record PyClass : Type := { cls_name : string; cls_bases : list string }.

Definition NeuralNetwork_class : PyClass :=
  {| cls_name := "NeuralNetwork"; cls_bases := ["nn.Module"%string] |}.

Record NeuralNetwork : Type := mkNeuralNetwork {
  flatten : Module;
  linear_relu_stack : Module;
  training : bool
}.

(** The elements of the six parameter tensors, under the names they have in
    the model's state_dict. *)
Record Params : Type := {
  weight_0 : list F; bias_0 : list F;
  weight_2 : list F; bias_2 : list F;
  weight_4 : list F; bias_4 : list F
}.

(** [__init__]: [i] stands for the values the framework's random initialisation
    draws; a new module is in training mode. *)
Definition NeuralNetwork_init (i : Params) : NeuralNetwork :=
  {| flatten := nn_Flatten;
     linear_relu_stack :=
       Sequential [ nn_Linear (28 * 28) 512 (weight_0 i) (bias_0 i);
                    ReLU;
                    nn_Linear 512 512 (weight_2 i) (bias_2 i);
                    ReLU;
                    nn_Linear 512 10 (weight_4 i) (bias_4 i) ];
     training := true |}.

Definition forward (self : NeuralNetwork) (x : Tensor F) : result (Tensor F) :=
  x <- call (flatten self) x ;;
  logits <- call (linear_relu_stack self) x ;;
  Ok logits.

(** [model(x)] runs [forward]; the notebooks register no hooks. *)
Definition NeuralNetwork_call (self : NeuralNetwork) (x : Tensor F) : result (Tensor F) :=
  forward self x.

Definition NeuralNetwork_to (d : Device) (self : NeuralNetwork) : NeuralNetwork :=
  {| flatten := Module_to d (flatten self);
     linear_relu_stack := Module_to d (linear_relu_stack self);
     training := training self |}.

End Layers.

Arguments Module F : clear implicits.
Arguments NeuralNetwork F : clear implicits.
Arguments Params F : clear implicits.

Arguments linear : simpl never.
Arguments flatten_fn : simpl never.
Arguments relu : simpl never.

(** * Text of the repository: Dockerfiles and recorded cell outputs *)

Module Text.
Local Open Scope char_scope.

Definition chars : string -> list ascii := list_ascii_of_string.
Definition str : list ascii -> string := string_of_list_ascii.

Definition is_space (c : ascii) : bool :=
  Ascii.eqb c " " || Ascii.eqb c "009".

Fixpoint drop_spaces (l : list ascii) : list ascii :=
  match l with
  | c :: l' => if is_space c then drop_spaces l' else l
  | [] => []
  end.

Definition trim (l : list ascii) : list ascii :=
  rev (drop_spaces (rev (drop_spaces l))).

(** Maximal runs of characters that are not blanks. *)
Fixpoint words_aux (cur : list ascii) (l : list ascii) : list (list ascii) :=
  match l with
  | [] => match cur with [] => [] | _ => [rev cur] end
  | c :: l' =>
      if is_space c
      then match cur with [] => words_aux [] l' | _ => rev cur :: words_aux [] l' end
      else words_aux (c :: cur) l'
  end.

Definition words (s : string) : list string := map str (words_aux [] (chars s)).

Fixpoint starts_with (p l : list ascii) : bool :=
  match p, l with
  | [], _ => true
  | a :: p', b :: l' => Ascii.eqb a b && starts_with p' l'
  | _ :: _, [] => false
  end.

(** What follows the first occurrence of [p] in [l]. *)
Fixpoint after (p l : list ascii) : option (list ascii) :=
  if starts_with p l then Some (skipn (length p) l)
  else match l with
       | [] => None
       | _ :: l' => after p l'
       end.

Definition contains (p l : string) : bool :=
  match after (chars p) (chars l) with Some _ => true | None => false end.

Fixpoint take_until (stop : ascii -> bool) (l : list ascii) : list ascii :=
  match l with
  | [] => []
  | c :: l' => if stop c then [] else c :: take_until stop l'
  end.

Definition digit (c : ascii) : option Z :=
  let n := nat_of_ascii c in
  if ((48 <=? n) && (n <=? 57))%nat then Some (Z.of_nat (n - 48)%nat) else None.

(** An unsigned decimal such as 2.176574, as mantissa and count of fractional
    digits. *)
Fixpoint decimal_aux (l : list ascii) (mant : Z) (frac : option nat) : option (Z * nat) :=
  match l with
  | [] => Some (mant, match frac with Some k => k | None => O end)
  | c :: l' =>
      if Ascii.eqb c "."
      then match frac with
           | None => decimal_aux l' mant (Some O)
           | Some _ => None
           end
      else match digit c with
           | Some v => decimal_aux l' (10 * mant + v)%Z (option_map S frac)
           | None => None
           end
  end.

Definition decimal (l : list ascii) : option Q :=
  match l with
  | [] => None
  | _ => match decimal_aux l 0%Z None with
         | Some (m, k) => Some (m # Z.to_pos (10 ^ Z.of_nat k))
         | None => None
         end
  end.

(** The double quote character, and a string literal in double quotes. *)
Definition dq : string := String "034" EmptyString.
Definition quoted (s : string) : string := (dq ++ s ++ dq)%string.

End Text.

(** ** The Dockerfiles *)

Module Docker.
Import Text.
Local Open Scope char_scope.

Record Instruction : Type := { keyword : string; args : string }.

Definition is_comment (l : string) : bool := starts_with ["#"] (drop_spaces (chars l)).

Definition is_blank (l : string) : bool :=
  match trim (chars l) with [] => true | _ => false end.

(** A line that ends in a backslash continues on the next one. *)
Definition continued (l : list ascii) : option (list ascii) :=
  match drop_spaces (rev l) with
  | "\" :: body => Some (rev body)
  | _ => None
  end.

(** Comment lines and empty lines are dropped, continued lines are joined. *)
Fixpoint logical_lines (pending : list ascii) (ls : list string) : list (list ascii) :=
  match ls with
  | [] => match pending with [] => [] | _ => [pending] end
  | l :: ls' =>
      if is_comment l || is_blank l then logical_lines pending ls'
      else match continued (chars l) with
           | Some body => logical_lines (pending ++ body) ls'
           | None => (pending ++ chars l) :: logical_lines [] ls'
           end
  end.

Definition instruction (l : list ascii) : Instruction :=
  let l := drop_spaces l in
  let k := take_until is_space l in
  {| keyword := str k; args := str (trim (skipn (length k) l)) |}.

Definition parse (ls : list string) : list Instruction :=
  map instruction (logical_lines [] ls).

Definition with_keyword (k : string) (df : list Instruction) : list string :=
  map args (filter (fun i => String.eqb (keyword i) k) df).

(** The image named by the first FROM. *)
Definition base_image (df : list Instruction) : option string :=
  match with_keyword "FROM" df with
  | a :: _ => hd_error (words a)
  | [] => None
  end.

(** The packages each [pip install] or [pip3 install] of a RUN names. *)
Definition pip_installs (df : list Instruction) : list (list string) :=
  flat_map (fun a => match words a with
                     | p :: i :: pkgs =>
                         if (String.eqb p "pip" || String.eqb p "pip3") && String.eqb i "install"
                         then [pkgs] else []
                     | _ => []
                     end)
           (with_keyword "RUN" df).

(** The strings of a JSON array of strings: [Some s] while inside a literal. *)
Fixpoint json_strings (l : list ascii) (cur : option (list ascii)) (acc : list string)
    : option (list string) :=
  match l with
  | [] => match cur with None => Some (rev acc) | Some _ => None end
  | c :: l' =>
      match cur with
      | Some s => if Ascii.eqb c "034" then json_strings l' None (str (rev s) :: acc)
                  else json_strings l' (Some (c :: s)) acc
      | None => if Ascii.eqb c "034" then json_strings l' (Some []) acc
                else if is_space c || Ascii.eqb c "," then json_strings l' None acc
                else None
      end
  end.

(** The exec form of CMD: a JSON array between brackets. *)
Definition exec_form (a : string) : option (list string) :=
  match trim (chars a) with
  | "[" :: rest =>
      match rev rest with
      | "]" :: inner => json_strings (rev inner) None []
      | _ => None
      end
  | _ => None
  end.

(** The last CMD is the one that takes effect. *)
Definition cmd (df : list Instruction) : option (list string) :=
  match rev (with_keyword "CMD" df) with
  | a :: _ => exec_form a
  | [] => None
  end.

Definition exposed (df : list Instruction) : list string :=
  flat_map words (with_keyword "EXPOSE" df).

Definition mem (s : string) (l : list string) : bool := existsb (String.eqb s) l.

Definition pytorch_base (df : list Instruction) : bool :=
  match base_image df with
  | Some image => contains "pytorch" image
  | None => false
  end.

(** JupyterLab and the classic notebook are the pip packages of Jupyter. *)
Definition pip_installs_jupyter (df : list Instruction) : bool :=
  existsb (fun pkgs => mem "jupyterlab" pkgs || mem "notebook" pkgs || mem "jupyter" pkgs)
          (pip_installs df).

(** requirements.txt is copied into the image and handed to [pip3 install -r]. *)
Fixpoint installs_requirements (df : list Instruction) : bool :=
  match df with
  | [] => false
  | i :: df' =>
      (String.eqb (keyword i) "COPY"
       && String.eqb (args i) "requirements.txt /tmp/requirements.txt"
       && mem "-r /tmp/requirements.txt" (map (String.concat " ") (pip_installs df')))
      || installs_requirements df'
  end.

(** [jupyter notebook] on port 8888, on all interfaces, as root, no browser. *)
Definition launches_notebook_server (df : list Instruction) : bool :=
  match cmd df with
  | Some (prog :: sub :: flags) =>
      String.eqb prog "jupyter" && String.eqb sub "notebook"
      && mem "--port=8888" flags && mem "--ip=0.0.0.0" flags
      && mem "--allow-root" flags && mem "--no-browser" flags
  | _ => false
  end.

Definition exposes_8888 (df : list Instruction) : bool := mem "8888" (exposed df).

(** The Dockerfile on the NVIDIA PyTorch image (src/unnamed/part_000). *)
Definition Dockerfile_gpu : list string :=
  [ "# FROM nvidia/cuda:11.4.2-base-ubuntu20.04";
    "FROM nvcr.io/nvidia/pytorch:22.02-py3";
    "";
    "# Build with some basic utilities";
    "RUN apt-get update && apt-get install -y \";
    "    git ";
    "";
    "# # alias python='python3'";
    "# RUN ln -s /usr/bin/python3 /usr/bin/python";
    "";
    "RUN pip install \";
    "    jupyterlab \";
    "    ipykernel \";
    "    ipywidgets";
    "";
    "# Install Dependencies";
    "COPY requirements.txt /tmp/requirements.txt";
    "RUN pip3 install -r /tmp/requirements.txt";
    "";
    ("CMD [" ++ quoted "jupyter" ++ ", " ++ quoted "notebook" ++ ", " ++ quoted "--ip=0.0.0.0" ++ ", " ++ quoted "--port=8888" ++ ", " ++ quoted "--allow-root" ++ ", " ++ quoted "--no-browser" ++ "]");
    "EXPOSE 8888" ]%string.

(** The Dockerfile on the pytorch/pytorch runtime image
    (demo04_NeuralNetwork.ipynb l.413-439). *)
Definition Dockerfile_runtime : list string :=
  [ "# syntax=docker/dockerfile:1";
    "FROM pytorch/pytorch:1.11.0-cuda11.3-cudnn8-runtime";
    "# WORKDIR /workspace";
    "";
    "# Update";
    "RUN apt-get update";
    "";
    "# Install Jupyter and other maths related libraries";
    "RUN pip install \";
    "    h5py \";
    "    ipykernel>=6.0.0 \";
    "    notebook \";
    "    numpy \";
    "    pandas \";
    "    scipy \";
    "    seaborn";
    "";
    "";
    "# Install Dependencies";
    "COPY requirements.txt /tmp/requirements.txt";
    "RUN pip3 install -r /tmp/requirements.txt";
    "";
    "# Run Jupyter Notebook";
    ("CMD [ " ++ quoted "jupyter" ++ ", " ++ quoted "notebook" ++ ", " ++ quoted "--port=8888" ++ ", " ++ quoted "--no-browser" ++ ",\");
    ("    " ++ quoted "--ip=0.0.0.0" ++ ", " ++ quoted "--allow-root" ++ "]");
    "";
    "EXPOSE 8888" ]%string.

Definition provides_notebook_environment (text : list string) : Prop :=
  let df := parse text in
  pytorch_base df = true /\
  pip_installs_jupyter df = true /\
  installs_requirements df = true /\
  launches_notebook_server df = true /\
  exposes_8888 df = true.

End Docker.

(** ** Outputs recorded in demo08_profiler.ipynb *)

Module Recorded.
Import Text.
Local Open Scope char_scope.

(** What the five-epoch cell printed (demo08_profiler.ipynb l.502-577), line by line. *)
Definition epochs_stdout : list string :=
  [ "Epoch 1";
    "-------------------------------";
    "loss: 2.304023 [    0/60000";
    "loss: 2.297606 [ 6400/60000";
    "loss: 2.279598 [12800/60000";
    "loss: 2.273731 [19200/60000";
    "loss: 2.257257 [25600/60000";
    "loss: 2.232880 [32000/60000";
    "loss: 2.243039 [38400/60000";
    "loss: 2.206182 [44800/60000";
    "loss: 2.205826 [51200/60000";
    "loss: 2.182531 [57600/60000";
    "Test Error: ";
    " Accuracy: 38.3%, Avg loss: 2.176574 ";
    "";
    "Epoch 2";
    "-------------------------------";
    "loss: 2.182367 [    0/60000";
    "loss: 2.181051 [ 6400/60000";
    "loss: 2.124323 [12800/60000";
    "loss: 2.142515 [19200/60000";
    "loss: 2.094232 [25600/60000";
    "loss: 2.042611 [32000/60000";
    "loss: 2.074215 [38400/60000";
    "loss: 1.990848 [44800/60000";
    "loss: 2.003083 [51200/60000";
    "loss: 1.948423 [57600/60000";
    "Test Error: ";
    " Accuracy: 55.4%, Avg loss: 1.938179 ";
    "";
    "Epoch 3";
    "-------------------------------";
    "loss: 1.962338 [    0/60000";
    "loss: 1.944558 [ 6400/60000";
    "loss: 1.825857 [12800/60000";
    "loss: 1.869030 [19200/60000";
    "loss: 1.757936 [25600/60000";
    "loss: 1.712341 [32000/60000";
    "loss: 1.738617 [38400/60000";
    "loss: 1.624431 [44800/60000";
    "loss: 1.652870 [51200/60000";
    "loss: 1.565434 [57600/60000";
    "Test Error: ";
    " Accuracy: 60.1%, Avg loss: 1.569782 ";
    "";
    "Epoch 4";
    "-------------------------------";
    "loss: 1.627955 [    0/60000";
    "loss: 1.602549 [ 6400/60000";
    "loss: 1.443126 [12800/60000";
    "loss: 1.514683 [19200/60000";
    "loss: 1.388451 [25600/60000";
    "loss: 1.394014 [32000/60000";
    "loss: 1.402918 [38400/60000";
    "loss: 1.314623 [44800/60000";
    "loss: 1.352676 [51200/60000";
    "loss: 1.268880 [57600/60000";
    "Test Error: ";
    " Accuracy: 62.1%, Avg loss: 1.284022 ";
    "";
    "Epoch 5";
    "-------------------------------";
    "loss: 1.358831 [    0/60000";
    "loss: 1.348888 [ 6400/60000";
    "loss: 1.173003 [12800/60000";
    "loss: 1.275076 [19200/60000";
    "loss: 1.149222 [25600/60000";
    "loss: 1.185239 [32000/60000";
    "loss: 1.194320 [38400/60000";
    "loss: 1.123013 [44800/60000";
    "loss: 1.166749 [51200/60000";
    "loss: 1.095644 [57600/60000";
    "Test Error: ";
    " Accuracy: 64.1%, Avg loss: 1.108237 ";
    "";
    "Done!" ]%string.

(** The first lines of the table printed by
    [prof.key_averages().table(sort_by=..., row_limit=10)] (l.113-116). *)
Definition cpu_table_head : list string :=
  [ "---------------------------------  ------------  ------------  ------------  ------------  ------------  ------------  ------------  ------------  ";
    "                             Name    Self CPU %      Self CPU   CPU total %     CPU total  CPU time avg       CPU Mem  Self CPU Mem    # of Calls  ";
    "---------------------------------  ------------  ------------  ------------  ------------  ------------  ------------  ------------  ------------  ";
    "                  model_inference         1.89%       7.389ms        99.41%     388.669ms     388.669ms          -4 b    -106.30 Mb             1  " ]%string.

(** The first lines of the table printed with [group_by_input_shape=True]
    (l.154-157). *)
Definition cpu_table_by_shape_head : list string :=
  [ "---------------------------------  ------------  ------------  ------------  ------------  ------------  ------------  ------------  ------------  --------------------------------------------------------------------------------  ";
    "                             Name    Self CPU %      Self CPU   CPU total %     CPU total  CPU time avg       CPU Mem  Self CPU Mem    # of Calls                                                                      Input Shapes  ";
    "---------------------------------  ------------  ------------  ------------  ------------  ------------  ------------  ------------  ------------  --------------------------------------------------------------------------------  ";
    "                  model_inference         1.89%       7.389ms        99.41%     388.669ms     388.669ms          -4 b    -106.30 Mb             1                                                                                []  " ]%string.

(** The accuracy (in percent) and average loss of a line printed by [test]:
    " Accuracy: 38.3%, Avg loss: 2.176574 ". *)
Definition report (line : string) : option (Q * Q) :=
  let l := chars line in
  if starts_with (chars " Accuracy: ") l then
    match decimal (take_until (Ascii.eqb "%") (skipn 11 l)), after (chars "Avg loss: ") l with
    | Some acc, Some rest =>
        match decimal (take_until is_space rest) with
        | Some loss => Some (acc, loss)
        | None => None
        end
    | _, _ => None
    end
  else None.

Definition test_reports (out : list string) : list (Q * Q) :=
  flat_map (fun l => match report l with Some r => [r] | None => [] end) out.

Definition accuracies (out : list string) : list Q := map fst (test_reports out).
Definition avg_losses (out : list string) : list Q := map snd (test_reports out).

(** The runs of dashes of a rule line, as (start, width). *)
Fixpoint column_spans (pos : nat) (cur : option (nat * nat)) (l : list ascii)
    : list (nat * nat) :=
  match l with
  | [] => match cur with Some sp => [sp] | None => [] end
  | c :: l' =>
      if Ascii.eqb c "-"
      then match cur with
           | Some (s, n) => column_spans (S pos) (Some (s, S n)) l'
           | None => column_spans (S pos) (Some (pos, 1%nat)) l'
           end
      else match cur with
           | Some sp => sp :: column_spans (S pos) None l'
           | None => column_spans (S pos) None l'
           end
  end.

Definition cell (line : list ascii) (sp : nat * nat) : string :=
  str (trim (firstn (snd sp) (skipn (fst sp) line))).

(** The header cells of a table that opens with a rule line and a header line. *)
Definition column_names (table : list string) : list string :=
  match table with
  | rule :: header :: _ => map (cell (chars header)) (column_spans 0 None (chars rule))
  | _ => []
  end.

End Recorded.

(** * Saving and loading the parameters (quickstart, l.613 and l.643-644) *)

Section Checkpoint.
Context {F : Type} `{Scalar F}.
Local Open Scope string_scope.

(** An OrderedDict from parameter names to tensors. *)
Definition StateDict : Type := list (string * Tensor F).

Definition index_name (k : nat) : string := NilEmpty.string_of_uint (Nat.to_uint k).

(** Module.state_dict(prefix): own parameters, then the children in order, each
    under its name followed by a dot; the children of a Sequential are named
    by their position. *)
Fixpoint Module_state_dict (prefix : string) (m : Module F) : StateDict :=
  match m with
  | Linear _ _ w b => [(prefix ++ "weight", w); (prefix ++ "bias", b)]
  | Sequential ms =>
      (fix children (k : nat) (ms : list (Module F)) : StateDict :=
         match ms with
         | [] => []
         | m' :: ms' =>
             (Module_state_dict (prefix ++ index_name k ++ ".") m' ++ children (S k) ms')%list
         end) 0 ms
  | _ => []
  end.

Definition state_dict (self : NeuralNetwork F) : StateDict :=
  (Module_state_dict "flatten." (flatten self)
   ++ Module_state_dict "linear_relu_stack." (linear_relu_stack self))%list.

Fixpoint lookup (key : string) (sd : StateDict) : option (Tensor F) :=
  match sd with
  | [] => None
  | (k, v) :: sd' => if String.eqb k key then Some v else lookup key sd'
  end.

Definition shape_eqb (a b : list nat) : bool :=
  if list_eq_dec Nat.eq_dec a b then true else false.

(** What loading reports: parameters it updated, keys it missed, size errors. *)
Record Loaded (A : Type) : Type := mkLoaded {
  loaded : A;
  missing : list string;
  errors : list string
}.

(** One parameter of _load_from_state_dict: [param.copy_(input_param)] keeps
    the parameter where it is and overwrites its elements. *)
Definition load_param (sd : StateDict) (key : string) (p : Tensor F) : Loaded (Tensor F) :=
  match lookup key sd with
  | Some v =>
      if shape_eqb (shape v) (shape p)
      then mkLoaded (mkTensor (shape p) (data v) (dev p)) [] []
      else mkLoaded p [] ["size mismatch for " ++ key]
  | None => mkLoaded p [key] []
  end.

Fixpoint Module_load (sd : StateDict) (prefix : string) (m : Module F) : Loaded (Module F) :=
  match m with
  | Linear i o w b =>
      let lw := load_param sd (prefix ++ "weight") w in
      let lb := load_param sd (prefix ++ "bias") b in
      mkLoaded (Linear i o (loaded lw) (loaded lb))
               (missing lw ++ missing lb)%list (errors lw ++ errors lb)%list
  | Sequential ms =>
      let r :=
        (fix children (k : nat) (ms : list (Module F)) : Loaded (list (Module F)) :=
           match ms with
           | [] => mkLoaded [] [] []
           | m' :: ms' =>
               let l1 := Module_load sd (prefix ++ index_name k ++ ".") m' in
               let l2 := children (S k) ms' in
               mkLoaded (loaded l1 :: loaded l2)
                        (missing l1 ++ missing l2)%list (errors l1 ++ errors l2)%list
           end) 0 ms in
      mkLoaded (Sequential (loaded r)) (missing r) (errors r)
  | other => mkLoaded other [] []
  end.

Record IncompatibleKeys : Type := {
  missing_keys : list string;
  unexpected_keys : list string
}.

Definition IncompatibleKeys_repr (k : IncompatibleKeys) : string :=
  match missing_keys k, unexpected_keys k with
  | [], [] => "<All keys matched successfully>"
  | _, _ => "_IncompatibleKeys(...)"
  end.

(** load_state_dict(state_dict, strict=True): the parameters found are copied
    in place; a missing key, an unexpected key or a size mismatch raises
    RuntimeError after that. *)
Definition load_state_dict (self : NeuralNetwork F) (sd : StateDict)
    : NeuralNetwork F * result IncompatibleKeys :=
  let lf := Module_load sd "flatten." (flatten self) in
  let ls := Module_load sd "linear_relu_stack." (linear_relu_stack self) in
  let own := map fst (state_dict self) in
  let unexpected := filter (fun k => negb (existsb (String.eqb k) own)) (map fst sd) in
  let self' := {| flatten := loaded lf; linear_relu_stack := loaded ls;
                  training := training self |} in
  match (missing lf ++ missing ls)%list, unexpected, (errors lf ++ errors ls)%list with
  | [], [], [] => (self', Ok {| missing_keys := []; unexpected_keys := [] |})
  | _, _, _ => (self', Raise RuntimeError)
  end.

(** Files hold pickled state dictionaries. *)
Definition FileSystem : Type := string -> option StateDict.

(** torch.save(obj, path) *)
Definition torch_save (obj : StateDict) (path : string) (fs : FileSystem) : FileSystem :=
  fun p => if String.eqb p path then Some obj else fs p.

(** torch.load(path) *)
Definition torch_load (path : string) (fs : FileSystem) : result StateDict :=
  match fs path with
  | Some obj => Ok obj
  | None => Raise FileNotFoundError
  end.

(** model.train(mode) *)
Definition NeuralNetwork_train (mode : bool) (self : NeuralNetwork F) : NeuralNetwork F :=
  {| flatten := flatten self; linear_relu_stack := linear_relu_stack self;
     training := mode |}.

(** The elements and size of a tensor, wherever it lives. *)
Definition values (t : Tensor F) : list nat * list F := (shape t, data t).

End Checkpoint.

(** * The training and evaluation loops (quickstart, l.437-483) *)

(** A tensor of class indices (torch.int64). *)
Record LabelTensor : Type := mkLabels { labels : list nat; ldev : Device }.

Definition Label_to (d : Device) (y : LabelTensor) : LabelTensor := mkLabels (labels y) d.

(** What the cells print, before Python formats the numbers:
    [loss: {loss:>7f} [{current:>5d}/{size:>5d}]] and
    [Test Error: Accuracy: {(100*correct):>0.1f}%, Avg loss: {test_loss:>8f}]. *)
Inductive Line : Type :=
| LossLine (loss : PyFloat) (current size : nat)
| TestLine (accuracy avg_loss : PyFloat)
| TextLine (s : string)
| ShapeLine (name : string) (size : list nat)
| ReprLine (class_name : string)
| PredictedLine (predicted actual : string).

Inductive CallKind : Type :=
| KModelTrain | KModelEval | KToX | KToY | KForward | KLossFn
| KZeroGrad | KBackward | KStep | KItem | KPrint.

Section Loops.
Context {F : Type} `{Scalar F}.

(** ** Datasets and DataLoader *)

(** A map-style dataset: [dataset[i]] is an image and its class. *)
Definition Dataset : Type := list (Tensor F * nat).

(** DataLoader(dataset, batch_size): sequential sampling, no shuffling, the
    last batch kept when it is short. *)
Record DataLoader : Type := { dataset : Dataset; batch_size : positive }.

Definition DataLoader_new (ds : Dataset) (bs : nat) : result DataLoader :=
  match bs with
  | O => Raise ValueError
  | _ => Ok {| dataset := ds; batch_size := Pos.of_nat bs |}
  end.

(** default_collate: the images are stacked along a new first axis by
    torch.stack, which raises RuntimeError unless they all have one size; the
    classes are gathered in one tensor; batches are made on the CPU. *)
Definition collate (items : Dataset) : result (Tensor F * LabelTensor) :=
  match items with
  | [] => Raise IndexError
  | (x, _) :: _ =>
      if forallb (fun it => shape_eqb (shape (fst it)) (shape x)) items
      then Ok (mkTensor (length items :: shape x)
                        (concat (map (fun it => data (fst it)) items)) cpu,
               mkLabels (map snd items) cpu)
      else Raise RuntimeError
  end.

Fixpoint chunks {A} (fuel bs : nat) (l : list A) : list (list A) :=
  match fuel with
  | O => []
  | S fuel' =>
      match l with
      | [] => []
      | _ => firstn bs l :: chunks fuel' bs (skipn bs l)
      end
  end.

(** What an iteration over the loader yields, step by step: each step collates
    the next [batch_size] examples, and raises when they cannot be stacked. *)
Definition batches (dl : DataLoader) : list (result (Tensor F * LabelTensor)) :=
  map collate (chunks (length (dataset dl)) (Pos.to_nat (batch_size dl)) (dataset dl)).

(** len(dataloader) = ceil(len(dataset) / batch_size) *)
Definition DataLoader_len (dl : DataLoader) : nat :=
  (length (dataset dl) + Pos.to_nat (batch_size dl) - 1) / Pos.to_nat (batch_size dl).

Definition enumerate {A} (l : list A) : list (nat * A) := combine (seq 0 (length l)) l.

(** ** Parameters, gradients and SGD *)

Fixpoint Module_parameters (m : Module F) : list (Tensor F) :=
  match m with
  | Linear _ _ w b => [w; b]
  | Sequential ms => flat_map Module_parameters ms
  | _ => []
  end.

Definition parameters (self : NeuralNetwork F) : list (Tensor F) :=
  Module_parameters (flatten self) ++ Module_parameters (linear_relu_stack self).

(** Apply [f] to every parameter, handing it the parameter's name. *)
Fixpoint Module_map_named (f : string -> Tensor F -> Tensor F) (prefix : string)
    (m : Module F) : Module F :=
  match m with
  | Linear i o w b => Linear i o (f (prefix ++ "weight")%string w) (f (prefix ++ "bias")%string b)
  | Sequential ms =>
      Sequential
        ((fix children (k : nat) (ms : list (Module F)) : list (Module F) :=
            match ms with
            | [] => []
            | m' :: ms' =>
                Module_map_named f (prefix ++ index_name k ++ ".")%string m'
                :: children (S k) ms'
            end) 0 ms)
  | other => other
  end.

Definition NeuralNetwork_map_named (f : string -> Tensor F -> Tensor F)
    (self : NeuralNetwork F) : NeuralNetwork F :=
  {| flatten := Module_map_named f "flatten." (flatten self);
     linear_relu_stack := Module_map_named f "linear_relu_stack." (linear_relu_stack self);
     training := training self |}.

(** The [.grad] of the parameters, by name; a parameter without an entry has
    [grad = None]. *)
Definition Grads : Type := list (string * list F).

Fixpoint grad_of (key : string) (g : Grads) : option (list F) :=
  match g with
  | [] => None
  | (k, v) :: g' => if String.eqb k key then Some v else grad_of key g'
  end.

Definition zip_with {A B C} (f : A -> B -> C) (a : list A) (b : list B) : list C :=
  map (fun p => f (fst p) (snd p)) (combine a b).

(** Gradients accumulate into [.grad]. *)
Definition accumulate (old new : Grads) : Grads :=
  map (fun kv => (fst kv,
                  match grad_of (fst kv) old with
                  | Some g0 => zip_with add g0 (snd kv)
                  | None => snd kv
                  end)) new
  ++ filter (fun kv => match grad_of (fst kv) new with Some _ => false | None => true end) old.

(** ** The interpreter state and its monad *)

(** The output of a forward pass remembers, when gradients are tracked, the
    model and the input it came from. *)
Record Pred : Type := { value : Tensor F; grad_fn : option (NeuralNetwork F * Tensor F) }.

Record Loss : Type := {
  item : PyFloat;
  loss_grad_fn : option (NeuralNetwork F * Tensor F * LabelTensor)
}.

Inductive Call : Type :=
| CModelTrain
| CModelEval
| CTensorTo (x : Tensor F) (d : Device)
| CLabelTo (y : LabelTensor) (d : Device)
| CForward (params_on : list Device) (x : Tensor F) (grad_mode : bool)
| CLossFn (pred : Tensor F) (y : LabelTensor)
| CZeroGrad
| CBackward
| CStep
| CItem
| CPrint.

Definition kind (c : Call) : CallKind :=
  match c with
  | CModelTrain => KModelTrain | CModelEval => KModelEval
  | CTensorTo _ _ => KToX | CLabelTo _ _ => KToY | CForward _ _ _ => KForward
  | CLossFn _ _ => KLossFn | CZeroGrad => KZeroGrad | CBackward => KBackward
  | CStep => KStep | CItem => KItem | CPrint => KPrint
  end.

(** [model] is the module the global [model] names, which is also the one
    whose parameters the optimizer holds. *)
Record World : Type := mkWorld {
  model : NeuralNetwork F;
  grads : Grads;
  grad_enabled : bool;
  files : @FileSystem F;
  stdout : list Line;
  calls : list Call
}.

Definition Py (A : Type) : Type := World -> result A * World.

Definition ret {A} (a : A) : Py A := fun w => (Ok a, w).

Definition raise {A} (e : Exception) : Py A := fun w => (Raise e, w).

Definition bind {A B} (m : Py A) (k : A -> Py B) : Py B :=
  fun w => match m w with
           | (Ok a, w') => k a w'
           | (Raise e, w') => (Raise e, w')
           end.

Definition lift {A} (r : result A) : Py A := fun w => (r, w).

End Loops.

Declare Scope py_scope.
Delimit Scope py_scope with py.
Notation "x <- e ;; k" := (bind e (fun x => k))
  (at level 100, e at next level, right associativity) : py_scope.
Notation "e ;; k" := (bind e (fun _ => k))
  (at level 100, right associativity) : py_scope.

Arguments Dataset F : clear implicits.
Arguments DataLoader F : clear implicits.
Arguments Grads F : clear implicits.
Arguments Pred F : clear implicits.
Arguments Loss F : clear implicits.
Arguments Call F : clear implicits.
Arguments World F : clear implicits.
Arguments Py F A : clear implicits.
Arguments StateDict F : clear implicits.
Arguments FileSystem F : clear implicits.

Section Training.
Context {F : Type} `{Scalar F}.
Local Open Scope py_scope.

(** [loss_fn(pred, y)]: the value of the loss, or the exception it raises. *)
Variable loss_fn : Tensor F -> LabelTensor -> result PyFloat.
(** Autograd: the gradient of [loss_fn(model(X), y)] in the parameters. *)
Variable autograd : NeuralNetwork F -> Tensor F -> LabelTensor -> Grads F.
(** [- lr] of SGD(model.parameters(), lr=1e-3), as a scalar. *)
Variable neg_lr : F.
(** The global [device]. *)
Variable device : Device.

Definition log (c : Call F) : Py F unit :=
  fun w => (Ok tt, mkWorld (model w) (grads w) (grad_enabled w) (files w) (stdout w)
                           (calls w ++ [c])).

Definition print (l : Line) : Py F unit :=
  fun w => (Ok tt, mkWorld (model w) (grads w) (grad_enabled w) (files w) (stdout w ++ [l])
                           (calls w ++ [CPrint])).

Definition set_model (f : NeuralNetwork F -> NeuralNetwork F) : Py F unit :=
  fun w => (Ok tt, mkWorld (f (model w)) (grads w) (grad_enabled w) (files w) (stdout w)
                           (calls w)).

Definition set_grads (f : Grads F -> Grads F) : Py F unit :=
  fun w => (Ok tt, mkWorld (model w) (f (grads w)) (grad_enabled w) (files w) (stdout w)
                           (calls w)).

Definition set_grad_enabled (b : bool) (w : World F) : World F :=
  mkWorld (model w) (grads w) b (files w) (stdout w) (calls w).

(** [with torch.no_grad():] the previous mode comes back on exit, also when
    the body raises. *)
Definition no_grad {A} (body : Py F A) : Py F A :=
  fun w => let (r, w') := body (set_grad_enabled false w) in
           (r, set_grad_enabled (grad_enabled w) w').

(** [model.train()] and [model.eval()] *)
Definition model_train : Py F unit := log CModelTrain ;; set_model (NeuralNetwork_train true).
Definition model_eval : Py F unit := log CModelEval ;; set_model (NeuralNetwork_train false).

(** [X.to(device)], [y.to(device)] *)
Definition tensor_to (d : Device) (x : Tensor F) : Py F (Tensor F) :=
  log (CTensorTo x d) ;; ret (Tensor_to d x).
Definition label_to (d : Device) (y : LabelTensor) : Py F LabelTensor :=
  log (CLabelTo y d) ;; ret (Label_to d y).

(** [model(X)] *)
Definition model_call (x : Tensor F) : Py F (Pred F) :=
  fun w =>
    (log (CForward (map (@dev F) (parameters (model w))) x (grad_enabled w)) ;;
     v <- lift (NeuralNetwork_call (model w) x) ;;
     ret {| value := v;
            grad_fn := if grad_enabled w then Some (model w, x) else None |}) w.

(** [loss_fn(pred, y)] *)
Definition loss_call (pred : Pred F) (y : LabelTensor) : Py F (Loss F) :=
  log (CLossFn (value pred) y) ;;
  v <- lift (loss_fn (value pred) y) ;;
  ret {| item := v;
         loss_grad_fn := match grad_fn pred with
                         | Some (m, x) => Some (m, x, y)
                         | None => None
                         end |}.

(** [optimizer.zero_grad()]: the gradients that exist are zeroed. *)
Definition optimizer_zero_grad : Py F unit :=
  log CZeroGrad ;;
  set_grads (map (fun kv => (fst kv, map (fun _ => zero) (snd kv)))).

(** [loss.backward()]: a loss computed without gradient tracking cannot be
    differentiated. *)
Definition loss_backward (loss : Loss F) : Py F unit :=
  log CBackward ;;
  match loss_grad_fn loss with
  | Some (m, x, y) => set_grads (fun g => accumulate g (autograd m x y))
  | None => raise RuntimeError
  end.

(** One SGD update of a parameter: [p.add_(p.grad, alpha=-lr)]. *)
Definition sgd_update (g : Grads F) (key : string) (p : Tensor F) : Tensor F :=
  match grad_of key g with
  | Some gp => mkTensor (shape p) (zip_with (fun pv gv => add pv (mul neg_lr gv)) (data p) gp)
                        (dev p)
  | None => p
  end.

(** [optimizer.step()] *)
Definition optimizer_step : Py F unit :=
  log CStep ;;
  (fun w => set_model (NeuralNetwork_map_named (sgd_update (grads w))) w).

(** [loss.item()] *)
Definition loss_item (loss : Loss F) : Py F PyFloat := log CItem ;; ret (item loss).

(** [len(X)]: the size of the first axis. *)
Definition len (x : Tensor F) : nat := hd 0 (shape x).

Fixpoint for_each {A} (l : list A) (body : A -> Py F unit) : Py F unit :=
  match l with
  | [] => ret tt
  | a :: l' => body a ;; for_each l' body
  end.

Fixpoint for_fold {A S} (l : list A) (s : S) (body : S -> A -> Py F S) : Py F S :=
  match l with
  | [] => ret s
  | a :: l' => s' <- body s a ;; for_fold l' s' body
  end.

(** ** def train(dataloader, model, loss_fn, optimizer) *)

Definition train_batch (size batch : nat) (b : Tensor F * LabelTensor) : Py F unit :=
  X <- tensor_to device (fst b) ;;
  y <- label_to device (snd b) ;;
  pred <- model_call X ;;
  loss <- loss_call pred y ;;
  optimizer_zero_grad ;;
  loss_backward loss ;;
  optimizer_step ;;
  if batch mod 100 =? 0 then
    (l <- loss_item loss ;;
     print (LossLine l (batch * len X) size))
  else ret tt.

(** [for batch, (X, y) in enumerate(dataloader)]: each round first takes the
    next batch from the loader. *)
Definition train (dataloader : DataLoader F) : Py F unit :=
  let size := length (dataset dataloader) in
  model_train ;;
  for_each (enumerate (batches dataloader))
           (fun ib => Xy <- lift (snd ib) ;; train_batch size (fst ib) Xy).

(** ** def test(dataloader, model, loss_fn) *)

(** The first index of the largest element. *)
Fixpoint argmax_from (best_i : nat) (best : F) (i : nat) (l : list F) : nat :=
  match l with
  | [] => best_i
  | v :: l' => if ltb best v then argmax_from i v (S i) l' else argmax_from best_i best (S i) l'
  end.

Definition argmax (row : list F) : nat :=
  match row with
  | [] => 0
  | v :: l => argmax_from 0 v 1 l
  end.

(** [pred.argmax(1)] of a two-dimensional tensor. *)
Definition argmax_1 (pred : Tensor F) : result (list nat) :=
  match shape pred with
  | [n; c] => if c =? 0 then Raise IndexError else Ok (map argmax (rows n c (data pred)))
  | _ => Raise IndexError
  end.

(** The number of positions at which the predicted class is the label. *)
Definition matches (classes y : list nat) : nat :=
  length (filter (fun p => fst p =? snd p) (combine classes y)).

(** [(pred.argmax(1) == y).type(torch.float).sum().item()] for operands of one
    size on one device: the count of equal entries, as a float (a sum of at
    most a batch of ones). *)
Definition correct_count (pred : Tensor F) (y : LabelTensor) : result PyFloat :=
  (classes <- argmax_1 pred ;;
   if negb (Device_eqb (dev pred) (ldev y)) then Raise RuntimeError
   else if negb (length classes =? length (labels y)) then Raise RuntimeError
   else Ok (float_of_nat (matches classes (labels y))))%result.

(** Python's [a / b] for a number [a] and an int [b]. *)
Definition py_div (a : PyFloat) (b : nat) : result PyFloat :=
  if b =? 0 then Raise ZeroDivisionError else Ok (float_div a (float_of_nat b)).

(** [test_loss += ...; correct += ...] *)
Definition test_batch (acc : PyFloat * PyFloat) (b : Tensor F * LabelTensor)
    : Py F (PyFloat * PyFloat) :=
  X <- tensor_to device (fst b) ;;
  y <- label_to device (snd b) ;;
  pred <- model_call X ;;
  loss <- loss_call pred y ;;
  l <- loss_item loss ;;
  c <- lift (correct_count (value pred) y) ;;
  ret (float_add (fst acc) l, float_add (snd acc) c).

Definition test (dataloader : DataLoader F) : Py F unit :=
  let size := length (dataset dataloader) in
  let num_batches := DataLoader_len dataloader in
  model_eval ;;
  acc <- no_grad (for_fold (batches dataloader) (float_of_nat 0, float_of_nat 0)
                           (fun acc rb => Xy <- lift rb ;; test_batch acc Xy)) ;;
  test_loss <- lift (py_div (fst acc) num_batches) ;;
  correct <- lift (py_div (snd acc) size) ;;
  print (TestLine (float_mul (float_of_nat 100) correct) test_loss).

End Training.

(** * The notebooks, cell by cell *)

(** [device = "cuda" if torch.cuda.is_available() else "cpu"]
    (demo04 l.49, quickstart l.380) *)
Definition device (cuda_is_available : bool) : Device :=
  if cuda_is_available then cuda else cpu.

Definition device_name (d : Device) : string :=
  match d with cuda => "cuda" | cpu => "cpu" end.

Definition newline : string := String (ascii_of_nat 10) EmptyString.

(** [classes] (quickstart l.668-679) *)
Definition classes : list string :=
  ["T-shirt/top"; "Trouser"; "Pullover"; "Dress"; "Coat"; "Sandal"; "Shirt"; "Sneaker";
   "Bag"; "Ankle boot"]%string.

Section Notebooks.
Context {F : Type} `{Scalar F}.
Local Open Scope py_scope.

Variable loss_fn : Tensor F -> LabelTensor -> result PyFloat.
Variable autograd : NeuralNetwork F -> Tensor F -> LabelTensor -> Grads F.
Variable neg_lr : F.
(** [torch.cuda.is_available()] *)
Variable cuda_is_available : bool.

(** [dataset[i]]: ToTensor() builds the image tensor on the CPU. *)
Definition getitem (ds : Dataset F) (i : nat) : result (Tensor F * nat) :=
  match nth_error ds i with
  | Some it => Ok (Tensor_to cpu (fst it), snd it)
  | None => Raise IndexError
  end.

(** [for X, y in test_dataloader: print(X.shape); print(y.shape, y.dtype); break] *)
Definition print_first_batch (dl : DataLoader F) : Py F unit :=
  match batches dl with
  | rb :: _ =>
      b <- lift rb ;;
      print (ShapeLine "X" (shape (fst b))) ;;
      print (ShapeLine "y" [length (labels (snd b))])
  | [] => ret tt
  end.

(** [torch.save(model.state_dict(), path)] *)
Definition save_model (path : string) : Py F unit :=
  fun w => (Ok tt, mkWorld (model w) (grads w) (grad_enabled w)
                           (torch_save (state_dict (model w)) path (files w))
                           (stdout w) (calls w)).

(** [model.load_state_dict(torch.load(path))] *)
Definition load_model (path : string) : Py F IncompatibleKeys :=
  fun w => match torch_load path (files w) with
           | Ok sd =>
               let r := load_state_dict (model w) sd in
               (snd r, mkWorld (fst r) (grads w) (grad_enabled w) (files w) (stdout w)
                               (calls w))
           | Raise e => (Raise e, w)
           end.

(** [classes[pred[0].argmax(0)]] for a two-dimensional [pred]. *)
Definition predicted_class (pred : Tensor F) : result string :=
  match shape pred with
  | [S _; c] =>
      match nth_error classes (argmax (firstn c (data pred))) with
      | Some name => Ok name
      | None => Raise IndexError
      end
  | [O; _] => Raise IndexError
  | _ => Raise TypeError
  end.

Definition class_name (y : nat) : result string :=
  match nth_error classes y with
  | Some name => Ok name
  | None => Raise IndexError
  end.

(** [epochs = 5] *)
Definition epochs : nat := 5.

(** The quickstart notebook up to "Done!" (demo08_profiler.ipynb l.333-587):
    loaders, device, model, loss function and optimizer, the five epochs.
    [init] stands for the values NeuralNetwork() draws. *)
Definition quickstart_training (init : Params F) (training_data test_data : Dataset F)
    : Py F (DataLoader F) :=
  train_dataloader <- lift (DataLoader_new training_data 64) ;;
  test_dataloader <- lift (DataLoader_new test_data 64) ;;
  print_first_batch test_dataloader ;;
  print (TextLine ("Using " ++ device_name (device cuda_is_available) ++ " device")) ;;
  set_model (fun _ => NeuralNetwork_to (device cuda_is_available) (NeuralNetwork_init init)) ;;
  print (ReprLine "NeuralNetwork") ;;
  (* loss_fn = nn.CrossEntropyLoss(); optimizer = SGD(model.parameters(), lr=1e-3):
     the parameters of the new model have no gradient yet *)
  set_grads (fun _ => []) ;;
  for_each (seq 0 epochs)
           (fun t =>
              print (TextLine ("Epoch " ++ index_name (t + 1) ++ newline
                               ++ "-------------------------------")) ;;
              train loss_fn autograd neg_lr (device cuda_is_available) train_dataloader ;;
              test loss_fn (device cuda_is_available) test_dataloader) ;;
  print (TextLine "Done!") ;;
  ret test_dataloader.

(** The rest of the notebook (l.613-686): the parameters are saved, a new
    model is built and loaded from the file, and one test image is classified.
    [reinit] stands for the values the second NeuralNetwork() draws. *)
Definition quickstart_reload (reinit : Params F) (test_data : Dataset F) : Py F unit :=
  save_model "model.pth" ;;
  print (TextLine "Saved PyTorch Model State to model.pth") ;;
  set_model (fun _ => NeuralNetwork_init reinit) ;;
  _ <- load_model "model.pth" ;;
  model_eval ;;
  xy <- lift (getitem test_data 0) ;;
  no_grad (pred <- model_call (fst xy) ;;
           predicted <- lift (predicted_class (value pred)) ;;
           actual <- lift (class_name (snd xy)) ;;
           print (PredictedLine predicted actual)).

Definition quickstart (init reinit : Params F) (training_data test_data : Dataset F)
    : Py F unit :=
  _ <- quickstart_training init training_data test_data ;;
  quickstart_reload reinit test_data.

(** [module(x)] for a layer or container used on its own. *)
Definition module_call (m : Module F) (x : Tensor F) : Py F (Tensor F) :=
  fun w => (log (CForward (map (@dev F) (Module_parameters m)) x (grad_enabled w)) ;;
            lift (call m x)) w.

(** demo04_NeuralNetwork.ipynb, the cells that run modules (l.49-311):
    [X], [image], [image'] stand for the values torch.rand draws, [layer1] and
    [layer2] for those of the two nn.Linear made outside the class.  Softmax,
    argmax and the prints of tensor values are left out. *)
Definition demo04 (init : Params F) (X image image' : list F)
    (layer1 layer2 : list F * list F) : Py F (Tensor F) :=
  print (TextLine ("Using " ++ device_name (device cuda_is_available) ++ " device")) ;;
  set_model (fun _ => NeuralNetwork_to (device cuda_is_available) (NeuralNetwork_init init)) ;;
  print (ReprLine "NeuralNetwork") ;;
  _ <- model_call (mkTensor [1; 28; 28] X (device cuda_is_available)) ;;
  let input_image := mkTensor [3; 28; 28] image cpu in
  print (ShapeLine "input_image" (shape input_image)) ;;
  let flatten := nn_Flatten in
  flat_image <- module_call flatten input_image ;;
  print (ShapeLine "flat_image" (shape flat_image)) ;;
  let layer1 := nn_Linear (28 * 28) 20 (fst layer1) (snd layer1) in
  hidden1 <- module_call layer1 flat_image ;;
  print (ShapeLine "hidden1" (shape hidden1)) ;;
  _ <- module_call ReLU hidden1 ;;
  let seq_modules :=
    Sequential [flatten; layer1; ReLU; nn_Linear 20 10 (fst layer2) (snd layer2)] in
  let input_image := mkTensor [3; 28; 28] image' cpu in
  module_call seq_modules input_image.

End Notebooks.

(** * Specifications *)

Section Specifications.
Context {F : Type} `{Scalar F}.

Variable loss_fn : Tensor F -> LabelTensor -> result PyFloat.
Variable neg_lr : F.
Variable device : Device.

(** The three linear layers of a NeuralNetwork whose parameters were moved to [d]. *)
Definition layer_0 (i : Params F) (d : Device) : Tensor F -> result (Tensor F) :=
  linear 784 512 (mkTensor [512; 784] (weight_0 i) d) (mkTensor [512] (bias_0 i) d).
Definition layer_2 (i : Params F) (d : Device) : Tensor F -> result (Tensor F) :=
  linear 512 512 (mkTensor [512; 512] (weight_2 i) d) (mkTensor [512] (bias_2 i) d).
Definition layer_4 (i : Params F) (d : Device) : Tensor F -> result (Tensor F) :=
  linear 512 10 (mkTensor [10; 512] (weight_4 i) d) (mkTensor [10] (bias_4 i) d).

(** An invariant speaks of the model, the gradients and the gradient mode. *)
Definition Inv : Type := NeuralNetwork F -> Grads F -> bool -> Prop.

Definition holds (I : Inv) (w : World F) : Prop :=
  I (model w) (grads w) (grad_enabled w).

(** [triple I P m Q]: from a state in [I], [m] ends in [I], every call it makes
    satisfies [P], and a value it returns satisfies [Q]. *)
Definition triple {A} (I : Inv) (P : Call F -> Prop) (m : Py F A) (Q : A -> Prop) : Prop :=
  forall w, holds I w ->
    holds I (snd (m w)) /\
    (exists new, calls (snd (m w)) = calls w ++ new /\ Forall P new) /\
    (forall a, fst (m w) = Ok a -> Q a).

(** [hoare I P m J]: from a state in [I], every call [m] makes satisfies [P],
    and if [m] returns, the state is in [J]. *)
Definition hoare {A} (I : Inv) (P : Call F -> Prop) (m : Py F A) (J : Inv) : Prop :=
  forall w, holds I w ->
    (exists new, calls (snd (m w)) = calls w ++ new /\ Forall P new) /\
    (forall a, fst (m w) = Ok a -> holds J (snd (m w))).

(** [P] holds of every call that is neither a forward pass nor a move, and of
    the moves to [d]. *)
Definition forward_only (P : Call F -> Prop) : Prop :=
  forall c, kind c <> KForward -> kind c <> KToX -> kind c <> KToY -> P c.

Definition moves_to (d : Device) (P : Call F -> Prop) : Prop :=
  (forall x, P (CTensorTo x d)) /\ (forall y, P (CLabelTo y d)).

(** The calls made for the batch of index [i]. *)
Definition batch_kinds (i : nat) : list CallKind :=
  [KToX; KToY; KForward; KLossFn; KZeroGrad; KBackward; KStep]
  ++ (if i mod 100 =? 0 then [KItem; KPrint] else []).

(** The tensors handed to the model, and the tensors moved, in order. *)
Definition forward_inputs (cs : list (Call F)) : list (Tensor F) :=
  flat_map (fun c => match c with CForward _ x _ => [x] | _ => [] end) cs.

Fixpoint moves (cs : list (Call F)) : list (Tensor F * Device) :=
  match cs with
  | [] => []
  | CTensorTo x d :: cs' => (x, d) :: moves cs'
  | _ :: cs' => moves cs'
  end.

Fixpoint label_moves (cs : list (Call F)) : list (LabelTensor * Device) :=
  match cs with
  | [] => []
  | CLabelTo y d :: cs' => (y, d) :: label_moves cs'
  | _ :: cs' => label_moves cs'
  end.

(** The labels handed to the loss function, in order. *)
Definition loss_labels (cs : list (Call F)) : list LabelTensor :=
  flat_map (fun c => match c with CLossFn _ y => [y] | _ => [] end) cs.

(** The line printed for batch [ib] of a dataset of [size] examples. *)
Definition progress_line (size : nat) (line : Line) (ib : nat * (Tensor F * LabelTensor)) : Prop :=
  exists loss, line = LossLine loss (fst ib * len (fst (snd ib))) size.

(** A sum accumulated from 0 with [+=], in the order of the list. *)
Definition float_sum (l : list PyFloat) : PyFloat := fold_left float_add l (float_of_nat 0).

(** The examples of a batch whose predicted class, the argmax of the row of
    logits, is the label. *)
Definition hits (pred : Tensor F) (y : list nat) : nat :=
  match shape pred with
  | [n; c] => length (filter (fun p => argmax (fst p) =? snd p)
                             (combine (rows n c (data pred)) y))
  | _ => 0
  end.

(** What the body of [test]'s loop computes on one batch: the loss, and the
    number of examples predicted right. *)
Definition batch_eval (m : NeuralNetwork F) (b : Tensor F * LabelTensor)
    : result (PyFloat * nat) :=
  (pred <- NeuralNetwork_call m (Tensor_to device (fst b)) ;;
   l <- loss_fn pred (Label_to device (snd b)) ;;
   _ <- correct_count pred (Label_to device (snd b)) ;;
   Ok (l, hits pred (labels (snd b))))%result.

(** The same over what the loader yields, up to the first step that raises:
    in the loader, in the model or in the loss function. *)
Fixpoint eval_batches (m : NeuralNetwork F) (rbs : list (result (Tensor F * LabelTensor)))
    : result (list (PyFloat * nat)) :=
  match rbs with
  | [] => Ok []
  | rb :: rest =>
      (b <- rb ;; o <- batch_eval m b ;; os <- eval_batches m rest ;; Ok (o :: os))%result
  end.


(** Every state of a NeuralNetwork is that of a new one after [.to(d)] and
    [.train(mode)], for some parameter values. *)
Definition canonical (d : Device) : Inv :=
  fun m _ _ =>
    exists p mode, m = NeuralNetwork_train mode (NeuralNetwork_to d (NeuralNetwork_init p)).

Definition sgd_data (g : Grads F) (key : string) (t : Tensor F) : list F :=
  data (sgd_update neg_lr g key t).

Definition load_data (sd : StateDict F) (key : string) (t : Tensor F) : list F :=
  data (loaded (load_param sd key t)).

(** Moves go to [d], and forward passes run with input and parameters on [d]. *)
Definition on_device (d : Device) (c : Call F) : Prop :=
  match c with
  | CForward ds x _ => dev x = d /\ Forall (fun d' => d' = d) ds
  | CTensorTo _ d' => d' = d
  | CLabelTo _ d' => d' = d
  | _ => True
  end.

(** A forward pass whose parameters are where its input is. *)
Definition same_device (c : Call F) : Prop :=
  match c with
  | CForward ds x _ => Forall (fun d' => d' = dev x) ds
  | _ => True
  end.

Definition anything : Inv := fun _ _ _ => True.

(** The devices of the parameters and of the input at each forward pass. *)
Definition forward_devices (cs : list (Call F)) : list (list Device * Device) :=
  flat_map (fun c => match c with CForward ds x _ => [(ds, dev x)] | _ => [] end) cs.


End Specifications.

Arguments Inv F : clear implicits.

Section TraceSpecifications.
Context {F : Type} `{Scalar F}.

Variable loss_fn : Tensor F -> LabelTensor -> result PyFloat.
Variable autograd : NeuralNetwork F -> Tensor F -> LabelTensor -> Grads F.
Variable neg_lr : F.
Variable device : Device.

(** The predictions handed to the loss function, in order. *)
Definition loss_preds (cs : list (Call F)) : list (Tensor F) :=
  flat_map (fun c => match c with CLossFn pred _ => [pred] | _ => [] end) cs.

(** The model and the gradients after [zero_grad(); backward(); step()] on the
    batch [b], from the model and the gradients before it. *)
Definition batch_step (mg : NeuralNetwork F * Grads F) (b : Tensor F * LabelTensor)
    : NeuralNetwork F * Grads F :=
  let zeroed := map (fun kv => (fst kv, map (fun _ => zero) (snd kv))) (snd mg) in
  let g := accumulate zeroed
             (autograd (fst mg) (Tensor_to device (fst b)) (Label_to device (snd b))) in
  (NeuralNetwork_map_named (sgd_update neg_lr g) (fst mg), g).

(** The model as each batch finds it. *)
Fixpoint models_before (mg : NeuralNetwork F * Grads F) (bs : list (Tensor F * LabelTensor))
    : list (NeuralNetwork F) :=
  match bs with
  | [] => []
  | b :: bs' => fst mg :: models_before (batch_step mg b) bs'
  end.

(** [pred = model(X); loss = loss_fn(pred, y)] on the moved batch, with the
    model [m]: the prediction and the loss value. *)
Definition batch_forward (mb : NeuralNetwork F * (Tensor F * LabelTensor))
    (step : Tensor F * PyFloat) : Prop :=
  NeuralNetwork_call (fst mb) (Tensor_to device (fst (snd mb))) = Ok (fst step) /\
  loss_fn (fst step) (Label_to device (snd (snd mb))) = Ok (snd step).

(** The lines printed for batches numbered from [k], given each batch's loss
    value. *)
Definition progress_lines (size k : nat) (bl : list ((Tensor F * LabelTensor) * PyFloat))
    : list Line :=
  flat_map (fun ibl => if fst ibl mod 100 =? 0
                       then [LossLine (snd (snd ibl)) (fst ibl * len (fst (fst (snd ibl)))) size]
                       else [])
           (combine (seq k (length bl)) bl).

End TraceSpecifications.

(** ** Concrete inputs *)

Definition zeros (n : nat) : list Z := repeat 0%Z n.

(** A network whose parameters are all zero. *)
Definition zero_params : Params Z :=
  {| weight_0 := zeros (512 * 784); bias_0 := zeros 512;
     weight_2 := zeros (512 * 512); bias_2 := zeros 512;
     weight_4 := zeros (10 * 512); bias_4 := zeros 10 |}.

(** A FashionMNIST-sized image: one channel of 28x28 values. *)
Definition blank_image : Tensor Z := mkTensor [1; 28; 28] (zeros 784) cpu.

Definition three_examples : Dataset Z := [(blank_image, 3); (blank_image, 0); (blank_image, 1)].

Definition sample_loader : DataLoader Z :=
  {| dataset := three_examples; batch_size := 2%positive |}.

Definition empty_loader : DataLoader Z := {| dataset := []; batch_size := 64%positive |}.

(** The float 0.5. *)
Definition one_half : PyFloat := float_div (float_of_nat 1) (float_of_nat 2).

Definition constant_loss : Tensor Z -> LabelTensor -> result PyFloat := fun _ _ => Ok one_half.

Definition no_gradient : NeuralNetwork Z -> Tensor Z -> LabelTensor -> Grads Z :=
  fun _ _ _ => [].

Definition initial_world : World Z :=
  mkWorld (NeuralNetwork_init zero_params) [] true (fun _ => None) [] [].

(** A gradient of ones for the last bias, whatever the batch. *)
Definition unit_gradient : NeuralNetwork Z -> Tensor Z -> LabelTensor -> Grads Z :=
  fun _ _ _ => [("linear_relu_stack.4.bias"%string, repeat 1%Z 10)].



(** * Further specifications *)

Section LayerSpecifications.
Context {F : Type} `{Scalar F}.

(** How [forward] ends on an input, for a model on device [d]: [None] when it
    returns logits, otherwise the exception. *)
Definition forward_outcome (d : Device) (x : Tensor F) : option Exception :=
  match shape x with
  | [] | [_] => Some IndexError
  | _ :: dims =>
      if (numel dims =? 784) && Device_eqb (dev x) d then None else Some RuntimeError
  end.

End LayerSpecifications.

Section RunSpecifications.
Context {F : Type} `{Scalar F}.

(** A dataset as FashionMNIST with ToTensor() gives it: images of one channel
    of 28x28 values, classes among the ten. *)
Definition image_dataset (ds : Dataset F) : Prop :=
  Forall (fun it => shape (fst it) = [1; 28; 28] /\ snd it < 10) ds.

(** A batch of such images with their classes. *)
Definition image_batch (b : Tensor F * LabelTensor) : Prop :=
  labels (snd b) <> [] /\
  shape (fst b) = [length (labels (snd b)); 1; 28; 28] /\
  Forall (fun c => c < 10) (labels (snd b)).

(** What the notebooks rely on from nn.CrossEntropyLoss: it returns a value
    when given one row of ten logits per label, on the labels' device, for
    labels among the ten classes. *)
Definition accepts_logits (loss_fn : Tensor F -> LabelTensor -> result PyFloat) : Prop :=
  forall pred y,
    labels y <> [] -> shape pred = [length (labels y); 10] -> dev pred = ldev y ->
    Forall (fun c => c < 10) (labels y) ->
    exists l, loss_fn pred y = Ok l.

(** The test reports among printed lines. *)
Definition is_test_line (l : Line) : bool :=
  match l with TestLine _ _ => true | _ => false end.

Definition test_lines (out : list Line) : nat := length (filter is_test_line out).

(** Since the output was [s0], [k] test reports were printed. *)
Definition printed (s0 : list Line) (k : nat) (w : World F) : Prop :=
  exists new, stdout w = s0 ++ new /\ test_lines new = k.

(** The state in which the loops of the quickstart run: the model is a
    NeuralNetwork on [d], and gradients are tracked. *)
Definition ready (d : Device) (s0 : list Line) (k : nat) (w : World F) : Prop :=
  holds (canonical d) w /\ grad_enabled w = true /\ printed s0 k w.

(** The sizes of the batches a loader yields, by batch index. *)
Definition batch_len (N bs i : nat) : nat := Nat.min bs (N - i * bs).

End RunSpecifications.

(** ** What the progress lines show *)

(** The indices of the batches for which [train] prints a line: the multiples
    of 100 below the number of batches. *)
Definition progress_batches (N bs : nat) : list nat :=
  filter (fun i => i mod 100 =? 0) (seq 0 ((N + bs - 1) / bs)).

(** Python's [{n:>5d}]: the decimal digits, padded on the left to five
    characters. *)
Definition format_5d (n : nat) : string :=
  let digits := index_name n in
  (Text.str (repeat " "%char (5 - String.length digits)) ++ digits)%string.

(** The end of the line [train] prints (quickstart l.453-454):
    [[{current:>5d}/{size:>5d}]]. *)
Definition progress_counter (current size : nat) : string :=
  ("[" ++ format_5d current ++ "/" ++ format_5d size ++ "]")%string.

(** The same part of the lines of a recorded output: what follows the loss in
    the lines that start with "loss: ". *)
Definition recorded_counters (out : list string) : list string :=
  flat_map (fun line =>
              let l := Text.chars line in
              if Text.starts_with (Text.chars "loss: ") l then
                match Text.after (Text.chars " ") (skipn 6 l) with
                | Some rest => [Text.str rest]
                | None => []
                end
              else []) out.

(** * Properties of the layers *)

Section LayerFacts.
Context {F : Type} `{Scalar F}.
Local Open Scope result_scope.

Lemma rows_length (k n : nat) (l : list F) : length (rows k n l) = k.
Proof. revert l; induction k as [|k IH]; intros l; simpl; [reflexivity | now rewrite IH]. Qed.

Lemma linear_row_length i o W b (x : list F) : length (linear_row i o W b x) = o.
Proof. unfold linear_row. now rewrite length_map, length_seq. Qed.

Lemma concat_const_length {A B} (f : A -> list B) (o : nat) (xs : list A) :
  (forall x, length (f x) = o) -> length (concat (map f xs)) = length xs * o.
Proof.
  intros Hf; induction xs as [|x xs IH]; simpl; [reflexivity|].
  now rewrite length_app, Hf, IH.
Qed.

(** A 28x28 image per batch entry, with or without the channel axis. *)
Lemma flatten_images (N : nat) (xs : list F) (d : Device) :
  flatten_fn 1 (-1) (mkTensor [N; 28; 28] xs d) = Ok (mkTensor [N; 784] xs d) /\
  flatten_fn 1 (-1) (mkTensor [N; 1; 28; 28] xs d) = Ok (mkTensor [N; 784] xs d).
Proof. split; reflexivity. Qed.

Lemma linear_ok i o (w b x : Tensor F) (batch : list nat) :
  shape x = batch ++ [i] -> dev w = dev x -> dev b = dev x ->
  exists y, linear i o w b x = Ok y /\ shape y = batch ++ [o] /\ dev y = dev x /\
            length (data y) = numel batch * o.
Proof.
  intros Hs Hw Hb. unfold linear. rewrite Hs, rev_app_distr. simpl.
  rewrite Nat.eqb_refl, Hw, Hb. simpl.
  replace (Device_eqb (dev x) (dev x)) with true by now destruct (dev x).
  simpl. rewrite rev_involutive. eexists; split; [reflexivity|]. simpl.
  repeat split.
  rewrite concat_const_length with (o := o); [now rewrite rows_length|].
  intros r; apply linear_row_length.
Qed.

Lemma forward_stack (i : Params F) (d : Device) (x : Tensor F) :
  forward (NeuralNetwork_to d (NeuralNetwork_init i)) x =
  (x0 <- flatten_fn 1 (-1) x ;;
   x1 <- layer_0 i d x0 ;;
   x2 <- layer_2 i d (relu x1) ;;
   layer_4 i d (relu x2)).
Proof.
  unfold forward, NeuralNetwork_to, NeuralNetwork_init, layer_0, layer_2, layer_4.
  cbn [flatten linear_relu_stack Module_to map nn_Flatten nn_Linear call Tensor_to
       shape data dev].
  destruct (flatten_fn 1 (-1) x) as [x0|e]; cbn [rbind]; [|reflexivity].
  change (28 * 28) with 784.
  destruct (linear 784 512 _ _ x0) as [x1|e]; cbn [rbind]; [|reflexivity].
  destruct (linear 512 512 _ _ (relu x1)) as [x2|e]; cbn [rbind]; [|reflexivity].
  destruct (linear 512 10 _ _ (relu x2)) as [x3|e]; reflexivity.
Qed.

(** A freshly built model has its parameters on the CPU. *)
Lemma forward_stack_fresh (i : Params F) (x : Tensor F) :
  forward (NeuralNetwork_init i) x =
  (x0 <- flatten_fn 1 (-1) x ;;
   x1 <- layer_0 i cpu x0 ;;
   x2 <- layer_2 i cpu (relu x1) ;;
   layer_4 i cpu (relu x2)).
Proof. rewrite <- forward_stack. reflexivity. Qed.

(** Logits for a batch of [N] images on the model's device. *)
Lemma forward_logits (i : Params F) (d : Device) (N : nat) (dims : list nat) (xs : list F) :
  numel dims = 784 -> dims <> [] ->
  exists logits,
    forward (NeuralNetwork_to d (NeuralNetwork_init i)) (mkTensor (N :: dims) xs d) = Ok logits /\
    shape logits = [N; 10] /\ dev logits = d /\ length (data logits) = N * 10.
Proof.
  intros Hd Hne. rewrite forward_stack.
  assert (Hf : flatten_fn 1 (-1) (mkTensor (N :: dims) xs d) = Ok (mkTensor [N; 784] xs d)).
  { unfold flatten_fn, flatten_shape; cbn [shape data dev].
    destruct dims as [|a dims]; [congruence|].
    unfold wrap_dim. cbn [length].
    replace (Nat.max (S (S (length dims))) 1) with (S (S (length dims))) by lia.
    assert (Hs : ((- Z.of_nat (S (S (length dims))) <=? 1) && (1 <? Z.of_nat (S (S (length dims)))))%Z = true).
    { apply andb_true_iff; split; [apply Z.leb_le | apply Z.ltb_lt]; lia. }
    assert (He : ((- Z.of_nat (S (S (length dims))) <=? -1) && (-1 <? Z.of_nat (S (S (length dims)))))%Z = true).
    { apply andb_true_iff; split; [apply Z.leb_le | apply Z.ltb_lt]; lia. }
    rewrite Hs, He. cbn [rbind].
    replace (Z.to_nat (if (1 <? 0)%Z then (1 + Z.of_nat (S (S (length dims))))%Z else 1%Z)) with 1 by reflexivity.
    replace (Z.to_nat (if (-1 <? 0)%Z then (-1 + Z.of_nat (S (S (length dims))))%Z else (-1)%Z))
      with (S (length dims)) by (cbn [Z.ltb Z.compare]; lia).
    replace (S (length dims) <? 1) with false by (symmetry; apply Nat.ltb_ge; lia).
    cbn [rbind firstn skipn app].
    replace (S (length dims) - 1 + 1) with (length (a :: dims)) by (cbn [length]; lia).
    rewrite firstn_all, Hd.
    replace (S (length dims) + 1) with (S (S (length dims))) by lia.
    cbn [skipn]. rewrite skipn_all. reflexivity. }
  rewrite Hf. cbn [rbind].
  destruct (@linear_ok 784 512 (mkTensor [512; 784] (weight_0 i) d) (mkTensor [512] (bias_0 i) d)
              (mkTensor [N; 784] xs d) [N] eq_refl eq_refl eq_refl) as (x1 & E1 & S1 & D1 & _).
  unfold layer_0. rewrite E1. cbn [rbind]. cbn [dev] in D1.
  assert (S1' : shape (relu x1) = [N] ++ [512]) by exact S1.
  assert (D1' : d = dev (relu x1)) by (symmetry; exact D1).
  destruct (@linear_ok 512 512 (mkTensor [512; 512] (weight_2 i) d) (mkTensor [512] (bias_2 i) d)
              (relu x1) [N] S1' D1' D1') as (x2 & E2 & S2 & D2 & _).
  unfold layer_2. rewrite E2. cbn [rbind].
  assert (S2' : shape (relu x2) = [N] ++ [512]) by exact S2.
  assert (D2' : d = dev (relu x2)) by (rewrite D1' at 1; symmetry; exact D2).
  destruct (@linear_ok 512 10 (mkTensor [10; 512] (weight_4 i) d) (mkTensor [10] (bias_4 i) d)
              (relu x2) [N] S2' D2' D2') as (x3 & E3 & S3 & D3 & L3).
  unfold layer_4. rewrite E3. exists x3. repeat split; try assumption.
  - rewrite D3. symmetry; exact D2'.
  - rewrite L3. cbn [numel fold_right]. lia.
Qed.

End LayerFacts.

(** C1: NeuralNetwork subclasses nn.Module directly, and its forward pass is
    flatten, Linear(784,512), ReLU, Linear(512,512), ReLU, Linear(512,10), in
    that order and nothing else; the flatten step turns each 28x28 image of the
    batch into 784 values.  This holds for every parameter value and on either
    device. *)
Theorem NeuralNetwork_forward_is_fixed_stack :
  forall (F : Type) (S : Scalar F) (i : Params F) (d : Device) (x : Tensor F),
    cls_bases NeuralNetwork_class = ["nn.Module"%string] /\
    linear_relu_stack (NeuralNetwork_init i) =
      Sequential [ nn_Linear 784 512 (weight_0 i) (bias_0 i); ReLU;
                   nn_Linear 512 512 (weight_2 i) (bias_2 i); ReLU;
                   nn_Linear 512 10 (weight_4 i) (bias_4 i) ] /\
    forward (NeuralNetwork_to d (NeuralNetwork_init i)) x =
      (x0 <- flatten_fn 1 (-1) x ;;
       x1 <- linear 784 512 (mkTensor [512; 784] (weight_0 i) d) (mkTensor [512] (bias_0 i) d)
                    x0 ;;
       x2 <- linear 512 512 (mkTensor [512; 512] (weight_2 i) d) (mkTensor [512] (bias_2 i) d)
                    (relu x1) ;;
       linear 512 10 (mkTensor [10; 512] (weight_4 i) d) (mkTensor [10] (bias_4 i) d)
              (relu x2))%result /\
    (forall (N : nat) (xs : list F) (d' : Device),
        flatten_fn 1 (-1) (mkTensor [N; 28; 28] xs d') = Ok (mkTensor [N; 784] xs d')).
Proof.
  intros F S i d x. split; [reflexivity|]. split; [reflexivity|]. split.
  - apply forward_stack.
  - intros N xs d'. apply flatten_images.
Qed.

(** * The Dockerfiles and the recorded outputs *)

Section TextFacts.
Import Docker.

(** C6: each of the two Dockerfiles starts from a PyTorch image, installs
    Jupyter with pip, installs the packages of requirements.txt, exposes port
    8888, and its CMD runs [jupyter notebook] on port 8888, bound to 0.0.0.0,
    with root allowed and without a browser. *)
Theorem Dockerfiles_provide_notebook_environment :
  provides_notebook_environment Dockerfile_gpu /\
  provides_notebook_environment Dockerfile_runtime /\
  cmd (parse Dockerfile_gpu) =
    Some ["jupyter"; "notebook"; "--ip=0.0.0.0"; "--port=8888"; "--allow-root"; "--no-browser"]%string /\
  cmd (parse Dockerfile_runtime) =
    Some ["jupyter"; "notebook"; "--port=8888"; "--no-browser"; "--ip=0.0.0.0"; "--allow-root"]%string /\
  base_image (parse Dockerfile_gpu) = Some "nvcr.io/nvidia/pytorch:22.02-py3"%string /\
  base_image (parse Dockerfile_runtime) = Some "pytorch/pytorch:1.11.0-cuda11.3-cudnn8-runtime"%string.
Proof. unfold provides_notebook_environment. vm_compute. repeat split. Qed.

End TextFacts.

Section RecordedFacts.
Import Recorded.

(** C5: in the recorded run of the five epochs, the accuracy printed after each
    epoch is strictly larger than the one before, and the average loss strictly
    smaller. *)
Theorem recorded_epochs_improve :
  length (test_reports epochs_stdout) = epochs /\
  accuracies epochs_stdout = [383 # 10; 554 # 10; 601 # 10; 621 # 10; 641 # 10] /\
  avg_losses epochs_stdout =
    [2176574 # 1000000; 1938179 # 1000000; 1569782 # 1000000; 1284022 # 1000000;
     1108237 # 1000000] /\
  StronglySorted Qlt (accuracies epochs_stdout) /\
  StronglySorted (fun a b => Qlt b a) (avg_losses epochs_stdout).
Proof.
  assert (Ha : accuracies epochs_stdout = [383 # 10; 554 # 10; 601 # 10; 621 # 10; 641 # 10])
    by (vm_compute; reflexivity).
  assert (Hl : avg_losses epochs_stdout =
               [2176574 # 1000000; 1938179 # 1000000; 1569782 # 1000000; 1284022 # 1000000;
                1108237 # 1000000]) by (vm_compute; reflexivity).
  split; [vm_compute; reflexivity|]. split; [exact Ha|]. split; [exact Hl|].
  rewrite Ha, Hl.
  split; repeat (constructor; [|repeat (constructor; try reflexivity)]); constructor.
Qed.

(** X16: the outputs recorded in the profiler notebook.  The table stored
    with the cell that profiles on the CPU has the columns Name, Self CPU %,
    Self CPU, CPU total %, CPU total, CPU time avg, CPU Mem, Self CPU Mem and
    # of Calls, and the table stored with the group_by_input_shape=True cell
    has these and one more, Input Shapes.  This reads the stored text; the
    profiler itself is not modelled. *)
Theorem recorded_profiler_columns :
  column_names cpu_table_head =
    ["Name"; "Self CPU %"; "Self CPU"; "CPU total %"; "CPU total"; "CPU time avg";
     "CPU Mem"; "Self CPU Mem"; "# of Calls"]%string /\
  column_names cpu_table_by_shape_head =
    (column_names cpu_table_head ++ ["Input Shapes"%string]).
Proof. split; vm_compute; reflexivity. Qed.

End RecordedFacts.

(** * Saving and loading *)

Section CheckpointFacts.
Context {F : Type} `{Scalar F}.
Local Open Scope string_scope.

Lemma state_dict_keys (i : Params F) (d : Device) (mode : bool) :
  map fst (state_dict (NeuralNetwork_train mode (NeuralNetwork_to d (NeuralNetwork_init i)))) =
  ["linear_relu_stack.0.weight"; "linear_relu_stack.0.bias";
   "linear_relu_stack.2.weight"; "linear_relu_stack.2.bias";
   "linear_relu_stack.4.weight"; "linear_relu_stack.4.bias"].
Proof. reflexivity. Qed.

End CheckpointFacts.

(** C3: [torch.save(model.state_dict(), "model.pth")] followed by
    [NeuralNetwork().load_state_dict(torch.load("model.pth"))] is a round trip:
    the file is read back, the load answers "<All keys matched successfully>",
    and the new model holds, under the same six names, the parameter values
    that were saved (whatever the saved model's device and mode, and whatever
    values the new model was initialised with). *)
Theorem save_load_round_trip :
  forall (F : Type) (S : Scalar F) (trained fresh : Params F) (d : Device) (mode : bool)
         (fs : FileSystem F),
    let model := NeuralNetwork_train mode (NeuralNetwork_to d (NeuralNetwork_init trained)) in
    let fs' := torch_save (state_dict model) "model.pth" fs in
    exists sd keys,
      torch_load "model.pth" fs' = Ok sd /\
      sd = state_dict model /\
      snd (load_state_dict (NeuralNetwork_init fresh) sd) = Ok keys /\
      IncompatibleKeys_repr keys = "<All keys matched successfully>"%string /\
      missing_keys keys = [] /\ unexpected_keys keys = [] /\
      let model' := fst (load_state_dict (NeuralNetwork_init fresh) sd) in
      map fst (state_dict model') = map fst (state_dict model) /\
      map (fun kv => values (snd kv)) (state_dict model') =
        map (fun kv => values (snd kv)) (state_dict model) /\
      model' = NeuralNetwork_init trained.
Proof.
  intros F S trained fresh d mode fs model fs'.
  exists (state_dict model), {| missing_keys := []; unexpected_keys := [] |}.
  repeat split; reflexivity.
Qed.

(** * Reasoning about the loops *)

Section LoopFacts.
Context {F : Type} `{Scalar F}.
Local Open Scope py_scope.

Variable loss_fn : Tensor F -> LabelTensor -> result PyFloat.
Variable autograd : NeuralNetwork F -> Tensor F -> LabelTensor -> Grads F.
Variable neg_lr : F.
Variable device : Device.

(** ** Running a cell step by step *)

Lemma bind_ok {A B} (m : Py F A) (k : A -> Py F B) (w w' : World F) (a : A) :
  m w = (Ok a, w') -> bind m k w = k a w'.
Proof. intros E. unfold bind. now rewrite E. Qed.

Lemma bind_raise {A B} (m : Py F A) (k : A -> Py F B) (w w' : World F) (e : Exception) :
  m w = (Raise e, w') -> bind m k w = (Raise e, w').
Proof. intros E. unfold bind. now rewrite E. Qed.

Lemma bind_assoc_w {A B C} (m : Py F A) (k : A -> Py F B) (k' : B -> Py F C) (w : World F) :
  bind (bind m k) k' w = bind m (fun a => bind (k a) k') w.
Proof. unfold bind. destruct (m w) as [[a|e] w1]; reflexivity. Qed.

Lemma no_grad_eq {A} (body : Py F A) (r : result A) (w w' : World F) :
  body (set_grad_enabled false w) = (r, w') ->
  no_grad body w = (r, set_grad_enabled (grad_enabled w) w').
Proof. intros E. unfold no_grad. now rewrite E. Qed.

Lemma no_grad_ok {A} (body : Py F A) (a : A) (w w' : World F) :
  body (set_grad_enabled false w) = (Ok a, w') ->
  no_grad body w = (Ok a, set_grad_enabled (grad_enabled w) w').
Proof. intros E. unfold no_grad. now rewrite E. Qed.

(** ** Invariants *)

Lemma triple_ret {A} (I : Inv F) (P : Call F -> Prop) (a : A) (Q : A -> Prop) :
  Q a -> triple I P (ret a) Q.
Proof.
  intros HQ w Hw. cbn. split; [exact Hw | split; [ | congruence]].
  exists []. now rewrite app_nil_r.
Qed.

Lemma triple_lift {A} (I : Inv F) (P : Call F -> Prop) (r : result A) (Q : A -> Prop) :
  (forall a, r = Ok a -> Q a) -> triple I P (lift r) Q.
Proof.
  intros HQ w Hw. cbn. split; [exact Hw | split; [ | exact HQ]].
  exists []. now rewrite app_nil_r.
Qed.

Lemma triple_raise {A} (I : Inv F) (P : Call F -> Prop) (e : Exception) (Q : A -> Prop) :
  triple I P (raise e) Q.
Proof.
  intros w Hw. cbn. split; [exact Hw | split; [ | discriminate]].
  exists []. now rewrite app_nil_r.
Qed.

Lemma triple_bind {A B} (I : Inv F) (P : Call F -> Prop) (m : Py F A) (k : A -> Py F B)
    (Q : A -> Prop) (R :
  B -> Prop) :
  triple I P m Q -> (forall a, Q a -> triple I P (k a) R) -> triple I P (bind m k) R.
Proof.
  intros Hm Hk w Hw. unfold bind.
  destruct (Hm w Hw) as (Hi & (new & Hc & Hp) & Hq).
  destruct (m w) as [[a|e] w1]; cbn [fst snd] in *.
  - destruct (Hk a (Hq a eq_refl) w1 Hi) as (Hi2 & (new2 & Hc2 & Hp2) & Hr).
    split; [exact Hi2 | split; [ | exact Hr]].
    exists (new ++ new2). rewrite Hc2, Hc, app_assoc. split; [reflexivity|].
    apply Forall_app; now split.
  - split; [exact Hi | split; [ | discriminate]]. now exists new.
Qed.

Lemma triple_weaken {A} (I : Inv F) (P : Call F -> Prop) (m : Py F A) (Q Q' : A -> Prop) :
  triple I P m Q -> (forall a, Q a -> Q' a) -> triple I P m Q'.
Proof.
  intros Hm HQ w Hw. destruct (Hm w Hw) as (Hi & Hc & Hq).
  split; [exact Hi | split; [exact Hc | auto]].
Qed.

Lemma triple_log I (P : Call F -> Prop) (c : Call F) : P c -> triple (I : Inv F) (P :
  Call F -> Prop) (log c) (fun _ => True).
Proof.
  intros Hc w Hw. cbn. split; [exact Hw | split; [ | trivial]].
  exists [c]. split; [reflexivity | now constructor].
Qed.

Lemma triple_print (I : Inv F) (P : Call F -> Prop) (l : Line) :
  P CPrint -> triple I P (print l) (fun _ => True).
Proof.
  intros Hc w Hw. cbn. split; [exact Hw | split; [ | trivial]].
  exists [CPrint]. split; [reflexivity | now constructor].
Qed.

Lemma triple_set_model (I : Inv F) (P : Call F -> Prop)
    (f : NeuralNetwork F -> NeuralNetwork F) :
  (forall m g b, I m g b -> I (f m) g b) -> triple I P (set_model f) (fun _ => True).
Proof.
  intros Hf w Hw. cbn. split; [now apply Hf | split; [ | trivial]].
  exists []. now rewrite app_nil_r.
Qed.

Lemma triple_set_grads (I : Inv F) (P : Call F -> Prop) (f : Grads F -> Grads F) :
  (forall m g b, I m g b -> I m (f g) b) -> triple I P (set_grads f) (fun _ => True).
Proof.
  intros Hf w Hw. cbn. split; [now apply Hf | split; [ | trivial]].
  exists []. now rewrite app_nil_r.
Qed.

(** Inside [with torch.no_grad()] the mode is off; the invariant must not
    depend on the mode. *)
Lemma triple_no_grad {A} (I : Inv F) (P : Call F -> Prop) (body : Py F A) (Q : A -> Prop) :
  (forall m g b b', I m g b -> I m g b') ->
  triple (fun m g b => I m g b /\ b = false) P body Q ->
  triple I P (no_grad body) Q.
Proof.
  intros Hfree Hbody w Hw. unfold no_grad.
  assert (Hin : holds (fun m g b => I m g b /\ b = false) (set_grad_enabled false w)).
  { split; [|reflexivity]. cbn. exact (Hfree _ _ _ _ Hw). }
  destruct (Hbody _ Hin) as ((Hi & _) & Hc & Hq).
  destruct (body (set_grad_enabled false w)) as [r w1]. cbn [fst snd] in *.
  split; [exact (Hfree _ _ _ _ Hi) | split; [exact Hc | exact Hq]].
Qed.

Lemma triple_for_each {A} (I : Inv F) (P : Call F -> Prop) (l : list A) (body : A -> Py F unit) :
  (forall a, In a l -> triple I P (body a) (fun _ => True)) ->
  triple I P (for_each l body) (fun _ => True).
Proof.
  induction l as [|a l IH]; intros Hb; cbn [for_each].
  - now apply triple_ret.
  - apply triple_bind with (Q := fun _ => True).
    + apply Hb. now left.
    + intros _ _. apply IH. intros a' Ha'. apply Hb. now right.
Qed.

Lemma triple_for_fold {A S} (I : Inv F) (P : Call F -> Prop) (l : list A) (s : S) (body :
  S -> A -> Py F S) :
  (forall s a, In a l -> triple I P (body s a) (fun _ => True)) ->
  triple I P (for_fold l s body) (fun _ => True).
Proof.
  revert s. induction l as [|a l IH]; intros s Hb; cbn [for_fold].
  - now apply triple_ret.
  - apply triple_bind with (Q := fun _ => True).
    + apply Hb. now left.
    + intros s' _. apply IH. intros s'' a' Ha'. apply Hb. now right.
Qed.

(** [model(X)] logs the devices of the parameters and its input. *)
Lemma triple_model_call (I : Inv F) (P : Call F -> Prop) (x : Tensor F) :
  (forall m g b, I m g b -> P (CForward (map (@dev F) (parameters m)) x b)) ->
  triple I P (model_call x) (fun _ => True).
Proof.
  intros Hf w Hw. unfold model_call, bind, log, lift, ret. cbn.
  destruct (NeuralNetwork_call (model w) x) as [v|e]; cbn;
    (split; [exact Hw | split; [ | trivial]]);
    (eexists; split; [reflexivity|]); constructor; auto; exact (Hf _ _ _ Hw).
Qed.

Ltac other_call Hother := apply Hother; cbn; discriminate.

Lemma triple_loss_call (I : Inv F) (P : Call F -> Prop) (pred : Pred F) (y : LabelTensor) :
  forward_only P -> triple I P (loss_call loss_fn pred y) (fun _ => True).
Proof.
  intros Ho. unfold loss_call.
  apply triple_bind with (Q := fun _ => True); [apply triple_log; other_call Ho|].
  intros _ _. apply triple_bind with (Q := fun _ => True); [now apply triple_lift|].
  intros v _. now apply triple_ret.
Qed.

Lemma triple_test_batch (I : Inv F) (P : Call F -> Prop) (acc : PyFloat * PyFloat) (b :
  Tensor F * LabelTensor) :
  forward_only P -> moves_to device P ->
  (forall m g gm x,
      I m g gm -> P (CForward (map (@dev F) (parameters m)) (Tensor_to device x) gm)) ->
  triple I P (test_batch loss_fn device acc b) (fun _ => True).
Proof.
  intros Ho [Hmx Hmy] Hf. unfold test_batch, tensor_to, label_to, loss_item.
  apply triple_bind with (Q := fun x => x = Tensor_to device (fst b)).
  { apply triple_bind with (Q := fun _ => True); [apply triple_log; apply Hmx|].
    intros _ _. now apply triple_ret. }
  intros X ->.
  apply triple_bind with (Q := fun _ => True).
  { apply triple_bind with (Q := fun _ => True); [apply triple_log; apply Hmy|].
    intros _ _. now apply triple_ret. }
  intros y _.
  apply triple_bind with (Q := fun _ => True).
  { apply triple_model_call. intros m g gm Hi. exact (Hf _ _ _ _ Hi). }
  intros pred _.
  apply triple_bind with (Q := fun _ => True); [now apply triple_loss_call|].
  intros loss _.
  apply triple_bind with (Q := fun _ => True).
  { apply triple_bind with (Q := fun _ => True); [apply triple_log; other_call Ho|].
    intros _ _. now apply triple_ret. }
  intros l _.
  apply triple_bind with (Q := fun _ => True); [now apply triple_lift|].
  intros c _. now apply triple_ret.
Qed.

Lemma triple_test (I : Inv F) (P : Call F -> Prop) (dl : DataLoader F) :
  (forall m g b b', I m g b -> I m g b') ->
  (forall m g b, I m g b -> I (NeuralNetwork_train false m) g b) ->
  forward_only P -> moves_to device P ->
  (forall m g x, I m g false ->
                 P (CForward (map (@dev F) (parameters m)) (Tensor_to device x) false)) ->
  triple I P (test loss_fn device dl) (fun _ => True).
Proof.
  intros Hfree Heval Ho Hmv Hf. unfold test, model_eval.
  apply triple_bind with (Q := fun _ => True).
  { apply triple_bind with (Q := fun _ => True); [apply triple_log; other_call Ho|].
    intros _ _. now apply triple_set_model. }
  intros _ _.
  apply triple_bind with (Q := fun _ => True).
  { apply triple_no_grad; [exact Hfree|].
    apply triple_for_fold. intros acc rb _.
    apply triple_bind with (Q := fun _ => True); [now apply triple_lift|]. intros b _.
    apply triple_test_batch; [exact Ho | exact Hmv |].
    intros m g gm x [Hi ->]. exact (Hf _ _ _ Hi). }
  intros acc _.
  apply triple_bind with (Q := fun _ => True); [now apply triple_lift|].
  intros test_loss _.
  apply triple_bind with (Q := fun _ => True); [now apply triple_lift|].
  intros correct _. apply triple_print. other_call Ho.
Qed.

Lemma triple_train_batch (I : Inv F) (P : Call F -> Prop) (size batch : nat) (b :
  Tensor F * LabelTensor) :
  (forall m g g' gm, I m g gm -> I m g' gm) ->
  (forall m g gm, I m g gm -> I (NeuralNetwork_map_named (sgd_update neg_lr g) m) g gm) ->
  forward_only P -> moves_to device P ->
  (forall m g gm x,
      I m g gm -> P (CForward (map (@dev F) (parameters m)) (Tensor_to device x) gm)) ->
  triple I P (train_batch loss_fn autograd neg_lr device size batch b) (fun _ => True).
Proof.
  intros Hg Hstep Ho [Hmx Hmy] Hf.
  unfold train_batch, tensor_to, label_to, loss_item, optimizer_zero_grad, loss_backward,
    optimizer_step.
  apply triple_bind with (Q := fun x => x = Tensor_to device (fst b)).
  { apply triple_bind with (Q := fun _ => True); [apply triple_log; apply Hmx|].
    intros _ _. now apply triple_ret. }
  intros X ->.
  apply triple_bind with (Q := fun _ => True).
  { apply triple_bind with (Q := fun _ => True); [apply triple_log; apply Hmy|].
    intros _ _. now apply triple_ret. }
  intros y _.
  apply triple_bind with (Q := fun _ => True).
  { apply triple_model_call. intros m g gm Hi. exact (Hf _ _ _ _ Hi). }
  intros pred _.
  apply triple_bind with (Q := fun _ => True); [now apply triple_loss_call|].
  intros loss _.
  apply triple_bind with (Q := fun _ => True).
  { apply triple_bind with (Q := fun _ => True); [apply triple_log; other_call Ho|].
    intros _ _. apply triple_set_grads. intros m g gm Hi. now apply Hg with (g := g). }
  intros _ _.
  apply triple_bind with (Q := fun _ => True).
  { apply triple_bind with (Q := fun _ => True); [apply triple_log; other_call Ho|].
    intros _ _. destruct (loss_grad_fn loss) as [[[m x] y']|].
    - apply triple_set_grads. intros m' g gm Hi. now apply Hg with (g := g).
    - apply triple_raise. }
  intros _ _.
  apply triple_bind with (Q := fun _ => True).
  { apply triple_bind with (Q := fun _ => True); [apply triple_log; other_call Ho|].
    intros _ _ w Hw. unfold set_model. cbn.
    split; [now apply Hstep | split; [exists []; now rewrite app_nil_r | trivial]]. }
  intros _ _.
  destruct (batch mod 100 =? 0).
  - apply triple_bind with (Q := fun _ => True).
    { apply triple_bind with (Q := fun _ => True); [apply triple_log; other_call Ho|].
      intros _ _. now apply triple_ret. }
    intros l _. apply triple_print. other_call Ho.
  - now apply triple_ret.
Qed.

Lemma triple_train (I : Inv F) (P : Call F -> Prop) (dl : DataLoader F) :
  (forall m g gm, I m g gm -> I (NeuralNetwork_train true m) g gm) ->
  (forall m g g' gm, I m g gm -> I m g' gm) ->
  (forall m g gm, I m g gm -> I (NeuralNetwork_map_named (sgd_update neg_lr g) m) g gm) ->
  forward_only P -> moves_to device P ->
  (forall m g gm x,
      I m g gm -> P (CForward (map (@dev F) (parameters m)) (Tensor_to device x) gm)) ->
  triple I P (train loss_fn autograd neg_lr device dl) (fun _ => True).
Proof.
  intros Htrain Hg Hstep Ho Hmv Hf. unfold train, model_train.
  apply triple_bind with (Q := fun _ => True).
  { apply triple_bind with (Q := fun _ => True); [apply triple_log; other_call Ho|].
    intros _ _. now apply triple_set_model. }
  intros _ _. apply triple_for_each. intros ib _.
  apply triple_bind with (Q := fun _ => True); [now apply triple_lift|]. intros b _.
  now apply triple_train_batch.
Qed.

End LoopFacts.

Ltac py_simpl := cbn [model grads grad_enabled files stdout calls shape data dev fst snd].
Ltac py_step := erewrite bind_ok; [|reflexivity]; py_simpl.

(** C10: [test] leaves the model's parameters as they were, whatever the model,
    the loader and the loss function, and whether it returns or raises: the
    modules with their parameters, the state dictionary and the stored
    gradients are those of before. *)
Theorem test_leaves_parameters_unchanged :
  forall (F : Type) (S : Scalar F) (loss_fn : Tensor F -> LabelTensor -> result PyFloat)
         (device : Device) (dataloader : DataLoader F) (w : World F),
    let w' := snd (test loss_fn device dataloader w) in
    parameters (model w') = parameters (model w) /\
    state_dict (model w') = state_dict (model w) /\
    flatten (model w') = flatten (model w) /\
    linear_relu_stack (model w') = linear_relu_stack (model w) /\
    grads w' = grads w.
Proof.
  intros F S loss_fn device dataloader w w'.
  pose (I := fun (m : NeuralNetwork F) (g : Grads F) (_ : bool) =>
               flatten m = flatten (model w) /\
               linear_relu_stack m = linear_relu_stack (model w) /\ g = grads w).
  assert (Ht : triple I (fun _ => True) (test loss_fn device dataloader) (fun _ => True)).
  { apply triple_test; unfold I; try tauto.
    - intros c _ _ _; exact Logic.I.
    - split; intros; exact Logic.I. }
  destruct (Ht w) as ((Hfl & Hst & Hg) & _ & _); [unfold holds, I; tauto|].
  fold w' in Hfl, Hst, Hg.
  unfold parameters, state_dict. rewrite Hfl, Hst. tauto.
Qed.

(** * The calls of one training pass *)

Section TrainTrace.
Context {F : Type} `{Scalar F}.

Variable loss_fn : Tensor F -> LabelTensor -> result PyFloat.
Variable autograd : NeuralNetwork F -> Tensor F -> LabelTensor -> Grads F.
Variable neg_lr : F.
Variable device : Device.

Lemma moves_app (a b : list (Call F)) : moves (a ++ b) = moves a ++ moves b.
Proof.
  induction a as [|c a IH]; [reflexivity|]. destruct c; cbn; rewrite ?IH; reflexivity.
Qed.

Lemma label_moves_app (a b : list (Call F)) :
  label_moves (a ++ b) = label_moves a ++ label_moves b.
Proof.
  induction a as [|c a IH]; [reflexivity|]. destruct c; cbn; rewrite ?IH; reflexivity.
Qed.

Lemma forward_inputs_app (a b : list (Call F)) :
  forward_inputs (a ++ b) = forward_inputs a ++ forward_inputs b.
Proof. unfold forward_inputs. apply flat_map_app. Qed.

Lemma loss_labels_app (a b : list (Call F)) :
  loss_labels (a ++ b) = loss_labels a ++ loss_labels b.
Proof. unfold loss_labels. apply flat_map_app. Qed.

Lemma loss_preds_app (a b : list (Call F)) :
  loss_preds (a ++ b) = loss_preds a ++ loss_preds b.
Proof. unfold loss_preds. apply flat_map_app. Qed.

(** One round of the loop that returns: what it called, printed and left. *)
Lemma train_batch_ok (size i : nat) (b : Tensor F * LabelTensor) (w : World F) :
  fst (train_batch loss_fn autograd neg_lr device size i b w) = Ok tt ->
  let w' := snd (train_batch loss_fn autograd neg_lr device size i b w) in
  exists step new printed,
    batch_forward loss_fn device (model w, b) step /\
    (model w', grads w') = batch_step autograd neg_lr device (model w, grads w) b /\
    calls w' = calls w ++ new /\
    map kind new = batch_kinds i /\
    forward_inputs new = [Tensor_to device (fst b)] /\
    loss_labels new = [Label_to device (snd b)] /\
    loss_preds new = [fst step] /\
    moves new = [(fst b, device)] /\
    label_moves new = [(snd b, device)] /\
    stdout w' = stdout w ++ printed /\
    printed = (if i mod 100 =? 0 then [LossLine (snd step) (i * len (fst b)) size] else []) /\
    Forall2 (progress_line size) printed (if i mod 100 =? 0 then [(i, b)] else []).
Proof.
  unfold train_batch, batch_kinds, tensor_to, label_to, model_call, loss_call,
    optimizer_zero_grad, loss_backward, optimizer_step, loss_item, print, log, set_grads,
    set_model, bind, lift, ret, raise, batch_forward, batch_step.
  cbn [fst snd model grads grad_enabled files stdout calls].
  destruct (NeuralNetwork_call (model w) (Tensor_to device (fst b))) as [v|e];
    cbn [fst snd model grads grad_enabled files stdout calls value grad_fn];
    [|discriminate].
  destruct (loss_fn v (Label_to device (snd b))) as [l|e] eqn:El;
    cbn [fst snd model grads grad_enabled files stdout calls item loss_grad_fn];
    [|discriminate].
  destruct (grad_enabled w);
    cbn [fst snd model grads grad_enabled files stdout calls item loss_grad_fn];
    [|discriminate].
  destruct (i mod 100 =? 0);
    cbn [fst snd model grads grad_enabled files stdout calls item loss_grad_fn];
    intros _; exists (v, l); eexists; eexists;
    (split; [split; [reflexivity | exact El]|]);
    (split; [reflexivity|]);
    (split; [rewrite <- !app_assoc; reflexivity|]);
    (split; [reflexivity|]); (split; [reflexivity|]); (split; [reflexivity|]);
    (split; [reflexivity|]); (split; [reflexivity|]); (split; [reflexivity|]).
  - split; [reflexivity|]. split; [reflexivity|].
    constructor; [|constructor]. eexists. reflexivity.
  - split; [symmetry; apply app_nil_r|]. split; [reflexivity | constructor].
Qed.

(** The rounds of a loop that returns: every step of the loader gave a batch,
    and the rounds follow each other on the model the earlier ones left. *)
Lemma train_loop_ok (size : nat) (l : list (result (Tensor F * LabelTensor))) :
  forall (k : nat) (w : World F),
    let body := fun ib : nat * result (Tensor F * LabelTensor) =>
                  bind (lift (snd ib))
                       (fun Xy => train_batch loss_fn autograd neg_lr device size (fst ib) Xy) in
    fst (for_each (combine (seq k (length l)) l) body w) = Ok tt ->
    let w' := snd (for_each (combine (seq k (length l)) l) body w) in
    exists bs steps new printed,
      l = map Ok bs /\
      Forall2 (batch_forward loss_fn device)
              (combine (models_before autograd neg_lr device (model w, grads w) bs) bs) steps /\
      calls w' = calls w ++ new /\
      map kind new = flat_map batch_kinds (seq k (length bs)) /\
      forward_inputs new = map (fun b => Tensor_to device (fst b)) bs /\
      loss_labels new = map (fun b => Label_to device (snd b)) bs /\
      loss_preds new = map fst steps /\
      moves new = map (fun b => (fst b, device)) bs /\
      label_moves new = map (fun b => (snd b, device)) bs /\
      stdout w' = stdout w ++ printed /\
      printed = progress_lines size k (combine bs (map snd steps)) /\
      Forall2 (progress_line size) printed
              (filter (fun ib => fst ib mod 100 =? 0) (combine (seq k (length bs)) bs)).
Proof.
  induction l as [|rb l IH]; intros k w; cbv zeta.
  - cbn. intros _. exists [], [], [], []. rewrite !app_nil_r.
    repeat split; constructor.
  - cbn [length seq combine for_each].
    destruct rb as [b|e]; [|intros Hr; discriminate Hr].
    lazymatch goal with
    | |- fst (bind _ (fun _ => for_each ?L ?B) w) = _ -> _ =>
        assert (E : bind (B (k, Ok b)) (fun _ => for_each L B) w =
                    match train_batch loss_fn autograd neg_lr device size k b w with
                    | (Ok _, w1) => for_each L B w1
                    | (Raise e, w1) => (Raise e, w1)
                    end) by reflexivity;
        rewrite E; clear E
    end.
    pose proof (train_batch_ok size k b w) as Hb.
    cbn [fst snd] in *.
    destruct (train_batch loss_fn autograd neg_lr device size k b w) as [[[]|e] w1];
      cbn [fst snd] in *; [|discriminate].
    intros Hrest.
    destruct (Hb eq_refl)
      as (st1 & new1 & pr1 & Hst1 & Hmg1 & Hc1 & Hk1 & Hf1 & Hy1 & Hq1 & Hm1 & Hl1 & Hs1 & He1 & Hp1).
    destruct (IH (S k) w1 Hrest)
      as (bs & steps & new2 & pr2 & El & Hst2 & Hc2 & Hk2 & Hf2 & Hy2 & Hq2 & Hm2 & Hl2 & Hs2
          & He2 & Hp2).
    exists (b :: bs), (st1 :: steps), (new1 ++ new2), (pr1 ++ pr2).
    split; [now rewrite El|].
    split; [cbn [models_before combine fst]; constructor; [exact Hst1 | now rewrite <- Hmg1]|].
    split; [rewrite Hc2, Hc1; apply eq_sym, app_assoc|].
    cbn [length seq map flat_map combine].
    split; [rewrite map_app, Hk1, Hk2; reflexivity|].
    split; [rewrite forward_inputs_app, Hf1, Hf2; reflexivity|].
    split; [rewrite loss_labels_app, Hy1, Hy2; reflexivity|].
    split; [rewrite loss_preds_app, Hq1, Hq2; reflexivity|].
    split; [rewrite moves_app, Hm1, Hm2; reflexivity|].
    split; [rewrite label_moves_app, Hl1, Hl2; reflexivity|].
    split; [rewrite Hs2, Hs1; apply eq_sym, app_assoc|].
    split.
    + unfold progress_lines in *. cbn [length seq combine flat_map fst snd].
      now rewrite He1, He2.
    + cbn [filter fst]. destruct (k mod 100 =? 0).
      * apply (Forall2_app Hp1 Hp2).
      * inversion Hp1; subst. exact Hp2.
Qed.

End TrainTrace.

(** C2: when [train] runs to its end, every step of the loader gave a batch,
    and [train] has called [model.train()] and then, for each batch in the
    loader's order, exactly: X.to(device), y.to(device), model(X) on the moved
    X, loss_fn on the prediction that call returned and the moved y,
    optimizer.zero_grad(), loss.backward(), optimizer.step() (and loss.item(),
    print when the batch index is a multiple of 100).  The model of each
    round is the one the earlier rounds left.  The lines printed are one per
    batch whose index is a multiple of 100, each showing the value loss_fn
    returned for that batch, the batch's index times its length and the size
    of the dataset. *)
Theorem train_performs_fixed_sequence :
  forall (F : Type) (S : Scalar F) (loss_fn : Tensor F -> LabelTensor -> result PyFloat)
         (autograd : NeuralNetwork F -> Tensor F -> LabelTensor -> Grads F) (neg_lr : F)
         (device : Device) (dataloader : DataLoader F) (w : World F),
    fst (train loss_fn autograd neg_lr device dataloader w) = Ok tt ->
    let w' := snd (train loss_fn autograd neg_lr device dataloader w) in
    exists bs steps new printed,
      batches dataloader = map Ok bs /\
      Forall2 (batch_forward loss_fn device)
              (combine (models_before autograd neg_lr device
                          (NeuralNetwork_train true (model w), grads w) bs) bs)
              steps /\
      calls w' = calls w ++ CModelTrain :: new /\
      map kind new = flat_map batch_kinds (seq 0 (length bs)) /\
      moves new = map (fun b => (fst b, device)) bs /\
      label_moves new = map (fun b => (snd b, device)) bs /\
      forward_inputs new = map (fun b => Tensor_to device (fst b)) bs /\
      loss_preds new = map fst steps /\
      loss_labels new = map (fun b => Label_to device (snd b)) bs /\
      stdout w' = stdout w ++ printed /\
      printed = progress_lines (length (dataset dataloader)) 0 (combine bs (map snd steps)) /\
      Forall2 (progress_line (length (dataset dataloader))) printed
              (filter (fun ib => fst ib mod 100 =? 0) (enumerate bs)).
Proof.
  intros F S loss_fn autograd neg_lr device dataloader w.
  pose (w1 := mkWorld (NeuralNetwork_train true (model w)) (grads w) (grad_enabled w) (files w)
                      (stdout w) (calls w ++ [CModelTrain])).
  assert (E : train loss_fn autograd neg_lr device dataloader w =
              for_each (combine (seq 0 (length (batches dataloader))) (batches dataloader))
                (fun ib => bind (lift (snd ib))
                             (fun Xy => train_batch loss_fn autograd neg_lr device
                                          (length (dataset dataloader)) (fst ib) Xy))
                w1) by reflexivity.
  rewrite E. clear E. intros Hok. cbv zeta. unfold enumerate.
  destruct (train_loop_ok loss_fn autograd neg_lr device (length (dataset dataloader))
              (batches dataloader) 0 w1 Hok)
    as (bs & steps & new & printed & El & Hst & Hc & Hk & Hf & Hy & Hq & Hm & Hl & Hs & He & Hp).
  exists bs, steps, new, printed. cbn [calls stdout model grads w1] in Hc, Hs, Hst.
  split; [exact El|]. split; [exact Hst|].
  split; [rewrite Hc, <- app_assoc; reflexivity|]. repeat split; assumption.
Qed.

(** * What [test] prints *)

Section TestReport.
Context {F : Type} `{Scalar F}.

Variable loss_fn : Tensor F -> LabelTensor -> result PyFloat.
Variable device : Device.

Lemma filter_combine_map {A} (f : A -> nat) (xs : list A) (ys : list nat) :
  length (filter (fun p => fst p =? snd p) (combine (map f xs) ys)) =
  length (filter (fun p => f (fst p) =? snd p) (combine xs ys)).
Proof.
  revert ys. induction xs as [|x xs IH]; intros [|y ys]; cbn; try reflexivity.
  destruct (f x =? y); cbn; now rewrite IH.
Qed.

Lemma correct_count_hits (pred : Tensor F) (y : LabelTensor) (c : PyFloat) :
  correct_count pred y = Ok c -> c = float_of_nat (hits pred (labels y)).
Proof.
  unfold correct_count, argmax_1, hits, matches.
  destruct (shape pred) as [|n [|c0 [|? ?]]]; cbn; try discriminate.
  destruct (c0 =? 0); cbn; [discriminate|].
  destruct (negb (Device_eqb (dev pred) (ldev y))); [discriminate|].
  destruct (negb (_ =? _)); [discriminate|].
  intros E; injection E as <-. now rewrite filter_combine_map.
Qed.

Lemma chunks_length {A} (bs : nat) :
  0 < bs -> forall (fuel : nat) (l : list A),
    length l <= fuel -> length (chunks fuel bs l) = (length l + bs - 1) / bs.
Proof.
  intros Hbs. induction fuel as [|fuel IH]; intros l Hl.
  - destruct l; [|cbn in Hl; lia]. cbn. symmetry. apply Nat.div_small. lia.
  - destruct l as [|a l]; cbn [chunks].
    + cbn. symmetry. apply Nat.div_small. lia.
    + cbn [length]. rewrite IH by (rewrite length_skipn; cbn [length] in *; lia).
      rewrite length_skipn. cbn [length].
      replace (S (length l) + bs - 1) with (length l + 1 * bs) by lia.
      rewrite Nat.div_add by lia.
      destruct (Nat.le_gt_cases bs (S (length l))) as [Hge|Hlt].
      * replace (S (length l) - bs + bs - 1) with (length l) by lia. lia.
      * replace (S (length l) - bs + bs - 1) with (bs - 1) by lia.
        rewrite !Nat.div_small by lia. lia.
Qed.

(** The loader yields [len(dataloader)] batches. *)
Lemma batches_length (dl : DataLoader F) : length (batches dl) = DataLoader_len dl.
Proof.
  unfold batches, DataLoader_len. rewrite length_map.
  apply chunks_length; [apply Pos2Nat.is_pos | apply Nat.le_refl].
Qed.

Lemma DataLoader_len_pos (dl : DataLoader F) : dataset dl <> [] -> DataLoader_len dl <> 0.
Proof.
  intros Hne. unfold DataLoader_len.
  pose proof (Pos2Nat.is_pos (batch_size dl)) as Hbs.
  destruct (dataset dl) as [|a l]; [congruence|]. cbn [length].
  replace (S (length l) + Pos.to_nat (batch_size dl) - 1)
    with (length l + 1 * Pos.to_nat (batch_size dl)) by lia.
  rewrite Nat.div_add by lia. lia.
Qed.

Lemma batches_empty (dl : DataLoader F) : dataset dl = [] -> batches dl = [].
Proof. intros E. unfold batches. now rewrite E. Qed.

Lemma DataLoader_len_empty (dl : DataLoader F) : dataset dl = [] -> DataLoader_len dl = 0.
Proof.
  intros E. unfold DataLoader_len. rewrite E. cbn [length].
  pose proof (Pos2Nat.is_pos (batch_size dl)). apply Nat.div_small. lia.
Qed.

(** One round of [test]'s loop adds the batch's loss and count, or raises
    what the model or the loss function raises; it prints nothing and leaves
    the model alone. *)
Lemma test_batch_run (m : NeuralNetwork F) (b : Tensor F * LabelTensor)
    (acc : PyFloat * PyFloat) (w : World F) :
  model w = m ->
  exists w',
    model w' = m /\ stdout w' = stdout w /\ grad_enabled w' = grad_enabled w /\
    test_batch loss_fn device acc b w =
      (match batch_eval loss_fn device m b with
       | Ok o => Ok (float_add (fst acc) (fst o), float_add (snd acc) (float_of_nat (snd o)))
       | Raise e => Raise e
       end, w').
Proof.
  intros Hm. unfold batch_eval, test_batch, tensor_to, label_to, model_call, loss_call,
    loss_item, log, bind, lift, ret.
  cbn [fst snd model grads grad_enabled files stdout calls]. rewrite Hm.
  destruct (NeuralNetwork_call m (Tensor_to device (fst b))) as [v|e];
    cbn [rbind fst snd model grads grad_enabled files stdout calls value];
    [|eexists; (split; [|split; [|split; [|reflexivity]]]); reflexivity].
  destruct (loss_fn v (Label_to device (snd b))) as [l|e];
    cbn [rbind fst snd model grads grad_enabled files stdout calls item];
    [|eexists; (split; [|split; [|split; [|reflexivity]]]); reflexivity].
  destruct (correct_count v (Label_to device (snd b))) as [c|e] eqn:Ec;
    cbn [rbind fst snd model grads grad_enabled files stdout calls];
    [|eexists; (split; [|split; [|split; [|reflexivity]]]); reflexivity].
  apply correct_count_hits in Ec. cbn [labels Label_to] in Ec. subst c.
  eexists. (split; [|split; [|split; [|reflexivity]]]); reflexivity.
Qed.

(** The loop of [test] computes what [eval_batches] describes. *)
Lemma test_loop_run (m : NeuralNetwork F) (rbs : list (result (Tensor F * LabelTensor))) :
  forall (acc : PyFloat * PyFloat) (w : World F),
    model w = m ->
    exists w',
      model w' = m /\ stdout w' = stdout w /\ grad_enabled w' = grad_enabled w /\
      for_fold rbs acc (fun acc rb => bind (lift rb) (fun Xy => test_batch loss_fn device acc Xy)) w
      = (match eval_batches loss_fn device m rbs with
         | Ok outs => Ok (fold_left float_add (map fst outs) (fst acc),
                          fold_left float_add (map (fun o => float_of_nat (snd o)) outs) (snd acc))
         | Raise e => Raise e
         end, w').
Proof.
  induction rbs as [|rb rbs IH]; intros acc w Hm; cbn [for_fold eval_batches].
  - exists w. destruct acc. now repeat split.
  - destruct rb as [b|e]; cbn [rbind].
    2: { exists w. now repeat split. }
    destruct (test_batch_run b acc w Hm) as (w1 & Hm1 & Hs1 & Hg1 & E1).
    unfold bind at 1. unfold bind at 1. unfold lift at 1. rewrite E1.
    destruct (batch_eval loss_fn device m b) as [o|e]; cbn [rbind].
    2: { exists w1. now repeat split. }
    destruct (IH (float_add (fst acc) (fst o), float_add (snd acc) (float_of_nat (snd o))) w1 Hm1)
      as (w2 & Hm2 & Hs2 & Hg2 & E2).
    exists w2. rewrite E2. split; [exact Hm2|]. split; [congruence|]. split; [congruence|].
    destruct (eval_batches loss_fn device m rbs) as [outs|e]; reflexivity.
Qed.

Lemma eval_batches_length (m : NeuralNetwork F) (rbs : list (result (Tensor F * LabelTensor)))
    (outs : list (PyFloat * nat)) :
  eval_batches loss_fn device m rbs = Ok outs -> length outs = length rbs.
Proof.
  revert outs. induction rbs as [|rb rbs IH]; intros outs; cbn [eval_batches].
  - intros E; injection E as <-. reflexivity.
  - destruct rb as [b|e]; cbn [rbind]; [|discriminate].
    destruct (batch_eval loss_fn device m b) as [o|e]; cbn [rbind]; [|discriminate].
    destruct (eval_batches loss_fn device m rbs) as [os|e]; cbn [rbind]; [|discriminate].
    intros E; injection E as <-. cbn [length]. now rewrite (IH os eq_refl).
Qed.

(** What [test] returns and prints, in terms of [eval_batches]. *)
Lemma test_run (dl : DataLoader F) (w : World F) :
  exists w',
    model w' = NeuralNetwork_train false (model w) /\
    grad_enabled w' = grad_enabled w /\
    match eval_batches loss_fn device (NeuralNetwork_train false (model w)) (batches dl) with
    | Raise e => test loss_fn device dl w = (Raise e, w') /\ stdout w' = stdout w
    | Ok [] => test loss_fn device dl w = (Raise ZeroDivisionError, w') /\ stdout w' = stdout w
    | Ok outs =>
        test loss_fn device dl w = (Ok tt, w') /\
        stdout w' = stdout w ++
          [TestLine (float_mul (float_of_nat 100)
                       (float_div (float_sum (map (fun o => float_of_nat (snd o)) outs))
                                  (float_of_nat (length (dataset dl)))))
                    (float_div (float_sum (map fst outs))
                               (float_of_nat (length (batches dl))))]
    end.
Proof.
  pose (w1 := set_grad_enabled false
                (mkWorld (NeuralNetwork_train false (model w)) (grads w) (grad_enabled w)
                         (files w) (stdout w) (calls w ++ [CModelEval]))).
  destruct (@test_loop_run (NeuralNetwork_train false (model w)) (batches dl)
              (float_of_nat 0, float_of_nat 0) w1 eq_refl)
    as (w2 & Hm & Hs & _ & E).
  unfold test. erewrite bind_ok by reflexivity.
  apply no_grad_eq in E.
  pose proof (eval_batches_length (NeuralNetwork_train false (model w)) (batches dl)) as Hlen.
  destruct (eval_batches loss_fn device (NeuralNetwork_train false (model w)) (batches dl))
    as [outs|e].
  - specialize (Hlen outs eq_refl). rewrite batches_length in Hlen.
    erewrite bind_ok by exact E. cbn [fst snd].
    destruct outs as [|o outs].
    + cbn [length] in Hlen. rewrite <- Hlen.
      erewrite bind_raise by reflexivity.
      eexists. split; [|split; [|split; [reflexivity|]]];
        cbn [model grad_enabled stdout set_grad_enabled]; [exact Hm | reflexivity | exact Hs].
    + assert (HB : DataLoader_len dl <> 0) by (rewrite <- Hlen; discriminate).
      assert (HN : length (dataset dl) <> 0).
      { intros E0. apply HB. apply DataLoader_len_empty. now destruct (dataset dl). }
      apply Nat.eqb_neq in HB. apply Nat.eqb_neq in HN.
      erewrite bind_ok by (unfold lift, py_div; rewrite HB; reflexivity).
      erewrite bind_ok by (unfold lift, py_div; rewrite HN; reflexivity).
      eexists. split; [|split; [|split; [reflexivity|]]];
        cbn [model grad_enabled stdout set_grad_enabled print snd]; [exact Hm | reflexivity |].
      rewrite Hs, batches_length. reflexivity.
  - erewrite bind_raise by exact E.
    eexists. split; [|split; [|split; [reflexivity|]]];
      cbn [model grad_enabled stdout set_grad_enabled]; [exact Hm | reflexivity | exact Hs].
Qed.

End TestReport.




Lemma train_performs_fixed_sequence_witness :
  let w' := snd (train constant_loss unit_gradient (-1)%Z cpu sample_loader initial_world) in
  exists bs steps new printed,
    batches sample_loader = map Ok bs /\
    Forall2 (batch_forward constant_loss cpu)
            (combine (models_before unit_gradient (-1)%Z cpu
                        (NeuralNetwork_train true (model initial_world), grads initial_world) bs)
                     bs)
            steps /\
    calls w' = calls initial_world ++ CModelTrain :: new /\
    map kind new = flat_map batch_kinds (seq 0 (length bs)) /\
    moves new = map (fun b => (fst b, cpu)) bs /\
    label_moves new = map (fun b => (snd b, cpu)) bs /\
    forward_inputs new = map (fun b => Tensor_to cpu (fst b)) bs /\
    loss_preds new = map fst steps /\
    loss_labels new = map (fun b => Label_to cpu (snd b)) bs /\
    stdout w' = stdout initial_world ++ printed /\
    printed = progress_lines (length (dataset sample_loader)) 0 (combine bs (map snd steps)) /\
    Forall2 (progress_line (length (dataset sample_loader))) printed
            (filter (fun ib => fst ib mod 100 =? 0) (enumerate bs)).
Proof.
  apply (@train_performs_fixed_sequence Z Scalar_Z constant_loss unit_gradient (-1)%Z cpu
           sample_loader initial_world).
  vm_compute. reflexivity.
Defined.

(** * Devices in the notebooks *)

Section NotebookFacts.
Context {F : Type} `{Scalar F}.
Local Open Scope py_scope.

Variable loss_fn : Tensor F -> LabelTensor -> result PyFloat.
Variable autograd : NeuralNetwork F -> Tensor F -> LabelTensor -> Grads F.
Variable neg_lr : F.

Lemma hoare_bind {A B} (I J K : Inv F) (P : Call F -> Prop) (m : Py F A) (k : A -> Py F B) :
  hoare I P m J -> (forall a, hoare J P (k a) K) -> hoare I P (bind m k) K.
Proof.
  intros Hm Hk w Hw. unfold bind.
  destruct (Hm w Hw) as ((new & Hc & Hp) & Hj).
  destruct (m w) as [[a|e] w1]; cbn [fst snd] in *.
  - destruct (Hk a w1 (Hj a eq_refl)) as ((new2 & Hc2 & Hp2) & Hk2).
    split; [|exact Hk2].
    exists (new ++ new2). rewrite Hc2, Hc, app_assoc. split; [reflexivity|].
    apply Forall_app; now split.
  - split; [now exists new | discriminate].
Qed.

Lemma hoare_triple {A} (I : Inv F) (P : Call F -> Prop) (m : Py F A) (Q : A -> Prop) :
  triple I P m Q -> hoare I P m I.
Proof.
  intros Hm w Hw. destruct (Hm w Hw) as (Hi & Hc & _). split; [exact Hc | intros; exact Hi].
Qed.

Lemma hoare_calls {A} (I J : Inv F) (P P' : Call F -> Prop) (m : Py F A) :
  hoare I P m J -> (forall c, P c -> P' c) -> hoare I P' m J.
Proof.
  intros Hm HP w Hw. destruct (Hm w Hw) as ((new & Hc & Hp) & Hj). split; [|exact Hj].
  exists new. split; [exact Hc|]. revert Hp. apply Forall_impl. exact HP.
Qed.

Lemma hoare_pre {A} (I I' J : Inv F) (P : Call F -> Prop) (m : Py F A) :
  hoare I P m J -> (forall m g b, I' m g b -> I m g b) -> hoare I' P m J.
Proof. intros Hm HI w Hw. apply Hm. now apply HI. Qed.

Lemma hoare_set_model (I J : Inv F) (P : Call F -> Prop)
    (f : NeuralNetwork F -> NeuralNetwork F) :
  (forall m g b, I m g b -> J (f m) g b) -> hoare I P (set_model f) J.
Proof.
  intros Hf w Hw. cbn. split; [exists []; now rewrite app_nil_r|]. intros _ _. now apply Hf.
Qed.

(** ** The shape of a NeuralNetwork object *)

Lemma canonical_devices (d : Device) (m : NeuralNetwork F) (g : Grads F) (b : bool) :
  canonical d m g b -> map (@dev F) (parameters m) = [d; d; d; d; d; d].
Proof. intros (p & mode & ->). reflexivity. Qed.

Lemma canonical_train (d : Device) (mode : bool) (m : NeuralNetwork F) (g : Grads F) (b : bool) :
  canonical d m g b -> canonical d (NeuralNetwork_train mode m) g b.
Proof. intros (p & mode' & ->). now exists p, mode. Qed.

Lemma canonical_new (p : Params F) (g : Grads F) (b : bool) :
  canonical cpu (NeuralNetwork_init p) g b.
Proof. now exists p, true. Qed.

Lemma canonical_new_to (d : Device) (p : Params F) (g : Grads F) (b : bool) :
  canonical d (NeuralNetwork_to d (NeuralNetwork_init p)) g b.
Proof. now exists p, true. Qed.

Lemma sgd_update_eq (g : Grads F) (key : string) s xs d :
  sgd_update neg_lr g key (mkTensor s xs d) =
  mkTensor s (sgd_data neg_lr g key (mkTensor s xs d)) d.
Proof. unfold sgd_data, sgd_update. destruct (grad_of key g); reflexivity. Qed.

Lemma canonical_step (d : Device) (m : NeuralNetwork F) (g : Grads F) (b : bool) :
  canonical d m g b -> canonical d (NeuralNetwork_map_named (sgd_update neg_lr g) m) g b.
Proof.
  intros (p & mode & ->).
  unfold NeuralNetwork_map_named, NeuralNetwork_train, NeuralNetwork_to, NeuralNetwork_init,
    nn_Linear, nn_Flatten.
  cbn [flatten linear_relu_stack training Module_map_named Module_to map].
  unfold Tensor_to. cbn [shape data dev].
  rewrite !sgd_update_eq.
  eexists {| weight_0 := _; bias_0 := _; weight_2 := _; bias_2 := _;
             weight_4 := _; bias_4 := _ |}, mode.
  reflexivity.
Qed.

Lemma load_param_eq (sd : StateDict F) (key : string) s xs d :
  loaded (load_param sd key (mkTensor s xs d)) = mkTensor s (load_data sd key (mkTensor s xs d)) d.
Proof.
  unfold load_data, load_param. destruct (lookup key sd) as [v|]; [|reflexivity].
  cbn [shape]. destruct (shape_eqb (shape v) s); reflexivity.
Qed.

Lemma load_state_dict_model (self : NeuralNetwork F) (sd : StateDict F) :
  fst (load_state_dict self sd) =
  {| flatten := loaded (Module_load sd "flatten." (flatten self));
     linear_relu_stack := loaded (Module_load sd "linear_relu_stack." (linear_relu_stack self));
     training := training self |}.
Proof.
  unfold load_state_dict. cbv zeta.
  destruct (missing _ ++ missing _); [|reflexivity].
  destruct (filter _ _); [|reflexivity].
  destruct (errors _ ++ errors _); reflexivity.
Qed.

Lemma canonical_load (sd : StateDict F) (m : NeuralNetwork F) (g : Grads F) (b : bool) :
  canonical cpu m g b -> canonical cpu (fst (load_state_dict m sd)) g b.
Proof.
  intros (p & mode & ->). rewrite load_state_dict_model.
  unfold NeuralNetwork_train, NeuralNetwork_to, NeuralNetwork_init, nn_Linear, nn_Flatten.
  cbn [flatten linear_relu_stack training Module_load Module_to map loaded].
  unfold Tensor_to. cbn [shape data dev].
  rewrite !load_param_eq.
  eexists {| weight_0 := _; bias_0 := _; weight_2 := _; bias_2 := _;
             weight_4 := _; bias_4 := _ |}, mode.
  reflexivity.
Qed.

(** ** Where the model and its inputs live *)

Lemma on_device_same (d : Device) (c : Call F) : on_device d c -> same_device c.
Proof.
  destruct c; cbn; try (intros; exact Logic.I). intros [Hx Hds]. revert Hds.
  apply Forall_impl. intros a Ha. rewrite Ha, Hx. reflexivity.
Qed.

Lemma forward_only_on_device (d : Device) : forward_only (@on_device F d).
Proof. intros c Hf Hx Hy. destruct c; cbn in *; try exact Logic.I; congruence. Qed.

Lemma forward_only_same_device : forward_only (@same_device F).
Proof. intros c Hf Hx Hy. destruct c; cbn in *; try exact Logic.I; congruence. Qed.

Lemma moves_to_on_device (d : Device) : moves_to d (@on_device F d).
Proof. split; intros; reflexivity. Qed.

Lemma forward_on_device (d : Device) (m : NeuralNetwork F) (g : Grads F) (b : bool)
    (x : Tensor F) :
  canonical d m g b -> dev x = d ->
  on_device d (CForward (map (@dev F) (parameters m)) x b).
Proof.
  intros Hc Hx. cbn. split; [exact Hx|]. rewrite (canonical_devices Hc).
  repeat constructor.
Qed.

Lemma triple_print_first_batch (I : Inv F) (P : Call F -> Prop) (dl : DataLoader F) :
  P CPrint -> triple I P (print_first_batch dl) (fun _ => True).
Proof.
  intros HP. unfold print_first_batch. destruct (batches dl) as [|rb _].
  - now apply triple_ret.
  - apply triple_bind with (Q := fun _ => True); [now apply triple_lift|]. intros b _.
    apply triple_bind with (Q := fun _ => True); [now apply triple_print|].
    intros _ _. now apply triple_print.
Qed.

Lemma hoare_save_model I (P : Call F -> Prop) (path : string) : hoare (I : Inv F) (P :
  Call F -> Prop) (save_model path) I.
Proof.
  intros w Hw. cbn. split; [exists []; now rewrite app_nil_r|]. intros _ _. exact Hw.
Qed.

Lemma hoare_load_model (I : Inv F) (P : Call F -> Prop) (path : string) :
  (forall sd m g b, I m g b -> I (fst (load_state_dict m sd)) g b) ->
  hoare I P (load_model path) I.
Proof.
  intros HI w Hw. unfold load_model. destruct (torch_load path (files w)) as [sd|e]; cbn.
  - split; [exists []; now rewrite app_nil_r|]. intros _ _. now apply HI.
  - split; [exists []; now rewrite app_nil_r|]. discriminate.
Qed.

Lemma triple_module_call (I : Inv F) (P : Call F -> Prop) (m : Module F) (x : Tensor F) :
  (forall b, P (CForward (map (@dev F) (Module_parameters m)) x b)) ->
  triple I P (module_call m x) (fun y => call m x = Ok y).
Proof.
  intros HP w Hw. unfold module_call, bind, log, lift. cbn.
  split; [exact Hw | split; [|intros a E; exact E]].
  eexists. split; [reflexivity|]. constructor; [apply HP | constructor].
Qed.

Lemma flatten_fn_dev s e (x y : Tensor F) : flatten_fn s e x = Ok y -> dev y = dev x.
Proof.
  unfold flatten_fn. destruct (flatten_shape s e (shape x)); cbn; [|discriminate].
  intros E; injection E as <-. reflexivity.
Qed.

Section Cells.
Variable cuda_is_available : bool.
Let d : Device := device cuda_is_available.

Lemma hoare_quickstart_training (init : Params F) (training_data test_data : Dataset F) :
  hoare anything (on_device d)
        (quickstart_training loss_fn autograd neg_lr cuda_is_available init
                             training_data test_data)
        (canonical d).
Proof.
  unfold quickstart_training.
  apply hoare_bind with (J := anything).
  { apply hoare_triple with (Q := fun _ => True). now apply triple_lift. }
  intros train_dataloader.
  apply hoare_bind with (J := anything).
  { apply hoare_triple with (Q := fun _ => True). now apply triple_lift. }
  intros test_dataloader.
  apply hoare_bind with (J := anything).
  { apply hoare_triple with (Q := fun _ => True). apply triple_print_first_batch. exact Logic.I. }
  intros _.
  apply hoare_bind with (J := anything).
  { apply hoare_triple with (Q := fun _ => True). apply triple_print. exact Logic.I. }
  intros _.
  apply hoare_bind with (J := canonical d).
  { apply hoare_set_model. intros. apply canonical_new_to. }
  intros _.
  apply hoare_triple with (Q := fun _ => True).
  apply triple_bind with (Q := fun _ => True); [apply triple_print; exact Logic.I|].
  intros _ _.
  apply triple_bind with (Q := fun _ => True).
  { apply triple_set_grads. intros m g b Hc. exact Hc. }
  intros _ _.
  apply triple_bind with (Q := fun _ => True).
  { apply triple_for_each. intros t _.
    apply triple_bind with (Q := fun _ => True); [apply triple_print; exact Logic.I|].
    intros _ _.
    apply triple_bind with (Q := fun _ => True).
    - apply triple_train.
      + intros m g b. apply canonical_train.
      + intros m g g' b Hc. exact Hc.
      + intros m g b. apply canonical_step.
      + apply forward_only_on_device.
      + apply moves_to_on_device.
      + intros m g b x Hc. eapply forward_on_device; [exact Hc | reflexivity].
    - intros _ _. apply triple_test.
      + intros m g b b' Hc. exact Hc.
      + intros m g b. apply canonical_train.
      + apply forward_only_on_device.
      + apply moves_to_on_device.
      + intros m g x Hc. eapply forward_on_device; [exact Hc | reflexivity]. }
  intros _ _.
  apply triple_bind with (Q := fun _ => True); [apply triple_print; exact Logic.I|].
  intros _ _. now apply triple_ret.
Qed.

Lemma hoare_quickstart_reload (reinit : Params F) (test_data : Dataset F) :
  hoare anything (on_device cpu) (quickstart_reload reinit test_data) (canonical cpu).
Proof.
  unfold quickstart_reload.
  apply hoare_bind with (J := anything); [apply hoare_save_model|]. intros _.
  apply hoare_bind with (J := anything).
  { apply hoare_triple with (Q := fun _ => True). apply triple_print. exact Logic.I. }
  intros _.
  apply hoare_bind with (J := canonical cpu).
  { apply hoare_set_model. intros. apply canonical_new. }
  intros _.
  apply hoare_bind with (J := canonical cpu).
  { apply hoare_load_model. intros sd m g b. apply canonical_load. }
  intros _.
  apply hoare_triple with (Q := fun _ => True).
  apply triple_bind with (Q := fun _ => True).
  { unfold model_eval.
    apply triple_bind with (Q := fun _ => True); [apply triple_log; exact Logic.I|].
    intros _ _. apply triple_set_model. intros m g b. apply canonical_train. }
  intros _ _.
  apply triple_bind with (Q := fun xy => dev (fst xy) = cpu).
  { apply triple_lift. unfold getitem. intros xy.
    destruct (nth_error test_data 0); [|discriminate]. intros E; injection E as <-.
    reflexivity. }
  intros xy Hxy.
  apply triple_no_grad; [intros m g b b' Hc; exact Hc|].
  apply triple_bind with (Q := fun _ => True).
  { apply triple_model_call. intros m g b [Hc _].
    eapply forward_on_device; [exact Hc | exact Hxy]. }
  intros pred _.
  apply triple_bind with (Q := fun _ => True); [now apply triple_lift|]. intros predicted _.
  apply triple_bind with (Q := fun _ => True); [now apply triple_lift|]. intros actual _.
  apply triple_print. exact Logic.I.
Qed.

Lemma hoare_quickstart (init reinit : Params F) (training_data test_data : Dataset F) :
  hoare anything same_device
        (quickstart loss_fn autograd neg_lr cuda_is_available init reinit
                    training_data test_data)
        (canonical cpu).
Proof.
  unfold quickstart. apply hoare_bind with (J := canonical d).
  - apply hoare_calls with (P := on_device d); [|apply on_device_same].
    apply hoare_quickstart_training.
  - intros _. apply hoare_pre with (I := anything); [|intros; exact Logic.I].
    apply hoare_calls with (P := on_device cpu); [|apply on_device_same].
    apply hoare_quickstart_reload.
Qed.

Lemma hoare_demo04 (init : Params F) (X image image' : list F)
    (layer1 layer2 : list F * list F) :
  hoare anything same_device
        (demo04 cuda_is_available init X image image' layer1 layer2) (canonical d).
Proof.
  unfold demo04.
  apply hoare_bind with (J := anything).
  { apply hoare_triple with (Q := fun _ => True). apply triple_print. exact Logic.I. }
  intros _.
  apply hoare_bind with (J := canonical d).
  { apply hoare_set_model. intros. apply canonical_new_to. }
  intros _.
  apply hoare_triple with (Q := fun _ => True).
  apply triple_bind with (Q := fun _ => True); [apply triple_print; exact Logic.I|].
  intros _ _.
  apply triple_bind with (Q := fun _ => True).
  { apply triple_model_call. intros m g b Hc.
    apply on_device_same with (d := d). eapply forward_on_device; [exact Hc | reflexivity]. }
  intros _ _. cbv zeta.
  apply triple_bind with (Q := fun _ => True); [apply triple_print; exact Logic.I|].
  intros _ _.
  apply triple_bind with (Q := fun y => dev y = cpu).
  { eapply triple_weaken; [apply triple_module_call; intros b; constructor|].
    intros y Hy. apply flatten_fn_dev in Hy. exact Hy. }
  intros flat_image Hflat.
  apply triple_bind with (Q := fun _ => True); [apply triple_print; exact Logic.I|].
  intros _ _.
  apply triple_bind with (Q := fun _ => True).
  { eapply triple_weaken; [apply triple_module_call|intros; exact Logic.I].
    intros b. cbn. rewrite Hflat. repeat constructor. }
  intros hidden1 _.
  apply triple_bind with (Q := fun _ => True); [apply triple_print; exact Logic.I|].
  intros _ _.
  apply triple_bind with (Q := fun _ => True).
  { eapply triple_weaken; [apply triple_module_call|intros; exact Logic.I].
    intros b. constructor. }
  intros _ _.
  eapply triple_weaken; [apply triple_module_call|intros; exact Logic.I].
  intros b. cbn. repeat constructor.
Qed.

End Cells.

End NotebookFacts.

(** C8, as the notebooks have it: the device is "cuda" exactly when CUDA is
    available and "cpu" otherwise; up to the end of the epochs every move made
    by the loops goes to that device and every forward pass runs with the
    model's parameters and its input on that device; the model that is built
    again for load_state_dict, and the test image it is applied to, are not
    moved and are both on the CPU; so in every forward pass of the quickstart
    notebook and of demo04 the parameters are where the input is. *)
Theorem forward_passes_run_on_one_device :
  forall (F : Type) (S : Scalar F) (loss_fn : Tensor F -> LabelTensor -> result PyFloat)
         (autograd : NeuralNetwork F -> Tensor F -> LabelTensor -> Grads F) (neg_lr : F)
         (cuda_is_available : bool) (init reinit : Params F)
         (training_data test_data : Dataset F) (X image image' : list F)
         (layer1 layer2 : list F * list F) (w : World F),
    (device cuda_is_available = cuda <-> cuda_is_available = true) /\
    (device cuda_is_available = cpu <-> cuda_is_available = false) /\
    (exists new,
        calls (snd (quickstart_training loss_fn autograd neg_lr cuda_is_available init
                                        training_data test_data w)) = calls w ++ new /\
        Forall (on_device (device cuda_is_available)) new) /\
    (exists new,
        calls (snd (quickstart_reload reinit test_data w)) = calls w ++ new /\
        Forall (on_device cpu) new) /\
    (exists new,
        calls (snd (quickstart loss_fn autograd neg_lr cuda_is_available init reinit
                               training_data test_data w)) = calls w ++ new /\
        Forall same_device new) /\
    (exists new,
        calls (snd (demo04 cuda_is_available init X image image' layer1 layer2 w))
          = calls w ++ new /\
        Forall same_device new).
Proof.
  intros F S loss_fn autograd neg_lr avail init reinit training_data test_data
         X image image' layer1 layer2 w.
  split; [destruct avail; cbn; split; congruence|].
  split; [destruct avail; cbn; split; congruence|].
  split; [exact (proj1 (hoare_quickstart_training loss_fn autograd neg_lr avail init
                         training_data test_data (I : holds anything w)))|].
  split; [exact (proj1 (hoare_quickstart_reload reinit test_data (I : holds anything w)))|].
  split; [exact (proj1 (hoare_quickstart loss_fn autograd neg_lr avail init reinit
                         training_data test_data (I : holds anything w)))|].
  exact (proj1 (hoare_demo04 avail init X image image' layer1 layer2
                  (I : holds anything w))).
Qed.

(** With CUDA available the selected device is "cuda", and the whole notebook
    runs; but its last forward pass, on the reloaded model, has both the
    parameters and the input on the CPU: that input was never moved to the
    selected device. *)
Lemma reloaded_model_and_input_stay_on_cpu :
  let run := quickstart constant_loss no_gradient (-1)%Z true zero_params zero_params
                        [(blank_image, 3)] [(blank_image, 3)] initial_world in
  device true = cuda /\
  fst run = Ok tt /\
  last (forward_devices (calls (snd run))) ([], cuda) = ([cpu; cpu; cpu; cpu; cpu; cpu], cpu) /\
  last (stdout (snd run)) (TextLine "") = PredictedLine "T-shirt/top" "Dress".
Proof.
  cbv zeta. split; [reflexivity|].
  split; [vm_compute; reflexivity|]. split; vm_compute; reflexivity.
Qed.

(** * Further properties *)

(** * Further properties of the network *)

Section ForwardFacts.
Context {F : Type} `{Scalar F}.
Local Open Scope result_scope.

Lemma Device_eqb_eq (a b : Device) : Device_eqb a b = true <-> a = b.
Proof. destruct a, b; cbn; split; congruence. Qed.

Lemma Device_eqb_refl (a : Device) : Device_eqb a a = true.
Proof. now destruct a. Qed.

(** Flatten keeps the batch axis and merges the others. *)
Lemma flatten_batch (N a : nat) (dims : list nat) (xs : list F) (d : Device) :
  flatten_fn 1 (-1) (mkTensor (N :: a :: dims) xs d) =
  Ok (mkTensor [N; numel (a :: dims)] xs d).
Proof.
  unfold flatten_fn, flatten_shape, wrap_dim. cbn [shape data dev length].
  replace (Nat.max (S (S (length dims))) 1) with (S (S (length dims))) by lia.
  assert (Hs : ((- Z.of_nat (S (S (length dims))) <=? 1)
                && (1 <? Z.of_nat (S (S (length dims)))))%Z = true).
  { apply andb_true_iff; split; [apply Z.leb_le | apply Z.ltb_lt]; lia. }
  assert (He : ((- Z.of_nat (S (S (length dims))) <=? -1)
                && (-1 <? Z.of_nat (S (S (length dims)))))%Z = true).
  { apply andb_true_iff; split; [apply Z.leb_le | apply Z.ltb_lt]; lia. }
  rewrite Hs, He. cbn [rbind].
  change (Z.to_nat (if (1 <? 0)%Z then (1 + Z.of_nat (S (S (length dims))))%Z else 1%Z))
    with 1.
  replace (Z.to_nat (if (-1 <? 0)%Z then (-1 + Z.of_nat (S (S (length dims))))%Z else (-1)%Z))
    with (S (length dims)) by (cbn [Z.ltb Z.compare]; lia).
  replace (S (length dims) <? 1) with false by (symmetry; apply Nat.ltb_ge; lia).
  cbn [rbind firstn skipn app].
  replace (S (length dims) - 1 + 1) with (length (a :: dims)) by (cbn [length]; lia).
  rewrite firstn_all.
  replace (S (length dims) + 1) with (S (S (length dims))) by lia.
  cbn [skipn]. rewrite skipn_all. reflexivity.
Qed.

Lemma flatten_low_rank (s : list nat) (xs : list F) (d : Device) :
  length s < 2 -> flatten_fn 1 (-1) (mkTensor s xs d) = Raise IndexError.
Proof.
  intros Hs. destruct s as [|a [|b s]]; [reflexivity | reflexivity | cbn in Hs; lia].
Qed.

Lemma linear_wrong_size i o (w b x : Tensor F) (N k : nat) :
  shape x = [N; k] -> k <> i -> linear i o w b x = Raise RuntimeError.
Proof.
  intros Hs Hk. unfold linear. rewrite Hs. cbn [rev app].
  apply Nat.eqb_neq in Hk. now rewrite Hk.
Qed.

Lemma linear_wrong_device i o (w b x : Tensor F) (N : nat) :
  shape x = [N; i] -> dev x <> dev w -> linear i o w b x = Raise RuntimeError.
Proof.
  intros Hs Hd. unfold linear. rewrite Hs. cbn [rev app]. rewrite Nat.eqb_refl. cbn [negb].
  destruct (Device_eqb (dev x) (dev w)) eqn:E; [apply Device_eqb_eq in E; contradiction|].
  reflexivity.
Qed.

End ForwardFacts.

(** X1: for an input of the dtype of the model's parameters (a [Tensor F]),
    how NeuralNetwork.forward ends is decided by the size and the device of
    the input: an input with fewer than two axes raises IndexError (in
    Flatten); an input whose axes after the first do not multiply to 784, or
    that is not on the model's device, raises RuntimeError (in the first
    Linear); every other input gives logits of size [N, 10] on that device.
    Inputs of another dtype are not covered. *)
Theorem forward_outcome_by_size_and_device :
  forall (F : Type) (S : Scalar F) (i : Params F) (d : Device) (x : Tensor F),
    match forward_outcome d x with
    | Some e => forward (NeuralNetwork_to d (NeuralNetwork_init i)) x = Raise e
    | None => exists logits,
        forward (NeuralNetwork_to d (NeuralNetwork_init i)) x = Ok logits /\
        shape logits = [hd 0 (shape x); 10] /\ dev logits = d
    end.
Proof.
  intros F S i d [s xs dv]. unfold forward_outcome. cbn [shape dev].
  destruct s as [|N [|a dims]].
  - rewrite forward_stack, flatten_low_rank by (cbn; lia). reflexivity.
  - rewrite forward_stack, flatten_low_rank by (cbn; lia). reflexivity.
  - destruct (numel (a :: dims) =? 784) eqn:En; cbn [andb].
    + apply Nat.eqb_eq in En. destruct (Device_eqb dv d) eqn:Ed.
      * apply Device_eqb_eq in Ed. subst dv.
        destruct (@forward_logits F S i d N (a :: dims) xs En) as (y & Hy & Hs & Hd & _);
          [discriminate|].
        exists y. cbn [hd]. repeat split; assumption.
      * rewrite forward_stack, flatten_batch. cbn [rbind]. unfold layer_0.
        rewrite linear_wrong_device with (N := N);
          [reflexivity | cbn [shape]; now rewrite En |].
        cbn. intros ->. now rewrite Device_eqb_refl in Ed.
    + apply Nat.eqb_neq in En.
      rewrite forward_stack, flatten_batch. cbn [rbind]. unfold layer_0.
      now rewrite linear_wrong_size with (N := N) (k := numel (a :: dims)).
Qed.

Section LinearFacts.
Context {F : Type} `{Scalar F}.
Local Open Scope result_scope.

(** Linear on a two-dimensional input works row by row. *)
Lemma linear_data i o (w b : Tensor F) (N : nat) (xs : list F) (d : Device) :
  dev w = d -> dev b = d ->
  linear i o w b (mkTensor [N; i] xs d) =
  Ok (mkTensor [N; o]
               (concat (map (linear_row i o (rows o i (data w)) (data b)) (rows N i xs))) d).
Proof.
  intros Hw Hb. unfold linear. cbn [shape data dev rev app].
  rewrite Nat.eqb_refl, Hw, Hb, Device_eqb_refl. cbn [negb andb numel fold_right].
  now rewrite Nat.mul_1_r.
Qed.

End LinearFacts.

(** ** The predicted class *)

Section PredictionFacts.
Context {F : Type} `{Scalar F}.

Lemma argmax_from_bound (l : list F) :
  forall bi best i, bi < i -> argmax_from bi best i l < i + length l.
Proof.
  induction l as [|v l IH]; intros bi best i Hb; cbn [argmax_from length]; [lia|].
  destruct (ltb best v).
  - specialize (IH i v (S i)). lia.
  - specialize (IH bi best (S i)). lia.
Qed.

Lemma argmax_bound (row : list F) (c : nat) : length row <= c -> 0 < c -> argmax row < c.
Proof.
  destruct row as [|v l]; cbn [argmax length]; intros Hl Hc; [exact Hc|].
  pose proof (@argmax_from_bound l 0 v 1). lia.
Qed.

End PredictionFacts.

(** X4: the class name the quickstart prints as predicted is always one of the
    ten names of [classes]: for the logits the network returns on a non-empty
    batch, [classes[pred[0].argmax(0)]] raises no IndexError, and the index it
    uses is the first entry of [pred.argmax(1)], the prediction [test] counts. *)
Theorem predicted_class_is_a_class_name :
  forall (F : Type) (S : Scalar F) (i : Params F) (d : Device) (n : nat) (xs : list F),
  exists logits name k ks,
    forward (NeuralNetwork_to d (NeuralNetwork_init i)) (mkTensor [1 + n; 28; 28] xs d) = Ok logits /\
    predicted_class logits = Ok name /\
    In name classes /\
    argmax_1 logits = Ok (k :: ks) /\
    class_name k = Ok name.
Proof.
  intros F S i d n xs.
  destruct (@forward_logits F _ i d (1 + n) [28; 28] xs eq_refl) as (logits & Hf & Hs & Hd & Hl);
    [discriminate|].
  destruct logits as [s l dv]. cbn [shape data dev] in Hs, Hd, Hl. subst s dv.
  assert (Hk : argmax (firstn 10 l) < length classes).
  { change (length classes) with 10. apply argmax_bound; [rewrite length_firstn; lia | lia]. }
  destruct (nth_error classes (argmax (firstn 10 l))) as [name|] eqn:En;
    [|apply nth_error_None in En; lia].
  exists (mkTensor [1 + n; 10] l d), name, (argmax (firstn 10 l)),
         (map argmax (rows n 10 (skipn 10 l))).
  split; [exact Hf|]. split; [|split; [|split]].
  - unfold predicted_class. cbn [shape data Nat.add]. now rewrite En.
  - eapply nth_error_In. exact En.
  - reflexivity.
  - unfold class_name. now rewrite En.
Qed.

(** ** The cells of demo04 *)

Section Demo04Facts.
Context {F : Type} `{Scalar F}.

Lemma module_call_ok (m : Module F) (x y : Tensor F) (w : World F) :
  call m x = Ok y ->
  module_call m x w =
  (Ok y, mkWorld (model w) (grads w) (grad_enabled w) (files w) (stdout w)
                 (calls w ++ [CForward (map (@dev F) (Module_parameters m)) x (grad_enabled w)])).
Proof. intros E. unfold module_call, bind, log, lift. now rewrite E. Qed.

Lemma model_call_ok (x y : Tensor F) (w : World F) :
  forward (model w) x = Ok y ->
  model_call x w =
  (Ok {| value := y; grad_fn := if grad_enabled w then Some (model w, x) else None |},
   mkWorld (model w) (grads w) (grad_enabled w) (files w) (stdout w)
           (calls w ++ [CForward (map (@dev F) (parameters (model w))) x (grad_enabled w)])).
Proof.
  intros E. unfold model_call, bind, log, lift, ret, NeuralNetwork_call.
  cbn [fst snd model grads grad_enabled files stdout calls]. now rewrite E.
Qed.

End Demo04Facts.

(** X5: the module cells of demo04 run to their end whatever values torch.rand
    and the layers' initialisation draw, with or without a GPU: they print the
    three sizes the notebook records, [3, 28, 28], [3, 784] and [3, 20], the
    Sequential returns logits of size [3, 10] on the CPU, and the model is the
    new network moved to the device. *)
Theorem demo04_runs_and_prints_recorded_sizes :
  forall (F : Type) (S : Scalar F) (cuda_is_available : bool) (init : Params F)
         (X image image' : list F) (layer1 layer2 : list F * list F) (w : World F),
  exists logits w',
    demo04 cuda_is_available init X image image' layer1 layer2 w = (Ok logits, w') /\
    shape logits = [3; 10] /\ dev logits = cpu /\
    stdout w' = stdout w ++
      [TextLine ("Using " ++ device_name (device cuda_is_available) ++ " device");
       ReprLine "NeuralNetwork";
       ShapeLine "input_image" [3; 28; 28];
       ShapeLine "flat_image" [3; 784];
       ShapeLine "hidden1" [3; 20]] /\
    model w' = NeuralNetwork_to (device cuda_is_available) (NeuralNetwork_init init).
Proof.
  intros F S avail init X image image' layer1 layer2 w.
  destruct (@forward_logits F _ init (device avail) 1 [28; 28] X eq_refl)
    as (logits0 & Hf0 & _); [discriminate|].
  unfold demo04.
  py_step. py_step. py_step.
  erewrite bind_ok; [|apply model_call_ok; cbn [model]; exact Hf0].
  py_simpl. cbv zeta.
  py_step.
  erewrite bind_ok; [|apply module_call_ok; unfold nn_Flatten; cbn [call]; apply flatten_batch].
  py_simpl. py_step.
  erewrite bind_ok; [|apply module_call_ok; unfold nn_Linear; cbn [call];
                      change (numel [28; 28]) with (28 * 28); apply linear_data; reflexivity].
  py_simpl. py_step.
  erewrite bind_ok; [|apply module_call_ok; reflexivity].
  py_simpl.
  erewrite module_call_ok.
  2: { unfold nn_Flatten, nn_Linear. cbn [call]. rewrite flatten_batch. cbn [rbind].
       change (numel [28; 28]) with (28 * 28).
       rewrite linear_data by reflexivity. cbn [rbind]. unfold relu. cbn [shape data dev].
       rewrite linear_data by reflexivity. reflexivity. }
  eexists _, _. split; [reflexivity|].
  cbn [shape dev stdout model fst snd]. split; [reflexivity|]. split; [reflexivity|].
  split; [|reflexivity]. rewrite <- !app_assoc. reflexivity.
Qed.

(** * Modes and structure of the model across the loops *)

Section ModeFacts.
Context {F : Type} `{Scalar F}.
Local Open Scope py_scope.

Variable loss_fn : Tensor F -> LabelTensor -> result PyFloat.
Variable autograd : NeuralNetwork F -> Tensor F -> LabelTensor -> Grads F.
Variable neg_lr : F.
Variable device : Device.

Lemma forward_only_True : forward_only (fun _ : Call F => True).
Proof. intros c _ _ _. exact I. Qed.

Lemma moves_to_True (d : Device) : moves_to d (fun _ : Call F => True).
Proof. split; intros; exact I. Qed.

(** After [model.train()], the loop of [train] keeps an invariant that the
    batch steps keep. *)
Lemma train_loop_invariant (I : Inv F) (dl : DataLoader F) (w : World F) :
  (forall m g g' gm, I m g gm -> I m g' gm) ->
  (forall m g gm, I m g gm -> I (NeuralNetwork_map_named (sgd_update neg_lr g) m) g gm) ->
  I (NeuralNetwork_train true (model w)) (grads w) (grad_enabled w) ->
  holds I (snd (train loss_fn autograd neg_lr device dl w)).
Proof.
  intros Hg Hstep Hw. unfold train.
  erewrite bind_ok by reflexivity.
  lazymatch goal with
  | |- holds I (snd (for_each ?l ?body ?w1)) =>
      assert (Ht : triple I (fun _ => True) (for_each l body) (fun _ => True));
      [|exact (proj1 (Ht w1 Hw))]
  end.
  apply triple_for_each. intros ib _.
  apply triple_bind with (Q := fun _ => True); [now apply triple_lift|]. intros b _.
  apply triple_train_batch; try assumption.
  - apply forward_only_True.
  - apply moves_to_True.
  - intros; exact Logic.I.
Qed.

Lemma train_training_mode (dl : DataLoader F) (w : World F) :
  training (model (snd (train loss_fn autograd neg_lr device dl w))) = true.
Proof.
  apply (@train_loop_invariant (fun m _ _ => training m = true) dl w); intros; auto.
Qed.

Lemma train_grad_mode (dl : DataLoader F) (w : World F) :
  grad_enabled (snd (train loss_fn autograd neg_lr device dl w)) = grad_enabled w.
Proof.
  apply (@train_loop_invariant (fun _ _ b => b = grad_enabled w) dl w); intros; auto.
Qed.

(** Where [test] leaves the model and the gradient mode, however it ends. *)
Lemma test_leaves (dl : DataLoader F) (w : World F) :
  model (snd (test loss_fn device dl w)) = NeuralNetwork_train false (model w) /\
  grad_enabled (snd (test loss_fn device dl w)) = grad_enabled w.
Proof.
  destruct (test_run loss_fn device dl w) as (w' & Hm & Hg & Hr).
  destruct (eval_batches loss_fn device (NeuralNetwork_train false (model w)) (batches dl))
    as [[|o outs]|e]; destruct Hr as (E & _); rewrite E; now split.
Qed.

Lemma test_training_mode (dl : DataLoader F) (w : World F) :
  training (model (snd (test loss_fn device dl w))) = false.
Proof. now rewrite (proj1 (test_leaves dl w)). Qed.

Lemma test_grad_mode (dl : DataLoader F) (w : World F) :
  grad_enabled (snd (test loss_fn device dl w)) = grad_enabled w.
Proof. exact (proj2 (test_leaves dl w)). Qed.

Lemma train_canonical (d : Device) (dl : DataLoader F) (w : World F) :
  holds (canonical d) w -> holds (canonical d) (snd (train loss_fn autograd neg_lr device dl w)).
Proof.
  intros Hw. apply train_loop_invariant.
  - intros m g g' gm Hc. exact Hc.
  - intros m g gm. apply canonical_step.
  - now apply canonical_train.
Qed.

End ModeFacts.

(** X6: [train] leaves the model in training mode and [test] leaves it in
    evaluation mode, whatever they were given and whether they return or
    raise; neither changes whether gradients are tracked afterwards: [test]
    turns tracking off for its loop only, and [torch.no_grad()] restores it
    also when the loop raises. *)
Theorem train_and_test_set_the_mode :
  forall (F : Type) (S : Scalar F) (loss_fn : Tensor F -> LabelTensor -> result PyFloat)
         (autograd : NeuralNetwork F -> Tensor F -> LabelTensor -> Grads F) (neg_lr : F)
         (device : Device) (dataloader : DataLoader F) (w : World F),
    let after_train := snd (train loss_fn autograd neg_lr device dataloader w) in
    let after_test := snd (test loss_fn device dataloader w) in
    training (model after_train) = true /\
    grad_enabled after_train = grad_enabled w /\
    training (model after_test) = false /\
    grad_enabled after_test = grad_enabled w.
Proof.
  intros F S loss_fn autograd neg_lr device dataloader w. cbv zeta.
  split; [apply train_training_mode|]. split; [apply train_grad_mode|].
  split; [apply test_training_mode | apply test_grad_mode].
Qed.

(** X7: training changes parameter values only: on a model that is a
    NeuralNetwork whose parameters live on some device, [train] ends, whether
    it returns or raises, with a NeuralNetwork of the same layers, parameter
    sizes and device, in training mode; the device need not be the one the
    batches are moved to. *)
Theorem train_changes_parameter_values_only :
  forall (F : Type) (S : Scalar F) (loss_fn : Tensor F -> LabelTensor -> result PyFloat)
         (autograd : NeuralNetwork F -> Tensor F -> LabelTensor -> Grads F) (neg_lr : F)
         (device d : Device) (dataloader : DataLoader F) (w : World F)
         (p : Params F) (mode : bool),
    model w = NeuralNetwork_train mode (NeuralNetwork_to d (NeuralNetwork_init p)) ->
    exists p',
      model (snd (train loss_fn autograd neg_lr device dataloader w)) =
      NeuralNetwork_train true (NeuralNetwork_to d (NeuralNetwork_init p')).
Proof.
  intros F S loss_fn autograd neg_lr device d dataloader w p mode Hm.
  assert (Hc : holds (canonical d) w) by (exists p, mode; exact Hm).
  destruct (train_canonical loss_fn autograd neg_lr device dataloader Hc) as (p' & mode' & E).
  pose proof (train_training_mode loss_fn autograd neg_lr device dataloader w) as Ht.
  exists p'. rewrite E in Ht |- *. cbn [training NeuralNetwork_train] in Ht. now rewrite Ht.
Qed.

(** With a gradient of ones for the last bias and lr = 1, the two batches of
    [sample_loader] move that bias from 0 to -2. *)
Lemma unit_gradient_moves_last_bias :
  nth_error (parameters (model initial_world)) 5 = Some (mkTensor [10] (repeat 0%Z 10) cpu) /\
  nth_error (parameters (model (snd (train constant_loss unit_gradient (-1)%Z cpu sample_loader
                                            initial_world)))) 5
  = Some (mkTensor [10] (repeat (-2)%Z 10) cpu).
Proof. split; vm_compute; reflexivity. Qed.

Lemma train_changes_parameter_values_only_witness :
  exists p',
    model (snd (train constant_loss unit_gradient (-1)%Z cpu sample_loader initial_world)) =
    NeuralNetwork_train true (NeuralNetwork_to cpu (NeuralNetwork_init p')).
Proof.
  apply (@train_changes_parameter_values_only Z Scalar_Z constant_loss unit_gradient (-1)%Z
           cpu cpu sample_loader initial_world zero_params true).
  reflexivity.
Defined.

(** X8: on a loader over an empty dataset, whatever its batch size, [train]
    returns having only called [model.train()], and [test] raises
    ZeroDivisionError at [test_loss /= num_batches], after [model.eval()] and
    before printing anything. *)
Theorem loops_on_an_empty_dataset :
  forall (F : Type) (S : Scalar F) (loss_fn : Tensor F -> LabelTensor -> result PyFloat)
         (autograd : NeuralNetwork F -> Tensor F -> LabelTensor -> Grads F) (neg_lr : F)
         (device : Device) (dataloader : DataLoader F) (w : World F),
    dataset dataloader = [] ->
    let r_train := train loss_fn autograd neg_lr device dataloader w in
    let r_test := test loss_fn device dataloader w in
    fst r_train = Ok tt /\
    calls (snd r_train) = calls w ++ [CModelTrain] /\
    stdout (snd r_train) = stdout w /\
    fst r_test = Raise ZeroDivisionError /\
    calls (snd r_test) = calls w ++ [CModelEval] /\
    stdout (snd r_test) = stdout w.
Proof.
  intros F S loss_fn autograd neg_lr device dataloader w He. cbv zeta.
  unfold train, test. rewrite (batches_empty dataloader He), (DataLoader_len_empty dataloader He).
  repeat split.
Qed.

Lemma loops_on_an_empty_dataset_witness :
  let r_train := train constant_loss no_gradient (-1)%Z cpu empty_loader initial_world in
  let r_test := test constant_loss cpu empty_loader initial_world in
  fst r_train = Ok tt /\
  calls (snd r_train) = calls initial_world ++ [CModelTrain] /\
  stdout (snd r_train) = stdout initial_world /\
  fst r_test = Raise ZeroDivisionError /\
  calls (snd r_test) = calls initial_world ++ [CModelEval] /\
  stdout (snd r_test) = stdout initial_world.
Proof.
  apply (@loops_on_an_empty_dataset Z Scalar_Z constant_loss no_gradient (-1)%Z cpu
           empty_loader initial_world).
  reflexivity.
Defined.

(** * What the loader yields *)

Section LoaderFacts.
Context {F : Type} `{Scalar F}.

Lemma Forall_firstn_of {A} (P : A -> Prop) (n : nat) (l : list A) :
  Forall P l -> Forall P (firstn n l).
Proof.
  intros Hl. revert n. induction Hl as [|a l Ha _ IH]; intros [|n]; cbn; constructor; auto.
Qed.

Lemma Forall_skipn_of {A} (P : A -> Prop) (n : nat) (l : list A) :
  Forall P l -> Forall P (skipn n l).
Proof.
  intros Hl. revert n. induction Hl as [|a l Ha Hl IH]; intros [|n]; cbn; auto.
Qed.

(** Every chunk is a non-empty run of at most [bs] elements of the list. *)
Lemma chunks_Forall {A} (P : A -> Prop) (bs : nat) :
  0 < bs -> forall (fuel : nat) (l : list A),
    Forall P l ->
    Forall (fun c => c <> [] /\ length c <= bs /\ Forall P c) (chunks fuel bs l).
Proof.
  intros Hbs. induction fuel as [|fuel IH]; intros l Hl; cbn [chunks]; [constructor|].
  destruct l as [|a l]; [constructor|]. constructor.
  - split; [|split].
    + destruct bs; [lia | discriminate].
    + rewrite length_firstn. lia.
    + now apply Forall_firstn_of.
  - apply IH. now apply Forall_skipn_of.
Qed.

(** The size of the chunk of index [i]. *)
Lemma chunks_nth_length {A} (bs : nat) :
  0 < bs -> forall (fuel : nat) (l : list A) (i : nat),
    length l <= fuel -> i < length (chunks fuel bs l) ->
    length (nth i (chunks fuel bs l) []) = batch_len (length l) bs i.
Proof.
  intros Hbs. unfold batch_len.
  induction fuel as [|fuel IH]; intros l i Hl Hi; [cbn in Hi; lia|].
  destruct l as [|a l]; [cbn in Hi; lia|]. cbn [chunks] in Hi |- *.
  destruct i as [|i].
  - cbn [nth]. rewrite length_firstn. cbn [Nat.mul]. now rewrite Nat.sub_0_r.
  - cbn [nth length] in Hi |- *.
    rewrite IH; [|rewrite length_skipn; cbn [length] in *; lia | lia].
    rewrite length_skipn. f_equal. cbn [length Nat.mul]. lia.
Qed.

Lemma shape_eqb_refl (a : list nat) : shape_eqb a a = true.
Proof. unfold shape_eqb. destruct (list_eq_dec Nat.eq_dec a a); [reflexivity | congruence]. Qed.

(** Images of one size are stacked. *)
Lemma collate_uniform (s : list nat) (items : Dataset F) :
  items <> [] -> Forall (fun it => shape (fst it) = s) items ->
  collate items = Ok (mkTensor (length items :: s)
                               (concat (map (fun it => data (fst it)) items)) cpu,
                      mkLabels (map snd items) cpu).
Proof.
  intros Hne Hall. unfold collate. destruct items as [|[x y] rest]; [congruence|].
  assert (Hx : shape x = s) by (inversion Hall; assumption).
  assert (Hb : forallb (fun it => shape_eqb (shape (fst it)) (shape x)) ((x, y) :: rest) = true).
  { apply forallb_forall. intros it Hin. rewrite Forall_forall in Hall.
    rewrite (Hall it Hin), Hx. apply shape_eqb_refl. }
  rewrite Hb, Hx. reflexivity.
Qed.

(** A batch that was stacked holds the examples it was made of. *)
Lemma collate_len (items : Dataset F) (b : Tensor F * LabelTensor) :
  collate items = Ok b -> len (fst b) = length items /\ labels (snd b) = map snd items.
Proof.
  unfold collate. destruct items as [|[x y] rest]; [discriminate|].
  destruct (forallb _ _); [|discriminate]. intros E; injection E as <-. now split.
Qed.

(** On image data every step of the loader gives a batch of images. *)
Lemma batches_image (dl : DataLoader F) :
  image_dataset (dataset dl) ->
  exists bs, batches dl = map Ok bs /\ Forall image_batch bs.
Proof.
  intros Hds. unfold batches.
  pose proof (chunks_Forall (Pos2Nat.is_pos (batch_size dl)) (length (dataset dl)) Hds) as Hc.
  induction Hc as [|c cs (Hne & _ & Hc) _ (bs & Ebs & Hbs)]; [now exists []|].
  assert (Hs : Forall (fun it : Tensor F * nat => shape (fst it) = [1; 28; 28]) c).
  { revert Hc. apply Forall_impl. tauto. }
  eexists (_ :: bs). cbn [map]. rewrite Ebs, (collate_uniform Hne Hs).
  split; [reflexivity|]. constructor; [|exact Hbs].
  unfold image_batch. cbn [fst snd labels shape].
  split; [destruct c; [congruence | discriminate]|].
  split; [now rewrite length_map|].
  apply Forall_map. revert Hc. apply Forall_impl. tauto.
Qed.

(** The batch of index [i] holds [batch_len N bs i] examples. *)
Lemma batches_nth_len (dl : DataLoader F) (i : nat) (b : Tensor F * LabelTensor) :
  nth_error (batches dl) i = Some (Ok b) ->
  len (fst b) = batch_len (length (dataset dl)) (Pos.to_nat (batch_size dl)) i.
Proof.
  unfold batches. intros Hn.
  rewrite nth_error_map in Hn.
  destruct (nth_error _ i) as [c|] eqn:Ec; [|discriminate].
  cbn [option_map] in Hn. injection Hn as Hn. apply collate_len in Hn. rewrite (proj1 Hn).
  assert (Hi : i < length (chunks (length (dataset dl)) (Pos.to_nat (batch_size dl)) (dataset dl))).
  { apply nth_error_Some. intros E. pose proof (eq_trans (eq_sym E) Ec) as X. discriminate X. }
  rewrite <- (chunks_nth_length (Pos2Nat.is_pos (batch_size dl)) (dataset dl)
                (Nat.le_refl _) Hi).
  now rewrite (nth_error_nth _ _ _ Ec).
Qed.

End LoaderFacts.

(** * Runs of the loops on image data *)

Section RunFacts.
Context {F : Type} `{Scalar F}.
Local Open Scope py_scope.

Variable loss_fn : Tensor F -> LabelTensor -> result PyFloat.
Variable autograd : NeuralNetwork F -> Tensor F -> LabelTensor -> Grads F.
Variable neg_lr : F.

Lemma test_lines_app (a b : list Line) : test_lines (a ++ b) = test_lines a + test_lines b.
Proof. unfold test_lines. now rewrite filter_app, length_app. Qed.

Lemma printed_more (s0 : list Line) (k : nat) (w w' : World F) (more : list Line) :
  printed s0 k w -> stdout w' = stdout w ++ more ->
  printed s0 (k + test_lines more) w'.
Proof.
  intros (new & Hs & Hk) Hw'. exists (new ++ more).
  rewrite Hw', Hs, <- app_assoc, test_lines_app, Hk. now split.
Qed.

Lemma printed_same (s0 : list Line) (k : nat) (w w' : World F) :
  printed s0 k w -> stdout w' = stdout w -> printed s0 k w'.
Proof. intros (new & Hs & Hk) Hw'. exists new. rewrite Hw'. now split. Qed.

Lemma for_each_returns {A} (I : World F -> Prop) (l : list A) (body : A -> Py F unit) :
  (forall a w, In a l -> I w -> exists w', body a w = (Ok tt, w') /\ I w') ->
  forall w, I w -> exists w', for_each l body w = (Ok tt, w') /\ I w'.
Proof.
  induction l as [|a l IH]; intros Hb w Hw; cbn [for_each].
  - now exists w.
  - destruct (Hb a w (or_introl eq_refl) Hw) as (w1 & E1 & H1).
    destruct (IH (fun a' w' Ha' => Hb a' w' (or_intror Ha')) w1 H1) as (w2 & E2 & H2).
    exists w2. erewrite bind_ok by exact E1. now split.
Qed.

(** The same, for a loop whose every round moves a counter on by one. *)
Lemma for_each_counts {A} (I : nat -> World F -> Prop) (l : list A) (body : A -> Py F unit) :
  (forall a k w, I k w -> exists w', body a w = (Ok tt, w') /\ I (S k) w') ->
  forall k w, I k w -> exists w', for_each l body w = (Ok tt, w') /\ I (k + length l) w'.
Proof.
  intros Hb. induction l as [|a l IH]; intros k w Hw; cbn [for_each length].
  - exists w. now rewrite Nat.add_0_r.
  - destruct (Hb a k w Hw) as (w1 & E1 & H1).
    destruct (IH (S k) w1 H1) as (w2 & E2 & H2).
    exists w2. erewrite bind_ok by exact E1. split; [exact E2|].
    now replace (k + S (length l)) with (S k + length l) by lia.
Qed.

Lemma forward_train_mode (mode : bool) (m : NeuralNetwork F) (x : Tensor F) :
  forward (NeuralNetwork_train mode m) x = forward m x.
Proof. reflexivity. Qed.

(** A NeuralNetwork on [d] accepts a batch of images moved to [d]. *)
Lemma forward_on_image_batch (p : Params F) (mode : bool) (d : Device) (x : Tensor F) (n : nat) :
  shape x = [n; 1; 28; 28] ->
  exists logits,
    forward (NeuralNetwork_train mode (NeuralNetwork_to d (NeuralNetwork_init p))) (Tensor_to d x)
    = Ok logits /\
    shape logits = [n; 10] /\ dev logits = d.
Proof.
  intros Hs. unfold Tensor_to. rewrite Hs, forward_train_mode.
  destruct (@forward_logits F _ p d n [1; 28; 28] (data x) eq_refl)
    as (logits & Hf & Hsh & Hd & _); [discriminate|].
  now exists logits.
Qed.

Lemma train_batch_returns (d : Device) (size i : nat) (b : Tensor F * LabelTensor)
    (s0 : list Line) (k : nat) (w : World F) :
  accepts_logits loss_fn -> ready d s0 k w -> image_batch b ->
  exists w', train_batch loss_fn autograd neg_lr d size i b w = (Ok tt, w') /\ ready d s0 k w'.
Proof.
  intros Hacc (Hc & Hg & Hp) (Hne & Hsh & Hlab).
  pose proof Hc as (p & mode & Hm).
  destruct (forward_on_image_batch p mode d (fst b) Hsh) as (logits & Hf & Hls & Hld).
  destruct (Hacc logits (Label_to d (snd b)) Hne Hls Hld Hlab) as (l & Hl).
  unfold train_batch, tensor_to, label_to, model_call, loss_call, optimizer_zero_grad,
    loss_backward, optimizer_step, loss_item, print, set_grads, set_model, log, bind, lift, ret,
    NeuralNetwork_call.
  cbn [fst snd model grads grad_enabled files stdout calls].
  rewrite Hm, Hf. cbn [rbind fst snd model grads grad_enabled files stdout calls value].
  rewrite Hl. cbn [rbind fst snd model grads grad_enabled files stdout calls value grad_fn
                   loss_grad_fn item].
  rewrite Hg. cbn [fst snd model grads grad_enabled files stdout calls].
  rewrite <- Hm.
  assert (Hstep : forall g, canonical d (NeuralNetwork_map_named (sgd_update neg_lr g) (model w))
                                      g true).
  { intros g. apply canonical_step. exact Hc. }
  destruct (i mod 100 =? 0); cbn [fst snd model grads grad_enabled files stdout calls];
    (eexists; split; [reflexivity|]); (split; [apply Hstep|]); (split; [reflexivity|]).
  - rewrite <- (Nat.add_0_r k). eapply printed_more with (more := [LossLine _ _ _]); [exact Hp|].
    reflexivity.
  - eapply printed_same; [exact Hp | reflexivity].
Qed.

Lemma train_returns (d : Device) (dl : DataLoader F) (s0 : list Line) (k : nat) (w : World F) :
  accepts_logits loss_fn -> ready d s0 k w -> image_dataset (dataset dl) ->
  exists w', train loss_fn autograd neg_lr d dl w = (Ok tt, w') /\ ready d s0 k w'.
Proof.
  intros Hacc (Hc & Hg & Hp) Hds. unfold train.
  erewrite bind_ok by reflexivity.
  destruct (batches_image dl Hds) as (bs & Ebs & Hb).
  apply for_each_returns with (I := ready d s0 k).
  - intros [j rb] w1 Hin Hw1. unfold enumerate in Hin. apply in_combine_r in Hin.
    rewrite Ebs in Hin. apply in_map_iff in Hin. destruct Hin as (b & <- & Hin).
    rewrite Forall_forall in Hb.
    destruct (@train_batch_returns d (length (dataset dl)) j b s0 k w1 Hacc Hw1 (Hb b Hin))
      as (w2 & E & H2).
    exists w2. split; [|exact H2]. erewrite bind_ok by reflexivity. exact E.
  - split; [|split].
    + unfold holds in *. cbn [model grads grad_enabled]. now apply canonical_train.
    + exact Hg.
    + eapply printed_same; [exact Hp | reflexivity].
Qed.

End RunFacts.

Section TestRunFacts.
Context {F : Type} `{Scalar F}.
Local Open Scope py_scope.

Variable loss_fn : Tensor F -> LabelTensor -> result PyFloat.

(** On a batch of [n] images a NeuralNetwork on [d] and a loss function that
    accepts its logits give the body of [test]'s loop what it needs. *)
Lemma batch_eval_ok (d : Device) (m : NeuralNetwork F) (g : Grads F) (gm : bool)
    (b : Tensor F * LabelTensor) :
  accepts_logits loss_fn -> canonical d m g gm -> image_batch b ->
  exists o, batch_eval loss_fn d m b = Ok o.
Proof.
  intros Hacc (p & mode & ->) (Hne & Hsh & Hlab).
  destruct (forward_on_image_batch p mode d (fst b) Hsh) as (logits & Hf & Hls & Hld).
  destruct (Hacc logits (Label_to d (snd b)) Hne Hls Hld Hlab) as (l & Hl).
  unfold batch_eval, NeuralNetwork_call. rewrite Hf. cbn [rbind]. rewrite Hl. cbn [rbind].
  unfold correct_count, argmax_1. rewrite Hls, Hld. cbn [Nat.eqb rbind Label_to ldev labels].
  rewrite Device_eqb_refl, length_map, rows_length, Nat.eqb_refl. cbn [negb rbind].
  eexists. reflexivity.
Qed.

Lemma eval_batches_ok (d : Device) (m : NeuralNetwork F) (g : Grads F) (gm : bool)
    (bs : list (Tensor F * LabelTensor)) :
  accepts_logits loss_fn -> canonical d m g gm -> Forall image_batch bs ->
  exists outs, eval_batches loss_fn d m (map Ok bs) = Ok outs /\ length outs = length bs.
Proof.
  intros Hacc Hc Hbs. induction Hbs as [|b bs Hb _ (outs & E & Hl)]; [now exists []|].
  destruct (batch_eval_ok Hacc Hc Hb) as (o & Eo).
  exists (o :: outs). cbn [map eval_batches rbind length]. now rewrite Eo, E, Hl.
Qed.

Lemma test_returns (d : Device) (dl : DataLoader F) (s0 : list Line) (k : nat) (w : World F) :
  accepts_logits loss_fn -> ready d s0 k w -> image_dataset (dataset dl) -> dataset dl <> [] ->
  exists w', test loss_fn d dl w = (Ok tt, w') /\ ready d s0 (S k) w'.
Proof.
  intros Hacc (Hc & Hg & Hp) Hds Hne.
  assert (Hc' : canonical d (NeuralNetwork_train false (model w)) (grads w) (grad_enabled w)).
  { now apply canonical_train. }
  destruct (batches_image dl Hds) as (bs & Ebs & Hb).
  destruct (eval_batches_ok Hacc Hc' Hb) as (outs & Eo & Hl).
  destruct (test_run loss_fn d dl w) as (w' & Hm & Hg' & Hr).
  rewrite Ebs, Eo in Hr.
  assert (Hn : length outs <> 0).
  { rewrite Hl, <- (length_map (@Ok (Tensor F * LabelTensor))), <- Ebs, batches_length.
    now apply DataLoader_len_pos. }
  destruct outs as [|o outs]; [cbn in Hn; congruence|].
  destruct Hr as (E & Hs).
  exists w'. split; [exact E|]. split; [|split].
  - unfold holds. rewrite Hm. destruct Hc' as (p & mode & Ec). now exists p, mode.
  - now rewrite Hg'.
  - replace (S k) with (k + 1) by lia.
    change 1 with (test_lines [TestLine
                     (float_mul (float_of_nat 100)
                        (float_div (float_sum (map (fun o : PyFloat * nat => float_of_nat (snd o))
                                                   (o :: outs)))
                                   (float_of_nat (length (dataset dl)))))
                     (float_div (float_sum (map fst (o :: outs)))
                                (float_of_nat (length (map (@Ok (Tensor F * LabelTensor)) bs))))]).
    eapply printed_more; [exact Hp | exact Hs].
Qed.

End TestRunFacts.

(** * A run of the quickstart notebook *)

Section QuickstartRun.
Context {F : Type} `{Scalar F}.
Local Open Scope py_scope.

Variable loss_fn : Tensor F -> LabelTensor -> result PyFloat.
Variable autograd : NeuralNetwork F -> Tensor F -> LabelTensor -> Grads F.
Variable neg_lr : F.
Variable cuda_is_available : bool.

Lemma print_first_batch_returns (dl : DataLoader F) (w : World F) :
  image_dataset (dataset dl) ->
  exists w' more,
    print_first_batch dl w = (Ok tt, w') /\ grad_enabled w' = grad_enabled w /\
    stdout w' = stdout w ++ more /\ test_lines more = 0.
Proof.
  intros Hds. destruct (batches_image dl Hds) as (bs & Ebs & _).
  unfold print_first_batch. rewrite Ebs. destruct bs as [|b bs]; cbn [map].
  - exists w, []. now rewrite app_nil_r.
  - eexists _, [_; _]. unfold bind, print, lift.
    cbn [fst snd model grads grad_enabled files stdout calls].
    split; [reflexivity|]. split; [reflexivity|]. rewrite <- app_assoc. now split.
Qed.

Lemma load_model_ok (path : string) (sd : StateDict F) (m' : NeuralNetwork F)
    (keys : IncompatibleKeys) (w : World F) :
  files w path = Some sd -> load_state_dict (model w) sd = (m', Ok keys) ->
  load_model path w = (Ok keys, mkWorld m' (grads w) (grad_enabled w) (files w) (stdout w)
                                        (calls w)).
Proof. intros Ef El. unfold load_model, torch_load. now rewrite Ef, El. Qed.

(** Loading the parameters of a NeuralNetwork into a new one succeeds and puts
    the saved values in place, on the CPU. *)
Lemma load_trained (trained reinit : Params F) (d : Device) (mode : bool) :
  load_state_dict (NeuralNetwork_init reinit)
    (state_dict (NeuralNetwork_train mode (NeuralNetwork_to d (NeuralNetwork_init trained)))) =
  (NeuralNetwork_init trained, Ok {| missing_keys := []; unexpected_keys := [] |}).
Proof. reflexivity. Qed.

Lemma forward_single_image (p : Params F) (mode : bool) (x : Tensor F) :
  shape x = [1; 28; 28] ->
  exists logits,
    forward (NeuralNetwork_train mode (NeuralNetwork_init p)) (Tensor_to cpu x) = Ok logits /\
    shape logits = [1; 10].
Proof.
  intros Hs. unfold Tensor_to. rewrite Hs, forward_train_mode.
  change (NeuralNetwork_init p) with (NeuralNetwork_to cpu (NeuralNetwork_init p)).
  destruct (@forward_logits F _ p cpu 1 [28; 28] (data x) eq_refl)
    as (logits & Hf & Hsh & _); [discriminate|].
  exists logits. split; [exact Hf | exact Hsh].
Qed.

Lemma predicted_class_ok (pred : Tensor F) (n : nat) :
  shape pred = [1 + n; 10] -> exists name, predicted_class pred = Ok name /\ In name classes.
Proof.
  intros Hs. unfold predicted_class. rewrite Hs. cbn [Nat.add].
  assert (Hk : argmax (firstn 10 (data pred)) < length classes).
  { change (length classes) with 10. apply argmax_bound; [rewrite length_firstn; lia | lia]. }
  destruct (nth_error classes (argmax (firstn 10 (data pred)))) as [name|] eqn:En;
    [|apply nth_error_None in En; lia].
  exists name. split; [reflexivity|]. eapply nth_error_In. exact En.
Qed.

Lemma class_name_ok (y : nat) : y < 10 -> exists name, class_name y = Ok name.
Proof.
  intros Hy. unfold class_name.
  destruct (nth_error classes y) as [name|] eqn:En; [now exists name|].
  apply nth_error_None in En. change (length classes) with 10 in En. lia.
Qed.

Lemma epoch_returns (d : Device) (train_dl test_dl : DataLoader F) (t : nat)
    (s0 : list Line) (k : nat) (w : World F) :
  accepts_logits loss_fn ->
  image_dataset (dataset train_dl) -> image_dataset (dataset test_dl) -> dataset test_dl <> [] ->
  ready d s0 k w ->
  exists w',
    (print (TextLine ("Epoch " ++ index_name (t + 1) ++ newline
                      ++ "-------------------------------")) ;;
     train loss_fn autograd neg_lr d train_dl ;;
     test loss_fn d test_dl) w = (Ok tt, w') /\
    ready d s0 (S k) w'.
Proof.
  intros Hacc Htr Hte Hne (Hc & Hg & Hp).
  erewrite bind_ok by reflexivity.
  match goal with |- context [bind _ _ ?w1] =>
    assert (H1 : ready d s0 k w1) end.
  { split; [exact Hc|]. split; [exact Hg|].
    rewrite <- (Nat.add_0_r k). eapply printed_more with (more := [TextLine _]); [exact Hp|].
    reflexivity. }
  destruct (train_returns autograd neg_lr train_dl Hacc H1 Htr) as (w2 & E2 & H2).
  erewrite bind_ok by exact E2.
  now apply test_returns.
Qed.

Lemma quickstart_training_returns (init : Params F) (training_data test_data : Dataset F)
    (w : World F) :
  accepts_logits loss_fn ->
  image_dataset training_data -> image_dataset test_data -> test_data <> [] ->
  grad_enabled w = true ->
  exists dl w',
    quickstart_training loss_fn autograd neg_lr cuda_is_available init training_data test_data w
    = (Ok dl, w') /\
    ready (device cuda_is_available) (stdout w) epochs w'.
Proof.
  intros Hacc Htr Hte Hne Hg. unfold quickstart_training.
  erewrite bind_ok by reflexivity.
  erewrite bind_ok by reflexivity.
  set (train_dl := {| dataset := training_data; batch_size := Pos.of_nat 64 |}).
  set (test_dl := {| dataset := test_data; batch_size := Pos.of_nat 64 |}).
  destruct (print_first_batch_returns test_dl w Hte) as (w1 & more & E1 & Hg1 & Hs1 & Hk1).
  erewrite bind_ok by exact E1.
  py_step. py_step. py_step. py_step.
  match goal with |- context [bind (for_each _ _) _ ?w5] =>
    assert (H5 : ready (device cuda_is_available) (stdout w) 0 w5) end.
  { split; [apply canonical_new_to|]. split; [cbn [grad_enabled]; congruence|].
    exists (more ++ [TextLine ("Using " ++ device_name (device cuda_is_available) ++ " device");
                     ReprLine "NeuralNetwork"]).
    cbn [stdout]. rewrite Hs1, <- !app_assoc. split; [reflexivity|].
    rewrite test_lines_app, Hk1. reflexivity. }
  destruct (@for_each_counts F nat (ready (device cuda_is_available) (stdout w)) (seq 0 epochs)
              (fun t =>
                 print (TextLine ("Epoch " ++ index_name (t + 1) ++ newline
                                  ++ "-------------------------------")) ;;
                 train loss_fn autograd neg_lr (device cuda_is_available) train_dl ;;
                 test loss_fn (device cuda_is_available) test_dl)
              (fun t k w0 Hw0 => epoch_returns train_dl test_dl t Hacc Htr Hte Hne Hw0)
              0 _ H5) as (w6 & E6 & H6).
  erewrite bind_ok by exact E6.
  py_step. eexists _, _. split; [reflexivity|].
  destruct H6 as (Hc6 & Hg6 & Hp6). split; [exact Hc6|]. split; [exact Hg6|].
  rewrite <- (Nat.add_0_r epochs).
  eapply printed_more with (more := [TextLine _]); [exact Hp6 | reflexivity].
Qed.

Lemma quickstart_reload_returns (reinit : Params F) (test_data : Dataset F)
    (d : Device) (w : World F) :
  image_dataset test_data -> test_data <> [] ->
  holds (canonical d) w -> grad_enabled w = true ->
  exists w' trained predicted actual it,
    quickstart_reload reinit test_data w = (Ok tt, w') /\
    files w' "model.pth"%string =
      Some (state_dict (NeuralNetwork_to d (NeuralNetwork_init trained))) /\
    model w' = NeuralNetwork_train false (NeuralNetwork_init trained) /\
    grad_enabled w' = true /\
    stdout w' = stdout w ++ [TextLine "Saved PyTorch Model State to model.pth";
                             PredictedLine predicted actual] /\
    In predicted classes /\
    hd_error test_data = Some it /\ class_name (snd it) = Ok actual.
Proof.
  intros Hte Hne (trained & mode & Hm) Hg.
  destruct test_data as [|it rest]; [congruence|].
  inversion Hte as [|? ? [Hshape Hy] _]; subst.
  destruct (forward_single_image trained false (fst it) Hshape) as (logits & Hf & Hls).
  destruct (predicted_class_ok logits (n := 0) Hls) as (predicted & Hpc & Hin).
  destruct (class_name_ok Hy) as (actual & Hcn).
  destruct w as [m g ge fs out cs]. cbn [model grad_enabled] in Hm, Hg. subst m ge.
  unfold quickstart_reload.
  py_step. py_step. py_step.
  erewrite bind_ok;
    [|apply load_model_ok with (sd := state_dict (NeuralNetwork_train mode
                                   (NeuralNetwork_to d (NeuralNetwork_init trained))));
      [reflexivity | apply load_trained]].
  py_simpl. py_step. py_step.
  erewrite no_grad_ok.
  2: { erewrite bind_ok; [|apply model_call_ok; exact Hf]. py_simpl. cbn [value].
       erewrite bind_ok by (unfold lift; rewrite Hpc; reflexivity).
       erewrite bind_ok by (unfold lift; rewrite Hcn; reflexivity).
       reflexivity. }
  eexists _, trained, predicted, actual, it.
  split; [reflexivity|].
  split; [reflexivity|]. split; [reflexivity|]. split; [reflexivity|].
  split; [cbn [stdout set_grad_enabled print snd]; now rewrite <- app_assoc|].
  split; [exact Hin|]. split; [reflexivity | exact Hcn].
Qed.

End QuickstartRun.

(** X10: the quickstart notebook runs to its end on image data.  For datasets
    of one-channel 28x28 images with classes among the ten, a non-empty test
    set, a loss function that accepts ten logits per label, and gradient
    tracking on at the start, with or without a GPU: the cells return, five
    test reports are printed, "model.pth" holds the parameters of the trained
    model, the model left at the end is a NeuralNetwork on the CPU in
    evaluation mode with those parameter values, gradient tracking is on
    again, and the last line shows a predicted class that is one of the ten
    names and the name of the first test example's class. *)
Theorem quickstart_runs_to_its_end :
  forall (F : Type) (S : Scalar F) (loss_fn : Tensor F -> LabelTensor -> result PyFloat)
         (autograd : NeuralNetwork F -> Tensor F -> LabelTensor -> Grads F) (neg_lr : F)
         (cuda_is_available : bool) (init reinit : Params F)
         (training_data test_data : Dataset F) (w : World F),
    accepts_logits loss_fn ->
    image_dataset training_data -> image_dataset test_data -> test_data <> [] ->
    grad_enabled w = true ->
    exists w' trained printed predicted actual it,
      quickstart loss_fn autograd neg_lr cuda_is_available init reinit training_data test_data w
      = (Ok tt, w') /\
      test_lines printed = epochs /\
      stdout w' = stdout w ++ printed ++ [TextLine "Saved PyTorch Model State to model.pth";
                                          PredictedLine predicted actual] /\
      In predicted classes /\
      hd_error test_data = Some it /\ class_name (snd it) = Ok actual /\
      files w' "model.pth"%string =
        Some (state_dict (NeuralNetwork_to (device cuda_is_available)
                                           (NeuralNetwork_init trained))) /\
      model w' = NeuralNetwork_train false (NeuralNetwork_init trained) /\
      grad_enabled w' = true.
Proof.
  intros F S loss_fn autograd neg_lr avail init reinit training_data test_data w
         Hacc Htr Hte Hne Hg.
  destruct (quickstart_training_returns autograd neg_lr avail init w Hacc Htr Hte Hne Hg)
    as (dl & w1 & E1 & Hc1 & Hg1 & (printed & Hs1 & Hk1)).
  destruct (quickstart_reload_returns reinit Hte Hne Hc1 Hg1)
    as (w2 & trained & predicted & actual & it & E2 & Hfiles & Hm & Hg2 & Hs2 & Hin & Hit & Hcn).
  exists w2, trained, printed, predicted, actual, it.
  split; [unfold quickstart; erewrite bind_ok by exact E1; exact E2|].
  split; [exact Hk1|]. split; [now rewrite Hs2, Hs1, <- app_assoc|].
  repeat (split; [assumption|]). assumption.
Qed.

Lemma quickstart_runs_to_its_end_witness :
  exists w' trained printed predicted actual it,
    quickstart constant_loss unit_gradient (-1)%Z false zero_params zero_params
               three_examples three_examples initial_world
    = (Ok tt, w') /\
    test_lines printed = epochs /\
    stdout w' = stdout initial_world ++ printed
                ++ [TextLine "Saved PyTorch Model State to model.pth";
                    PredictedLine predicted actual] /\
    In predicted classes /\
    hd_error three_examples = Some it /\ class_name (snd it) = Ok actual /\
    files w' "model.pth"%string =
      Some (state_dict (NeuralNetwork_to (device false) (NeuralNetwork_init trained))) /\
    model w' = NeuralNetwork_train false (NeuralNetwork_init trained) /\
    grad_enabled w' = true.
Proof.
  apply (@quickstart_runs_to_its_end Z Scalar_Z constant_loss unit_gradient (-1)%Z false
           zero_params zero_params three_examples three_examples initial_world).
  - intros pred y _ _ _ _. exists one_half. reflexivity.
  - repeat constructor.
  - repeat constructor.
  - discriminate.
  - reflexivity.
Defined.

Section EmptyTestData.
Context {F : Type} `{Scalar F}.
Local Open Scope py_scope.

Variable loss_fn : Tensor F -> LabelTensor -> result PyFloat.
Variable autograd : NeuralNetwork F -> Tensor F -> LabelTensor -> Grads F.
Variable neg_lr : F.
Variable cuda_is_available : bool.

Lemma test_empty_raises (d : Device) (dl : DataLoader F) (w : World F) :
  dataset dl = [] ->
  exists w', test loss_fn d dl w = (Raise ZeroDivisionError, w') /\ stdout w' = stdout w.
Proof.
  intros He. unfold test. rewrite (batches_empty dl He), (DataLoader_len_empty dl He).
  eexists. split; reflexivity.
Qed.

Lemma quickstart_training_raises (init : Params F) (training_data : Dataset F) (w : World F) :
  accepts_logits loss_fn -> image_dataset training_data -> grad_enabled w = true ->
  exists w',
    quickstart_training loss_fn autograd neg_lr cuda_is_available init training_data [] w
    = (Raise ZeroDivisionError, w') /\
    printed (stdout w) 0 w'.
Proof.
  intros Hacc Htr Hg. unfold quickstart_training.
  erewrite bind_ok by reflexivity.
  erewrite bind_ok by reflexivity.
  set (train_dl := {| dataset := training_data; batch_size := Pos.of_nat 64 |}).
  set (test_dl := {| dataset := []; batch_size := Pos.of_nat 64 |}).
  destruct (print_first_batch_returns test_dl w (Forall_nil _))
    as (w1 & more & E1 & Hg1 & Hs1 & Hk1).
  erewrite bind_ok by exact E1.
  py_step. py_step. py_step. py_step.
  match goal with |- context [bind (for_each _ _) _ ?w5] =>
    assert (H5 : ready (device cuda_is_available) (stdout w) 0 w5) end.
  { split; [apply canonical_new_to|]. split; [cbn [grad_enabled]; congruence|].
    exists (more ++ [TextLine ("Using " ++ device_name (device cuda_is_available) ++ " device");
                     ReprLine "NeuralNetwork"]).
    cbn [stdout]. rewrite Hs1, <- !app_assoc. split; [reflexivity|].
    rewrite test_lines_app, Hk1. reflexivity. }
  change (seq 0 epochs) with (0 :: seq 1 4). cbn [for_each].
  rewrite ?bind_assoc_w. py_step. rewrite ?bind_assoc_w.
  match goal with |- context [bind (train _ _ _ _ _) _ ?w1'] =>
    assert (H1 : ready (device cuda_is_available) (stdout w) 0 w1') end.
  { destruct H5 as (Hc & Hg5 & Hp). split; [exact Hc|]. split; [exact Hg5|].
    rewrite <- (Nat.add_0_r 0). eapply printed_more with (more := [TextLine _]); [exact Hp|].
    reflexivity. }
  destruct (train_returns autograd neg_lr train_dl Hacc H1 Htr) as (w2 & E2 & (_ & _ & Hp2)).
  erewrite bind_ok by exact E2. rewrite ?bind_assoc_w.
  destruct (test_empty_raises (device cuda_is_available) test_dl w2 eq_refl) as (w3 & E3 & Hs3).
  exists w3. split.
  - erewrite bind_raise by exact E3. reflexivity.
  - eapply printed_same; [exact Hp2 | exact Hs3].
Qed.

End EmptyTestData.

(** X11: on an empty test set the quickstart never reaches "Done!": whatever
    the (image) training data, the first epoch trains and then [test] divides
    by zero, so the notebook stops with ZeroDivisionError before any test
    report is printed. *)
Theorem quickstart_stops_on_empty_test_data :
  forall (F : Type) (S : Scalar F) (loss_fn : Tensor F -> LabelTensor -> result PyFloat)
         (autograd : NeuralNetwork F -> Tensor F -> LabelTensor -> Grads F) (neg_lr : F)
         (cuda_is_available : bool) (init reinit : Params F)
         (training_data : Dataset F) (w : World F),
    accepts_logits loss_fn -> image_dataset training_data -> grad_enabled w = true ->
    exists w' new,
      quickstart loss_fn autograd neg_lr cuda_is_available init reinit training_data [] w
      = (Raise ZeroDivisionError, w') /\
      stdout w' = stdout w ++ new /\
      test_lines new = 0.
Proof.
  intros F S loss_fn autograd neg_lr avail init reinit training_data w Hacc Htr Hg.
  destruct (quickstart_training_raises autograd neg_lr avail init w Hacc Htr Hg)
    as (w' & E & (new & Hs & Hk)).
  exists w', new. split; [unfold quickstart; erewrite bind_raise by exact E; reflexivity|].
  split; [exact Hs | exact Hk].
Qed.

Lemma quickstart_stops_on_empty_test_data_witness :
  exists w' new,
    quickstart constant_loss no_gradient (-1)%Z false zero_params zero_params
               three_examples [] initial_world
    = (Raise ZeroDivisionError, w') /\
    stdout w' = stdout initial_world ++ new /\
    test_lines new = 0.
Proof.
  apply (@quickstart_stops_on_empty_test_data Z Scalar_Z constant_loss no_gradient (-1)%Z false
           zero_params zero_params three_examples initial_world).
  - intros pred y _ _ _ _. exists one_half. reflexivity.
  - repeat constructor.
  - reflexivity.
Defined.

(** * The progress lines of [train] *)

Section ProgressFacts.
Context {F : Type} `{Scalar F}.

Lemma Forall2_filter_enumerate {B} (P : Line -> nat * B -> Prop) (P' : Line -> nat -> Prop)
    (g : nat -> bool) (l : list B) :
  forall (k : nat) (printed : list Line),
    (forall line i b, nth_error l i = Some b -> P line (k + i, b) -> P' line (k + i)) ->
    Forall2 P printed (filter (fun ib => g (fst ib)) (combine (seq k (length l)) l)) ->
    Forall2 P' printed (filter g (seq k (length l))).
Proof.
  induction l as [|b l IH]; intros k printed HP Hall; cbn [length seq combine filter] in *.
  - inversion Hall. constructor.
  - cbn [fst] in Hall.
    assert (Hrest : forall line i b', nth_error l i = Some b' ->
                      P line (S k + i, b') -> P' line (S k + i)).
    { intros line i b' Hn Hp. replace (S k + i) with (k + S i) in * by lia.
      now apply HP with (b := b'). }
    destruct (g k).
    + inversion Hall as [|line ib printed' rest Hline Hrest']; subst.
      constructor; [|now apply IH].
      specialize (HP line 0 b eq_refl). rewrite Nat.add_0_r in HP. now apply HP.
    + now apply IH.
Qed.

End ProgressFacts.

(** X12: the progress lines [train] prints are fixed by the number N of
    examples and the batch size alone, but for the loss values: when [train]
    returns, it has printed one line for each batch index i that is a multiple
    of 100 below ceil(N / batch_size), in order, showing
    i * min(batch_size, N - i * batch_size) out of N. *)
Theorem train_progress_lines :
  forall (F : Type) (S : Scalar F) (loss_fn : Tensor F -> LabelTensor -> result PyFloat)
         (autograd : NeuralNetwork F -> Tensor F -> LabelTensor -> Grads F) (neg_lr : F)
         (device : Device) (dataloader : DataLoader F) (w : World F),
    fst (train loss_fn autograd neg_lr device dataloader w) = Ok tt ->
    let N := length (dataset dataloader) in
    let bs := Pos.to_nat (batch_size dataloader) in
    exists lines,
      stdout (snd (train loss_fn autograd neg_lr device dataloader w)) = stdout w ++ lines /\
      Forall2 (fun line i => exists loss, line = LossLine loss (i * batch_len N bs i) N)
              lines (progress_batches N bs).
Proof.
  intros F S loss_fn autograd neg_lr device dl w. unfold train, enumerate.
  erewrite bind_ok by reflexivity. intros Hok. cbv zeta.
  destruct (train_loop_ok loss_fn autograd neg_lr device (length (dataset dl)) (batches dl) 0 _ Hok)
    as (bs & steps & new & lines & El & _ & _ & _ & _ & _ & _ & _ & _ & Hs & _ & Hp).
  exists lines. split; [exact Hs|].
  unfold progress_batches. fold (DataLoader_len dl).
  rewrite <- batches_length, El, length_map.
  revert Hp. apply Forall2_filter_enumerate with (g := fun i => i mod 100 =? 0).
  intros line i b Hn (loss & ->). exists loss. cbn [fst snd Nat.add].
  rewrite (batches_nth_len dl i (b := b)); [reflexivity|].
  rewrite El. now apply map_nth_error.
Qed.

Lemma train_progress_lines_witness :
  exists lines,
    stdout (snd (train constant_loss unit_gradient (-1)%Z cpu sample_loader initial_world))
    = stdout initial_world ++ lines /\
    Forall2 (fun line i => exists loss, line = LossLine loss (i * batch_len 3 2 i) 3)
            lines (progress_batches 3 2).
Proof.
  apply (@train_progress_lines Z Scalar_Z constant_loss unit_gradient (-1)%Z cpu sample_loader
           initial_world).
  vm_compute. reflexivity.
Defined.

(** X13: the recorded output of the five-epoch cell against the code.  The
    counters of the recorded progress lines are, epoch after epoch, those
    [train] prints for 60000 examples in batches of 64 (ten lines, from
    [    0/60000] to [57600/60000]), except that every recorded line lacks the
    closing bracket that the format string of [train] ends with. *)
Theorem recorded_progress_counters_lack_the_bracket :
  map (fun c => (c ++ "]")%string) (recorded_counters Recorded.epochs_stdout) =
  concat (repeat (map (fun i => progress_counter (i * batch_len (60 * 1000) 64 i) (60 * 1000))
                      (progress_batches (60 * 1000) 64))
                 epochs) /\
  length (progress_batches (60 * 1000) 64) = 10.
Proof. split; vm_compute; reflexivity. Qed.

(** X14: the cell that looks at the first test batch prints the sizes of a
    batch of min(64, N) images: for a dataset of N one-channel 28x28 images,
    DataLoader(test_data, batch_size=64) is built and the loop prints
    [min(64, N), 1, 28, 28] for X and [min(64, N)] for y, so [64, 1, 28, 28]
    and [64], as recorded, once there are 64 examples; on an empty dataset it
    prints nothing. *)
Theorem first_batch_cell_prints_batch_sizes :
  forall (F : Type) (S : Scalar F) (test_data : Dataset F) (w : World F),
    image_dataset test_data ->
    exists test_dataloader w',
      DataLoader_new test_data 64 = Ok test_dataloader /\
      print_first_batch test_dataloader w = (Ok tt, w') /\
      stdout w' = stdout w ++
        match test_data with
        | [] => []
        | _ => [ShapeLine "X" [Nat.min 64 (length test_data); 1; 28; 28];
                ShapeLine "y" [Nat.min 64 (length test_data)]]
        end.
Proof.
  intros F S test_data w Hds.
  destruct test_data as [|[x y] rest]; (eexists _, _; split; [reflexivity|]);
    unfold print_first_batch, batches; cbn [dataset batch_size];
    change (Pos.to_nat (Pos.of_nat 64)) with 64; cbn [length chunks map].
  - split; [reflexivity|]. now rewrite app_nil_r.
  - assert (Hs : Forall (fun it : Tensor F * nat => shape (fst it) = [1; 28; 28])
                        (firstn 64 ((x, y) :: rest))).
    { apply Forall_firstn_of. revert Hds. apply Forall_impl. tauto. }
    assert (Hne : firstn 64 ((x, y) :: rest) <> []) by discriminate.
    rewrite (collate_uniform Hne Hs).
    unfold bind, print, lift. cbn [fst snd model grads grad_enabled files stdout calls].
    split; [reflexivity|].
    rewrite <- app_assoc. cbn [app shape labels fst snd].
    rewrite length_map, length_firstn. reflexivity.
Qed.

Lemma first_batch_cell_prints_batch_sizes_witness :
  exists test_dataloader w',
    DataLoader_new three_examples 64 = Ok test_dataloader /\
    print_first_batch test_dataloader initial_world = (Ok tt, w') /\
    stdout w' = stdout initial_world ++
      [ShapeLine "X" [Nat.min 64 (length three_examples); 1; 28; 28];
       ShapeLine "y" [Nat.min 64 (length three_examples)]].
Proof.
  apply (@first_batch_cell_prints_batch_sizes Z Scalar_Z three_examples initial_world).
  repeat constructor.
Defined.

(** X15: the sizes along the forward pass, for a minibatch of [N] images of
    28x28 values of the parameters' dtype on the model's device: Flatten keeps
    the elements and gives size [N, 784], the batch axis kept, and
    NeuralNetwork.forward returns [N * 10] logits of size [N, 10] on that
    device; for every parameter value and every [N], also 0. *)
Theorem flatten_and_forward_sizes :
  forall (F : Type) (S : Scalar F) (i : Params F) (d : Device) (N : nat) (xs : list F),
    flatten_fn 1 (-1) (mkTensor [N; 28; 28] xs d) = Ok (mkTensor [N; 784] xs d) /\
    exists logits,
      forward (NeuralNetwork_to d (NeuralNetwork_init i)) (mkTensor [N; 28; 28] xs d) = Ok logits /\
      shape logits = [N; 10] /\ dev logits = d /\ length (data logits) = N * 10.
Proof.
  intros F S i d N xs. split; [apply flatten_images|].
  apply forward_logits; [reflexivity | discriminate].
Qed.
